(** * YAKS [run] command: a shallow embedding of [pkg/cmd/run.go]

    The development follows the Go source function by function.  Text is
    [string], Go slices are lists (an [option (list _)] where the source
    tests a slice against [nil]), pointers that the source mutates
    ([results], the receiver [o], [runConfig]) are threaded as state, and
    every call that leaves the process (cluster client, scripts, files) goes
    through the [Platform] interface and is recorded in a ghost trace. *)

From stdpp Require Import base option list strings pretty gmap.
From Stdlib Require Import ZArith.

Set Warnings "-clear-no-such-hyp,-register-all".

Open Scope string_scope.
Open Scope list_scope.

(** ** The Go [strings] package, as far as [run.go] uses it *)

Module strings.

Fixpoint HasPrefix (s pre : string) {struct pre} : bool :=
  match pre with
  | EmptyString => true
  | String a pre' =>
      match s with
      | EmptyString => false
      | String b s' => Ascii.eqb a b && HasPrefix s' pre'
      end
  end.

Fixpoint drop (n : nat) (s : string) : string :=
  match n, s with
  | O, _ => s
  | S n', String _ s' => drop n' s'
  | S _, EmptyString => EmptyString
  end.

Definition TrimPrefix (s pre : string) : string :=
  if HasPrefix s pre then drop (String.length pre) s else s.

Fixpoint Contains (s substr : string) : bool :=
  HasPrefix s substr ||
  match s with
  | EmptyString => false
  | String _ s' => Contains s' substr
  end.

Fixpoint HasSuffix (s suffix : string) : bool :=
  String.eqb s suffix ||
  match s with
  | EmptyString => false
  | String _ s' => HasSuffix s' suffix
  end.

(** [genSplit sep skip cur s]: scan [s] from the left; [cur] is the piece
    collected since the last separator and [skip] counts the characters of
    a separator that was just matched and is still to be dropped. *)
Fixpoint genSplit (sep : string) (skip : nat) (cur s : string) : list string :=
  match s with
  | EmptyString => [cur]
  | String c s' =>
      match skip with
      | S k => genSplit sep k cur s'
      | O =>
          if HasPrefix s sep
          then cur :: genSplit sep (String.length sep - 1) "" s'
          else genSplit sep 0 (cur +:+ String c "") s'
      end
  end.

Fixpoint explode (s : string) : list string :=
  match s with
  | EmptyString => []
  | String c s' => String c "" :: explode s'
  end.

Definition Split (s sep : string) : list string :=
  match sep with
  | EmptyString => explode s
  | _ => genSplit sep 0 "" s
  end.

Fixpoint Join (elems : list string) (sep : string) : string :=
  match elems with
  | [] => ""
  | [e] => e
  | e :: rest => e +:+ sep +:+ Join rest sep
  end.

End strings.

Definition nl : string := String (Ascii.ascii_of_nat 10) "".

(** ** The process environment: [runtime.GOOS], [runtime.GOARCH], [os.LookupEnv] *)

Record Host := {
  GOOS : string;
  GOARCH : string;
  environ : gmap string string;
}.

Definition LookupEnv (h : Host) (key : string) : option string := environ h !! key.

(** ** [config.StepConfig] *)

Record StepConfig := {
  step_Name : string;
  step_Script : string;
  step_Run : string;
  step_If : string;
  step_Timeout : string;
}.

(** ** [skipStep]

    [None] is a Go run-time panic (index out of range on [keyValue[1]]). *)

(** Outcome of one pass through the body of the [for] loop. *)
Inductive Iter :=
| IterReturn (b : bool)       (* [return b] *)
| IterNext (skipStep : bool). (* fall out of the body, or [continue] *)

Definition keyValueOf (condition : string) : list string :=
  if strings.Contains condition "=" then strings.Split condition "="
  else [condition].

Definition skipStep_body (h : Host) (skipStep : bool) (condition : string) : option Iter :=
  let keyValue := keyValueOf condition in
  k0 ← keyValue !! 0%nat;
  skipStep ←
    (if String.eqb k0 "os"
     then v ← keyValue !! 1%nat; Some (negb (String.eqb v (GOOS h)))
     else Some skipStep);
  if strings.HasPrefix k0 "env:" then
    match LookupEnv h (strings.TrimPrefix k0 "env:") with
    | Some value =>
        if Nat.eqb (length keyValue) 1 then Some (IterNext skipStep)
        else
          v ← keyValue !! 1%nat;
          let skipStep := negb (String.eqb v value) in
          Some (if skipStep then IterReturn true else IterNext skipStep)
    | None => Some (IterReturn true)
    end
  else Some (if skipStep then IterReturn true else IterNext skipStep).

Fixpoint skipStep_loop (h : Host) (skipStep : bool) (conditions : list string) : option bool :=
  match conditions with
  | [] => Some false
  | condition :: rest =>
      it ← skipStep_body h skipStep condition;
      match it with
      | IterReturn b => Some b
      | IterNext skipStep => skipStep_loop h skipStep rest
      end
  end.

Definition skipStep (h : Host) (step : StepConfig) : option bool :=
  if String.eqb (step_If step) "" then Some false
  else skipStep_loop h false (strings.Split (step_If step) " && ").

(** *** The conjunction the specification describes

    Typed clauses [os=<value>], [env:<NAME>] and [env:<NAME>=<value>], with
    their meaning written from the specification's words; [skipStep] is
    compared against it below. *)

Inductive Clause :=
| OSEquals (value : string)
| EnvPresent (name : string)
| EnvEquals (name value : string).

Definition render (c : Clause) : string :=
  match c with
  | OSEquals v => "os=" +:+ v
  | EnvPresent n => "env:" +:+ n
  | EnvEquals n v => "env:" +:+ n +:+ "=" +:+ v
  end.

Definition clause_passes (h : Host) (c : Clause) : bool :=
  match c with
  | OSEquals v => String.eqb v (GOOS h)
  | EnvPresent n => bool_decide (is_Some (LookupEnv h n))
  | EnvEquals n v => bool_decide (LookupEnv h n = Some v)
  end.

Definition clause_names (c : Clause) (n : string) : Prop :=
  match c with
  | OSEquals _ => False
  | EnvPresent m | EnvEquals m _ => m = n
  end.

(** Names and values are free of ['=']. *)
Definition plain (s : string) : Prop := strings.Contains s "=" = false.

Definition clause_wf (c : Clause) : Prop :=
  match c with
  | OSEquals v => plain v
  | EnvPresent n => plain n
  | EnvEquals n v => plain n ∧ plain v
  end.

Definition mkStep (cond : string) : StepConfig :=
  {| step_Name := ""; step_Script := ""; step_Run := ""; step_If := cond; step_Timeout := "" |}.

(** ** Errors

    A Go [error] value that may be [nil] is an [option error].  [Reason] is
    what [k8serrors.ReasonForError] reports: empty for errors that do not
    come from the API server. *)

Record error := {
  Reason : string;
  Error : string;
}.

Definition errors_New (msg : string) : error := {| Reason := ""; Error := msg |}.
Definition ReasonForError (err : error) : string := Reason err.
Definition IsAlreadyExists (err : error) : bool := String.eqb (Reason err) "AlreadyExists".
Definition IsNotFound (err : error) : bool := String.eqb (Reason err) "NotFound".

(** ** [v1alpha1]: the Test resource and the result types

    Modelled from the spec: the type declarations of package [v1alpha1] are
    missing; fields and phases are those of the data model (section 3) and
    of the uses in [run.go]. *)

Inductive TestPhase :=
| TestPhaseNone
| TestPhaseNew
| TestPhaseUpdating
| TestPhaseRunning
| TestPhasePassed
| TestPhaseFailed
| TestPhaseError
| TestPhaseDeleting.

#[global] Instance TestPhase_eq_dec : EqDecision TestPhase.
Proof. solve_decision. Defined.

Definition phase_string (p : TestPhase) : string :=
  match p with
  | TestPhaseNone => ""
  | TestPhaseNew => "New"
  | TestPhaseUpdating => "Updating"
  | TestPhaseRunning => "Running"
  | TestPhasePassed => "Passed"
  | TestPhaseFailed => "Failed"
  | TestPhaseError => "Error"
  | TestPhaseDeleting => "Deleting"
  end.

Record TestSuite := {
  Tests : list string;
  Errors : list string;
}.

Record TestResults := {
  Suites : list TestSuite;
}.

Record SourceSpec := {
  Source_Name : string;
  Source_Content : string;
  Source_Language : string;
}.

Record ResourceSpec := {
  Resource_Name : string;
  Resource_Content : string;
}.

Record SettingsSpec := {
  Settings_Name : string;
  Settings_Content : string;
}.

Record TestSpec := {
  Source : SourceSpec;
  Resources : list ResourceSpec;
  Settings : SettingsSpec;
  Env : list string;
  Secret : string;
  Selenium_Image : string;
  KubeDock_Image : string;
  Dev : bool;
}.

Record TestStatus := {
  Phase : TestPhase;
  Results : TestSuite;
}.

Record Test := {
  Kind : string;
  APIVersion : string;
  Namespace : string;
  Name : string;
  ResourceVersion : string;
  Spec : TestSpec;
  Status : TestStatus;
}.

(** The zero values of the Go structs. *)
Definition TestSuite_zero : TestSuite := {| Tests := []; Errors := [] |}.
Definition TestStatus_zero : TestStatus := {| Phase := TestPhaseNone; Results := TestSuite_zero |}.
Definition SettingsSpec_zero : SettingsSpec := {| Settings_Name := ""; Settings_Content := "" |}.

Definition ObjectKey : Type := string * string.
Definition ObjectKeyFromObject (t : Test) : ObjectKey := (Namespace t, Name t).

Definition with_Spec (t : Test) (sp : TestSpec) : Test :=
  {| Kind := Kind t; APIVersion := APIVersion t; Namespace := Namespace t; Name := Name t;
     ResourceVersion := ResourceVersion t; Spec := sp; Status := Status t |}.

Definition with_Status (t : Test) (st : TestStatus) : Test :=
  {| Kind := Kind t; APIVersion := APIVersion t; Namespace := Namespace t; Name := Name t;
     ResourceVersion := ResourceVersion t; Spec := Spec t; Status := st |}.

Definition with_ResourceVersion (t : Test) (rv : string) : Test :=
  {| Kind := Kind t; APIVersion := APIVersion t; Namespace := Namespace t; Name := Name t;
     ResourceVersion := rv; Spec := Spec t; Status := Status t |}.

Definition with_Phase (st : TestStatus) (p : TestPhase) : TestStatus :=
  {| Phase := p; Results := Results st |}.

(** What a condition function of [WaitCondition] is handed: an
    [interface{}] that is a [*v1alpha1.Test] or something else. *)
Inductive Object :=
| ObjTest (t : Test)
| ObjOther.

(** The operator instance, [v1alpha1.Instance]. *)
Record Instance := {
  Instance_Namespace : string;
  Operator_Global : bool;
}.

(** A namespace object as [createTempNamespace] hands it around:
    [metav1.Object] with its name. *)
Record NamespaceObj := {
  ns_Name : string;
  ns_Project : bool;   (* a [ProjectRequest] rather than a [Namespace] *)
}.

(** ** [runCmdOptions] and [config.RunConfig]

    Slices that the source compares with [nil] are [option (list _)]. *)

Record runCmdOptions := {
  o_Namespace : string;            (* [RootCmdOptions.Namespace] *)
  Repositories : list string;
  Dependencies : list string;
  Logger : list string;
  Uploads : list string;
  o_Settings : string;
  o_Env : option (list string);
  Tags : option (list string);
  Features : option (list string);
  o_Resources : list string;
  PropertyFiles : list string;
  Glue : option (list string);
  Options : string;
  DumpFormat : string;
  ReportFormat : string;
  Timeout : string;
  Wait : bool;
  Logs : bool;
  o_Dev : bool;
}.

Definition with_Dependencies (o : runCmdOptions) (deps : list string) : runCmdOptions :=
  {| o_Namespace := o_Namespace o; Repositories := Repositories o; Dependencies := deps;
     Logger := Logger o; Uploads := Uploads o; o_Settings := o_Settings o; o_Env := o_Env o;
     Tags := Tags o; Features := Features o; o_Resources := o_Resources o;
     PropertyFiles := PropertyFiles o; Glue := Glue o; Options := Options o;
     DumpFormat := DumpFormat o; ReportFormat := ReportFormat o; Timeout := Timeout o;
     Wait := Wait o; Logs := Logs o; o_Dev := o_Dev o |}.

Record EnvConfig := {
  EnvConfig_Name : string;
  EnvConfig_Value : string;
}.

Record SettingsConfig := {
  Settings_Dependencies : list string;
  Settings_Repositories : list string;
  Settings_Loggers : list string;
}.

(** Modelled from the spec: the declaration of [config.RunConfig] is
    missing; the fields are those of section 3 and of the uses in [run.go],
    with the nested structs [Config.Namespace], [Config.Runtime], ...
    flattened into one record. *)
Record RunConfig := {
  BaseDir : string;
  Namespace_Name : string;
  Namespace_Temporary : bool;
  Namespace_AutoRemove : bool;
  Recursive : bool;
  Operator_Roles : list string;
  Runtime_Resources : list string;
  Runtime_Env : list EnvConfig;
  Runtime_Secret : string;
  Runtime_Selenium_Image : string;
  Runtime_TestContainers_Enabled : bool;
  Runtime_Settings : SettingsConfig;
  Cucumber_Tags : list string;
  Cucumber_Glue : list string;
  Cucumber_Options : string;
  Config_Timeout : string;
  Pre : list StepConfig;
  Post : list StepConfig;
}.

Definition with_BaseDir (c : RunConfig) (d : string) : RunConfig :=
  {| BaseDir := d; Namespace_Name := Namespace_Name c;
     Namespace_Temporary := Namespace_Temporary c; Namespace_AutoRemove := Namespace_AutoRemove c;
     Recursive := Recursive c; Operator_Roles := Operator_Roles c;
     Runtime_Resources := Runtime_Resources c; Runtime_Env := Runtime_Env c;
     Runtime_Secret := Runtime_Secret c; Runtime_Selenium_Image := Runtime_Selenium_Image c;
     Runtime_TestContainers_Enabled := Runtime_TestContainers_Enabled c;
     Runtime_Settings := Runtime_Settings c; Cucumber_Tags := Cucumber_Tags c;
     Cucumber_Glue := Cucumber_Glue c; Cucumber_Options := Cucumber_Options c;
     Config_Timeout := Config_Timeout c; Pre := Pre c; Post := Post c |}.

Definition with_Namespace_Name (c : RunConfig) (n : string) : RunConfig :=
  {| BaseDir := BaseDir c; Namespace_Name := n;
     Namespace_Temporary := Namespace_Temporary c; Namespace_AutoRemove := Namespace_AutoRemove c;
     Recursive := Recursive c; Operator_Roles := Operator_Roles c;
     Runtime_Resources := Runtime_Resources c; Runtime_Env := Runtime_Env c;
     Runtime_Secret := Runtime_Secret c; Runtime_Selenium_Image := Runtime_Selenium_Image c;
     Runtime_TestContainers_Enabled := Runtime_TestContainers_Enabled c;
     Runtime_Settings := Runtime_Settings c; Cucumber_Tags := Cucumber_Tags c;
     Cucumber_Glue := Cucumber_Glue c; Cucumber_Options := Cucumber_Options c;
     Config_Timeout := Config_Timeout c; Pre := Pre c; Post := Post c |}.

Record OperatorConfiguration := {
  CustomImage : string;
  CustomImagePullPolicy : string;
  Operator_Namespace : string;
  Global : bool;
  ClusterType : string;
}.

(** What [ioutil.ReadDir] returns: the entries and an error.  An entry is
    a name and, for a directory, what [ioutil.ReadDir] returns for it in
    turn. *)
Inductive Listing :=
| ReadDirResult (files : list (string * option Listing)) (err : option error).

Definition FileInfo : Type := string * option Listing.
Definition FileInfo_Name (f : FileInfo) : string := fst f.
Definition FileInfo_IsDir (f : FileInfo) : bool := bool_decide (is_Some (snd f)).

(** ** The ghost trace: one event per call that changes something outside
    the process *)

Inductive Event :=
| EvCreate (t : Test)                               (* [c.Create(ctx, &test)] *)
| EvGet (key : ObjectKey)                           (* [c.Get(ctx, key, clone)] *)
| EvUpdate (t : Test)                               (* [c.Update(ctx, &test)] *)
| EvStatusUpdate (t : Test)                         (* [c.Status().Update(ctx, obj)] *)
| EvWait (key : ObjectKey) (timeout : Z)            (* [kubernetes.WaitCondition] *)
| EvLogs (namespace name : string)                  (* [k8slog.Print] *)
| EvRoute (key : ObjectKey)                         (* [c.Get(ctx, key, &obj)], the route *)
| EvGetInstance (namespace : string)
| EvListInstances
| EvCreateNamespace (ns : NamespaceObj)
| EvDeleteNamespace (name : string) (project : bool)
| EvSetupCluster
| EvInstallOperator (cfg : OperatorConfiguration)
| EvApplyRole (path namespace : string)
| EvUpload (path namespace : string)
| EvExec (executor script namespace dir : string) (timeout : Z)
| EvTempFile (name : string)
| EvWriteString (name data : string)
| EvClose (name : string)
| EvChmod (name : string)
| EvRemove (name : string)
| EvSaveTestResults (t : Test)
| EvGenerateReport (r : TestResults) (format : string)
| EvPrintSummaryReport (r : TestResults).

(** ** The platform: everything [run.go] calls that is not in [run.go]

    [Sys] is the state of the world outside the process (cluster, files,
    clock).  Reads take the state; effects return the next one. *)

Class Platform := {
  Sys : Type;
  host : Sys → Host;

  (** constants and pure helpers of the repository that are not in [src/] *)
  TestKind : string;
  SchemeGroupVersion : string;
  LanguageGherkin : string;
  DefaultTimeout : string;                         (* [config.DefaultTimeout] *)
  DefaultOutput : string;                          (* [report.DefaultOutput] *)
  SummaryOutput : string;                          (* [report.SummaryOutput] *)
  ClusterTypeOpenShift : string;
  ClusterTypeKubernetes : string;
  NewWithDefaults : RunConfig;                     (* [config.NewWithDefaults] *)
  SanitizeFileName : string → string;              (* [kubernetes.SanitizeFileName] *)
  SanitizeName : string → string;                  (* [kubernetes.SanitizeName] *)
  resolvePath : RunConfig → string → string;
  getBaseDir : string → string;
  isRemoteFile : string → bool;
  IsGlobal : Instance → bool;                      (* [v1alpha1.IsGlobal] *)
  AsError : TestPhase → string → option error;     (* [TestPhase.AsError] *)
  GetErrorResult : string → string → error → Test; (* [report.GetErrorResult] *)

  (** Go standard library and third-party functions *)
  path_Base : string → string;
  path_Join : string → string → string;
  path_Split : string → string * string;
  ParseDuration : string → Z * option error;       (* [time.ParseDuration] *)
  ToYAML : Test → string * option error;           (* [kubernetes.ToYAML] *)
  ToJSON : Test → string * option error;           (* [kubernetes.ToJSON] *)
  yaml_Marshal : SettingsConfig → string * option error;
  (** [fmt.Errorf] handed a text and no operand: the text is read as a format *)
  fmt_Errorf : string → error;

  (** reads *)
  isDir : string → Sys → bool;
  ReadDir : string → Sys → Listing;
  LoadConfig : string → Sys → RunConfig * option error;
  loadData : string → Sys → string * option error;
  GetCmdClient : Sys → option error;
  IsOpenShift : Sys → bool * option error;         (* [openshift.IsOpenShift] *)

  (** effects: the cluster client [c] *)
  client_Create : Test → Sys → (Test * option error) * Sys;
  client_Get : ObjectKey → Test → Sys → (Test * option error) * Sys;
  client_Update : Test → Sys → (Test * option error) * Sys;
  client_Status_Update : Test → Sys → (Test * option error) * Sys;
  client_GetInstance : string → Sys → (Instance * option error) * Sys;
  client_ListInstances : Sys → (list Instance * option error) * Sys;
  client_CreateNamespace : NamespaceObj → Sys → option error * Sys;
  client_DeleteNamespace : string → bool → Sys → option error * Sys;
  (** what the watcher is shown while it polls [key] for at most [timeout] *)
  poll : ObjectKey → Z → Sys → list Object * Sys;
  log_Print : string → string → Sys → option error * Sys;  (* [k8slog.Print] *)
  (** the route poller of the dev mode, a goroutine that need not end: what
      it has printed when the main flow goes on *)
  pollRoute : ObjectKey → Sys → string * Sys;

  (** effects: installation, uploads, scripts, files, reports *)
  uuid_New : Sys → string * Sys;
  setupCluster : Sys → option error * Sys;
  OperatorOrCollect : OperatorConfiguration → Sys → option error * Sys;
  applyOperatorRole : string → string → Sys → option error * Sys;
  uploadLocalArtifact : string → string → Sys → (string * option error) * Sys;
  command_Run : string → string → string → string → Z → Sys → option error * Sys;
  TempFile : Sys → (string * option error) * Sys;
  WriteString : string → string → Sys → option error * Sys;
  file_Close : string → Sys → option error * Sys;
  Chmod : string → Sys → option error * Sys;
  Remove : string → Sys → Sys;
  SaveTestResults : Test → Sys → option error * Sys;
  GenerateReport : TestResults → string → Sys → Sys;
  PrintSummaryReport : TestResults → Sys → Sys;
}.

(** ** [report]: folding a test's results into a suite, and the verdict *)

(** Modelled from the spec: [report.AppendTestResults] is missing; section
    4.6 has it attach the resource's reported per-test results to the suite,
    and section 7 has errors folded into that source's suite alongside what
    was observed. *)
Definition AppendTestResults (suite : TestSuite) (results : TestSuite) : TestSuite :=
  {| Tests := Tests suite ++ Tests results;
     Errors := Errors suite ++ Errors results |}.

(** Modelled from the spec: [hasErrors] is missing; section 4.6 has the run
    fail if any suite recorded errors. *)
Definition hasErrors (results : TestResults) : bool :=
  existsb (λ suite, negb (Nat.eqb (length (Errors suite)) 0)) (Suites results).

(** ** The process state and the monad of [run.go]

    [stdout] and [stderr] collect what is printed; [trace] is the ghost
    trace; [opts] is the receiver [o], which [uploadArtifacts] mutates;
    [results] is the [*v1alpha1.TestResults] that [run] hands down. *)

Section Model.
Context {P : Platform}.

Record World := {
  sys : Sys;
  stdout : list string;
  stderr : list string;
  trace : list Event;
  opts : runCmdOptions;
  results : TestResults;
}.

Definition set_sys (w : World) (s : Sys) : World :=
  {| sys := s; stdout := stdout w; stderr := stderr w; trace := trace w;
     opts := opts w; results := results w |}.
Definition add_stdout (w : World) (line : string) : World :=
  {| sys := sys w; stdout := stdout w ++ [line]; stderr := stderr w; trace := trace w;
     opts := opts w; results := results w |}.
Definition add_stderr (w : World) (line : string) : World :=
  {| sys := sys w; stdout := stdout w; stderr := stderr w ++ [line]; trace := trace w;
     opts := opts w; results := results w |}.
Definition add_trace (w : World) (ev : Event) : World :=
  {| sys := sys w; stdout := stdout w; stderr := stderr w; trace := trace w ++ [ev];
     opts := opts w; results := results w |}.
Definition set_opts (w : World) (o : runCmdOptions) : World :=
  {| sys := sys w; stdout := stdout w; stderr := stderr w; trace := trace w;
     opts := o; results := results w |}.
Definition set_results (w : World) (r : TestResults) : World :=
  {| sys := sys w; stdout := stdout w; stderr := stderr w; trace := trace w;
     opts := opts w; results := r |}.

(** A computation either finishes with a value or panics. *)
Inductive Outcome (A : Type) :=
| Done (a : A)
| Panic (reason : string).
Global Arguments Done {A} a.
Global Arguments Panic {A} reason.

Definition M (A : Type) : Type := World → Outcome A * World.

#[global] Instance M_ret : MRet M := λ A a w, (Done a, w).
#[global] Instance M_bind : MBind M := λ A B f m w,
  match m w with
  | (Done a, w') => f a w'
  | (Panic r, w') => (Panic r, w')
  end.

Definition panic {A} (reason : string) : M A := λ w, (Panic reason, w).

(** [defer d] followed by [body]: [d] runs when [body] is left, also by a
    panic; what [d] returns is dropped, a panic of [d] replaces the
    outcome. *)
Definition defer {A} (d : M unit) (body : M A) : M A := λ w,
  let '(r, w1) := body w in
  match d w1 with
  | (Done _, w2) => (r, w2)
  | (Panic reason, w2) => (Panic reason, w2)
  end.

Definition read {A} (f : Sys → A) : M A := λ w, (Done (f (sys w)), w).
Definition effect {A} (f : Sys → A * Sys) : M A := λ w,
  let '(a, s) := f (sys w) in (Done a, set_sys w s).
Definition call {A} (ev : Event) (f : Sys → A * Sys) : M A := λ w,
  let '(a, s) := f (sys w) in (Done a, add_trace (set_sys w s) ev).
Definition call_ (ev : Event) (f : Sys → Sys) : M unit := λ w,
  (Done tt, add_trace (set_sys w (f (sys w))) ev).
Definition Print (text : string) : M unit := λ w, (Done tt, add_stdout w text).
Definition Println (line : string) : M unit := Print (line +:+ nl).
Definition Eprint (line : string) : M unit := λ w, (Done tt, add_stderr w line).
Definition get_opts : M runCmdOptions := λ w, (Done (opts w), w).
Definition put_opts (o : runCmdOptions) : M unit := λ w, (Done tt, set_opts w o).
Definition get_results : M TestResults := λ w, (Done (results w), w).
Definition append_suite (suite : TestSuite) : M unit := λ w,
  (Done tt, set_results w {| Suites := Suites (results w) ++ [suite] |}).

End Model.

(** ** Constants of [run.go] *)

Definition FileSuffix : string := ".feature".
Definition ConfigFile : string := "yaks-config.yaml".

Definition NamespaceEnv : string := "YAKS_NAMESPACE".
Definition RepositoriesEnv : string := "YAKS_REPOSITORIES".
Definition DependenciesEnv : string := "YAKS_DEPENDENCIES".
Definition LoggersEnv : string := "YAKS_LOGGERS".
Definition CucumberOptions : string := "CUCUMBER_OPTIONS".
Definition CucumberGlue : string := "CUCUMBER_GLUE".
Definition CucumberFeatures : string := "CUCUMBER_FEATURES".
Definition CucumberFilterTags : string := "CUCUMBER_FILTER_TAGS".

(** The first lines of the script that [runSteps] writes for an inline
    command. *)
Definition scriptHeader : string :=
  "#!/bin/bash" +:+ nl +:+ nl +:+ "set -e" +:+ nl +:+ nl.

(** [strings.ReplaceAll] for a non-empty [old]. *)
Definition ReplaceAll (s old new : string) : string :=
  strings.Join (strings.Split s old) new.

Definition with_Env (t : Test) (env : list string) : Test :=
  with_Spec t
    {| Source := Source (Spec t); Resources := Resources (Spec t); Settings := Settings (Spec t);
       Env := env; Secret := Secret (Spec t); Selenium_Image := Selenium_Image (Spec t);
       KubeDock_Image := KubeDock_Image (Spec t); Dev := Dev (Spec t) |}.

Definition with_Resources (t : Test) (rs : list ResourceSpec) : Test :=
  with_Spec t
    {| Source := Source (Spec t); Resources := rs; Settings := Settings (Spec t);
       Env := Env (Spec t); Secret := Secret (Spec t); Selenium_Image := Selenium_Image (Spec t);
       KubeDock_Image := KubeDock_Image (Spec t); Dev := Dev (Spec t) |}.

Definition with_Settings (t : Test) (s : SettingsSpec) : Test :=
  with_Spec t
    {| Source := Source (Spec t); Resources := Resources (Spec t); Settings := s;
       Env := Env (Spec t); Secret := Secret (Spec t); Selenium_Image := Selenium_Image (Spec t);
       KubeDock_Image := KubeDock_Image (Spec t); Dev := Dev (Spec t) |}.

Definition with_Secret (t : Test) (s : string) : Test :=
  with_Spec t
    {| Source := Source (Spec t); Resources := Resources (Spec t); Settings := Settings (Spec t);
       Env := Env (Spec t); Secret := s; Selenium_Image := Selenium_Image (Spec t);
       KubeDock_Image := KubeDock_Image (Spec t); Dev := Dev (Spec t) |}.

Definition with_Selenium (t : Test) (image : string) : Test :=
  with_Spec t
    {| Source := Source (Spec t); Resources := Resources (Spec t); Settings := Settings (Spec t);
       Env := Env (Spec t); Secret := Secret (Spec t); Selenium_Image := image;
       KubeDock_Image := KubeDock_Image (Spec t); Dev := Dev (Spec t) |}.

Definition with_KubeDock (t : Test) (image : string) : Test :=
  with_Spec t
    {| Source := Source (Spec t); Resources := Resources (Spec t); Settings := Settings (Spec t);
       Env := Env (Spec t); Secret := Secret (Spec t); Selenium_Image := Selenium_Image (Spec t);
       KubeDock_Image := image; Dev := Dev (Spec t) |}.

Definition with_Dev (t : Test) (d : bool) : Test :=
  with_Spec t
    {| Source := Source (Spec t); Resources := Resources (Spec t); Settings := Settings (Spec t);
       Env := Env (Spec t); Secret := Secret (Spec t); Selenium_Image := Selenium_Image (Spec t);
       KubeDock_Image := KubeDock_Image (Spec t); Dev := d |}.

(** ** [setupEnvSettings] *)

Definition nonempty {A} (l : list A) : bool := negb (Nat.eqb (length l) 0).

Definition setupEnvSettings (o : runCmdOptions) (test : Test) (runConfig : RunConfig)
  : Test * option error :=
  let env : list string := [] in
  let env := env ++ [NamespaceEnv +:+ "=" +:+ Namespace_Name runConfig] in
  let env :=
    match Tags o with
    | Some tags => env ++ [CucumberFilterTags +:+ "=" +:+ strings.Join tags ","]
    | None =>
        if nonempty (Cucumber_Tags runConfig)
        then env ++ [CucumberFilterTags +:+ "=" +:+ strings.Join (Cucumber_Tags runConfig) ","]
        else env
    end in
  let env :=
    match Features o with
    | Some features => env ++ [CucumberFeatures +:+ "=" +:+ strings.Join features ","]
    | None => env
    end in
  let env :=
    match Glue o with
    | Some glue => env ++ [CucumberGlue +:+ "=" +:+ strings.Join glue ","]
    | None =>
        if nonempty (Cucumber_Glue runConfig)
        then env ++ [CucumberGlue +:+ "=" +:+ strings.Join (Cucumber_Glue runConfig) ","]
        else env
    end in
  let env :=
    if negb (Nat.eqb (String.length (Options o)) 0)
    then env ++ [CucumberOptions +:+ "=" +:+ Options o]
    else if negb (Nat.eqb (String.length (Cucumber_Options runConfig)) 0)
    then env ++ [CucumberOptions +:+ "=" +:+ Cucumber_Options runConfig]
    else env in
  let env :=
    if nonempty (Repositories o)
    then env ++ [RepositoriesEnv +:+ "=" +:+ strings.Join (Repositories o) ","]
    else env in
  let env :=
    if nonempty (Dependencies o)
    then env ++ [DependenciesEnv +:+ "=" +:+ strings.Join (Dependencies o) ","]
    else env in
  let env :=
    if nonempty (Logger o)
    then env ++ [LoggersEnv +:+ "=" +:+ strings.Join (Logger o) ","]
    else env in
  let env :=
    env ++ ((λ envConfig, EnvConfig_Name envConfig +:+ "=" +:+ EnvConfig_Value envConfig)
            <$> Runtime_Env runConfig) in
  let env :=
    match o_Env o with
    | Some cli => env ++ cli
    | None => env
    end in
  let test := if nonempty env then with_Env test env else test in
  (test, None).

(** The entries of [Spec.Env] that [setupEnvSettings] derives from the run
    configuration. *)
Definition config_env_entries (o : runCmdOptions) (runConfig : RunConfig) : list string :=
  [NamespaceEnv +:+ "=" +:+ Namespace_Name runConfig]
  ++ (match Tags o with
      | Some _ => []
      | None => if nonempty (Cucumber_Tags runConfig)
                then [CucumberFilterTags +:+ "=" +:+ strings.Join (Cucumber_Tags runConfig) ","]
                else []
      end)
  ++ (match Glue o with
      | Some _ => []
      | None => if nonempty (Cucumber_Glue runConfig)
                then [CucumberGlue +:+ "=" +:+ strings.Join (Cucumber_Glue runConfig) ","]
                else []
      end)
  ++ (if negb (Nat.eqb (String.length (Options o)) 0) then []
      else if negb (Nat.eqb (String.length (Cucumber_Options runConfig)) 0)
      then [CucumberOptions +:+ "=" +:+ Cucumber_Options runConfig]
      else [])
  ++ ((λ envConfig, EnvConfig_Name envConfig +:+ "=" +:+ EnvConfig_Value envConfig)
      <$> Runtime_Env runConfig).

(** ** The phase watcher of [createAndRunTest] (lines 601-631) *)

Section Watcher.
Context {P : Platform}.

(** The timeout the watcher goroutine picks. *)
Definition watcherTimeoutSetting (o : runCmdOptions) (runConfig : RunConfig) : string :=
  if negb (String.eqb (Timeout o) "") then Timeout o
  else if negb (String.eqb (Config_Timeout runConfig) "") then Config_Timeout runConfig
  else DefaultTimeout.

(** [time.ParseDuration(timeout)], with the fall-back on a parse error; the
    second component is the line the fall-back prints. *)
Definition watcherTimeout (o : runCmdOptions) (runConfig : RunConfig) : Z * option string :=
  let timeout := watcherTimeoutSetting o runConfig in
  let '(waitTimeout, parseErr) := ParseDuration timeout in
  match parseErr with
  | Some parseErr =>
      (fst (ParseDuration DefaultTimeout),
       Some ("Failed to parse test timeout setting - " +:+ Error parseErr))
  | None => (waitTimeout, None)
  end.

(** The condition function handed to [WaitCondition]; the captured variable
    [status] is threaded. *)
Definition phaseCondition (status : TestPhase) (obj : Object)
  : (bool * option error) * TestPhase :=
  match obj with
  | ObjTest val =>
      let status :=
        if bool_decide (Phase (Status val) ≠ TestPhaseNone) then Phase (Status val)
        else status in
      if bool_decide (Phase (Status val) = TestPhaseDeleting)
         || bool_decide (Phase (Status val) = TestPhaseError)
         || bool_decide (Phase (Status val) = TestPhasePassed)
         || bool_decide (Phase (Status val) = TestPhaseFailed)
      then ((true, None), status)
      else ((false, None), status)
  | ObjOther => ((false, None), status)
  end.

(** Modelled from the spec: [kubernetes.WaitCondition] is missing.  Section
    4.5 has it poll the resource until the condition predicate holds,
    bounded by the timeout; [polls] is what it reads within the timeout, and
    a read that yields a Test refreshes the local copy [obj]. *)
Fixpoint WaitCondition {St : Type}
    (condition : St → Object → (bool * option error) * St)
    (polls : list Object) (obj : Test) (st : St) : option error * Test * St :=
  match polls with
  | [] => (Some (errors_New "timeout while waiting condition"), obj, st)
  | seen :: rest =>
      let obj := match seen with ObjTest t => t | ObjOther => obj end in
      let '((satisfied, err), st) := condition st seen in
      match err with
      | Some err => (Some err, obj, st)
      | None =>
          if satisfied then (None, obj, st)
          else WaitCondition condition rest obj st
      end
  end.

(** The phases of section 3 after which the watcher stops. *)
Definition terminal (p : TestPhase) : bool :=
  bool_decide (p ∈ [TestPhaseDeleting; TestPhaseError; TestPhasePassed; TestPhaseFailed]).

(** The phases the watcher has been shown, up to and including the first
    terminal one. *)
Fixpoint phases_seen (polls : list Object) : list TestPhase :=
  match polls with
  | [] => []
  | ObjTest t :: rest =>
      Phase (Status t) :: (if terminal (Phase (Status t)) then [] else phases_seen rest)
  | ObjOther :: rest => phases_seen rest
  end.

(** The phases of the Tests among [objs]. *)
Fixpoint phases_shown (objs : list Object) : list TestPhase :=
  match objs with
  | [] => []
  | ObjTest t :: rest => Phase (Status t) :: phases_shown rest
  | ObjOther :: rest => phases_shown rest
  end.

(** The last phase of a list that is not [TestPhaseNone], [d] if none. *)
Definition last_non_None (d : TestPhase) (phases : list TestPhase) : TestPhase :=
  foldl (λ acc p, if bool_decide (p ≠ TestPhaseNone) then p else acc) d phases.

End Watcher.

Definition nonempty_string (s : string) : bool := negb (Nat.eqb (String.length s) 0).

(** ** Hooks: [resolve], [runScript], [runSteps] *)

Section Hooks.
Context {P : Platform}.

Definition resolve (h : Host) (fileName : string) : string :=
  let resolved := ReplaceAll fileName "{{os.type}}" (GOOS h) in
  let resolved := ReplaceAll resolved "{{os.arch}}" (GOARCH h) in
  resolved.

Definition runScript (scriptFile desc namespace baseDir timeout : string) : M (option error) :=
  let timeout := if String.eqb timeout "" then DefaultTimeout else timeout in
  let '(actualTimeout, err) := ParseDuration timeout in
  match err with
  | Some err => mret (Some err)
  | None =>
      h ← read host;
      let executor :=
        if String.eqb (GOOS h) "windows" then "powershell.exe" else "/bin/bash" in
      let script := resolve h scriptFile in
      Println ("Running " +:+ desc +:+ ":");;
      err ← call (EvExec executor script namespace baseDir actualTimeout)
                 (command_Run executor script namespace baseDir actualTimeout);
      match err with
      | Some err =>
          Println ("Failed to run " +:+ desc +:+ ": " +:+ nl +:+ Error err);;
          mret (Some err)
      | None => mret None
      end
  end.

Definition step_with_Name (step : StepConfig) (name : string) : StepConfig :=
  {| step_Name := name; step_Script := step_Script step; step_Run := step_Run step;
     step_If := step_If step; step_Timeout := step_Timeout step |}.

(** Continue with [k] unless [err] is set, in which case [runSteps] returns
    it. *)
Definition or_return (err : option error) (k : M (option error)) : M (option error) :=
  match err with
  | Some err => mret (Some err)
  | None => k
  end.

(** The [Script] part of a step; [k] is the rest of [runSteps].  The
    message of a failure is formatted twice: [fmt.Sprintf] builds the text
    and [fmt.Errorf] is handed that text as its format. *)
Definition runSteps_script (step : StepConfig) (namespace baseDir : string)
    (k : M (option error)) : M (option error) :=
  if nonempty_string (step_Script step) then
    let desc := step_Name step in
    let desc := if String.eqb desc "" then "script " +:+ step_Script step else desc in
    err ← runScript (step_Script step) desc namespace baseDir (step_Timeout step);
    match err with
    | Some err => mret (Some (fmt_Errorf ("Failed to run " +:+ desc +:+ ": " +:+ Error err)))
    | None => k
    end
  else k.

(** The [Run] part of a step: the inline command goes to a temporary
    script, whose removal is deferred to the end of [runSteps]. *)
Definition runSteps_run (idx : nat) (step : StepConfig) (namespace baseDir : string)
    (k : M (option error)) : M (option error) :=
  if nonempty_string (step_Run step) then
    '(file, err) ← call (EvTempFile "yaks-script-*.sh") TempFile;
    or_return err (
      defer (call_ (EvRemove file) (Remove file)) (
        err ← call (EvWriteString file scriptHeader) (WriteString file scriptHeader);
        or_return err (
        err ← call (EvWriteString file (step_Run step)) (WriteString file (step_Run step));
        or_return err (
        err ← call (EvClose file) (file_Close file);
        or_return err (
        err ← call (EvChmod file) (Chmod file);
        or_return err (
        let desc := step_Name step in
        let desc := if String.eqb desc "" then "inline command " +:+ pretty idx else desc in
        err ← runScript file desc namespace baseDir (step_Timeout step);
        match err with
        | Some err => mret (Some (fmt_Errorf ("Failed to run " +:+ desc +:+ ": " +:+ Error err)))
        | None => k
        end))))))
  else k.

Fixpoint runSteps_from (idx : nat) (steps : list StepConfig) (namespace baseDir : string)
  : M (option error) :=
  match steps with
  | [] => mret None
  | step :: rest =>
      let step :=
        if Nat.eqb (String.length (step_Name step)) 0
        then step_with_Name step ("step-" +:+ pretty idx)
        else step in
      h ← read host;
      match skipStep h step with
      | None => panic "index out of range"
      | Some true =>
          Println ("Skip " +:+ step_Name step);;
          runSteps_from (S idx) rest namespace baseDir
      | Some false =>
          runSteps_script step namespace baseDir (
          runSteps_run idx step namespace baseDir (
          runSteps_from (S idx) rest namespace baseDir))
      end
  end.

Definition runSteps (steps : list StepConfig) (namespace baseDir : string) : M (option error) :=
  runSteps_from 0 steps namespace baseDir.

End Hooks.

(** ** Results: [handleTestResult], [handleTestError] *)

Section Results.
Context {P : Platform}.

(** [suite] is a pointer in the source; the updated suite is returned. *)
Definition handleTestResult (test : Test) (suite : TestSuite) : M TestSuite :=
  let suite := AppendTestResults suite (Results (Status test)) in
  saveErr ← call (EvSaveTestResults test) (SaveTestResults test);
  match saveErr with
  | Some saveErr => Println ("Failed to save test results: " +:+ Error saveErr)
  | None => mret tt
  end;;
  mret suite.

Definition handleTestError (namespace source : string) (err : error) : M unit :=
  let suite :=
    {| Tests := []; Errors := [ReasonForError err +:+ " - " +:+ Error err] |} in
  suite ← handleTestResult (GetErrorResult namespace source err) suite;
  append_suite suite.

End Results.

(** ** Configuration, namespace and operator set-up *)

Section Setup.
Context {P : Platform}.

Definition getRunConfig (source : string) : M (option RunConfig * option error) :=
  o ← get_opts;
  if isRemoteFile source then mret (Some NewWithDefaults, None)
  else
    dir ← read (isDir source);
    let configFile :=
      if (dir : bool) then path_Join source ConfigFile
      else path_Join (fst (path_Split source)) ConfigFile in
    '(runConfig, err) ← read (LoadConfig configFile);
    match err with
    | Some err => mret (None, Some err)
    | None =>
        let runConfig :=
          if String.eqb (BaseDir runConfig) ""
          then with_BaseDir runConfig (getBaseDir source)
          else runConfig in
        let runConfig :=
          if String.eqb (Namespace_Name runConfig) "" && negb (Namespace_Temporary runConfig)
          then with_Namespace_Name runConfig (o_Namespace o)
          else runConfig in
        mret (Some runConfig, None)
    end.

Definition initializeTempNamespace (name : string) : M (NamespaceObj * option error) :=
  '(oc, err) ← read IsOpenShift;
  match err with
  | Some err => panic (Error err)
  | None =>
      let obj := {| ns_Name := name; ns_Project := oc |} in
      Println ("Creating new test namespace " +:+ name);;
      err ← call (EvCreateNamespace obj) (client_CreateNamespace obj);
      mret (obj, err)
  end.

Definition deleteTempNamespace (ns : NamespaceObj) : M unit :=
  '(oc, err) ← read IsOpenShift;
  match err with
  | Some err => panic (Error err)
  | None =>
      err ← call (EvDeleteNamespace (ns_Name ns) oc) (client_DeleteNamespace (ns_Name ns) oc);
      match err with
      | Some _ => Eprint ("WARN: Failed to AutoRemove namespace " +:+ ns_Name ns +:+ nl)
      | None => mret tt
      end;;
      Println ("AutoRemove namespace " +:+ ns_Name ns)
  end.

Definition findInstance (namespace : string) : M (Instance * option error) :=
  call (EvGetInstance namespace) (client_GetInstance namespace).

Definition listInstances : M (list Instance * option error) :=
  call EvListInstances client_ListInstances.

(** The loop over [Operator.Roles]; [err] is the variable it overwrites. *)
Fixpoint applyRoles (runConfig : RunConfig) (namespace : string) (roles : list string)
    (err : option error) : M (option error) :=
  match roles with
  | [] => mret err
  | role :: rest =>
      let path := resolvePath runConfig role in
      err ← call (EvApplyRole path namespace) (applyOperatorRole path namespace);
      match err with
      | Some err => mret (Some err)
      | None => applyRoles runConfig namespace rest None
      end
  end.

Definition setupOperator (runConfig : RunConfig) : M (option error) :=
  let namespace := Namespace_Name runConfig in
  '(isOpenshift, err) ← read IsOpenShift;
  match err with
  | Some err => mret (Some err)
  | None =>
      let cluster :=
        if (isOpenshift : bool) then ClusterTypeOpenShift else ClusterTypeKubernetes in
      let cfg :=
        {| CustomImage := ""; CustomImagePullPolicy := ""; Operator_Namespace := namespace;
           Global := false; ClusterType := cluster |} in
      err ← call (EvInstallOperator cfg) (OperatorOrCollect cfg);
      applyRoles runConfig namespace (Operator_Roles runConfig) err
  end.

(** The tail of [createTempNamespace]: no operator, or a non-global one,
    was found. *)
Definition deployOperator (namespace : NamespaceObj) (runConfig : RunConfig)
  : M (option NamespaceObj * option error * RunConfig) :=
  err ← call EvSetupCluster setupCluster;
  match err with
  | Some err => mret (Some namespace, Some err, runConfig)
  | None =>
      err ← setupOperator runConfig;
      match err with
      | Some err => mret (Some namespace, Some err, runConfig)
      | None => mret (Some namespace, None, runConfig)
      end
  end.

(** [runConfig] is a pointer in the source; the configuration with the new
    namespace name is the third component of the result. *)
Definition createTempNamespace (runConfig : RunConfig)
  : M (option NamespaceObj * option error * RunConfig) :=
  o ← get_opts;
  u ← effect uuid_New;
  let namespaceName := "yaks-" +:+ u in
  '(namespace, err) ← initializeTempNamespace namespaceName;
  match err with
  | Some err => mret (None, Some err, runConfig)
  | None =>
      let runConfig := with_Namespace_Name runConfig namespaceName in
      '(instance, err) ← findInstance (o_Namespace o);
      match err with
      | Some err =>
          if IsNotFound err then
            '(instanceList, err) ← listInstances;
            match err with
            | None =>
                if existsb Operator_Global instanceList
                then mret (Some namespace, None, runConfig)
                else
                  (if Nat.eqb (length instanceList) 0
                   then Println ("Unable to find existing YAKS instance - " +:+
                                 "adding new operator instance to temporary namespace by default")
                   else mret tt);;
                  deployOperator namespace runConfig
            | Some err => mret (Some namespace, Some err, runConfig)
            end
          else mret (Some namespace, Some err, runConfig)
      | None =>
          if IsGlobal instance
          then mret (Some namespace, None, runConfig)
          else deployOperator namespace runConfig
      end
  end.

Fixpoint uploadArtifacts_from (runConfig : RunConfig) (libs : list string) : M (option error) :=
  match libs with
  | [] => mret None
  | lib :: rest =>
      let path := resolvePath runConfig lib in
      '(additionalDep, err) ← call (EvUpload path (Namespace_Name runConfig))
                                   (uploadLocalArtifact path (Namespace_Name runConfig));
      match err with
      | Some err => mret (Some err)
      | None =>
          o ← get_opts;
          put_opts (with_Dependencies o (Dependencies o ++ [additionalDep]));;
          uploadArtifacts_from runConfig rest
      end
  end.

Definition uploadArtifacts (runConfig : RunConfig) : M (option error) :=
  o ← get_opts;
  uploadArtifacts_from runConfig (Uploads o).

End Setup.

(** ** [newSettings] and [createAndRunTest] *)

Section CreateAndRun.
Context {P : Platform}.

Definition newSettings (o : runCmdOptions) (runConfig : RunConfig)
  : M (option SettingsSpec * option error) :=
  if negb (String.eqb (o_Settings o) "") then
    let rawName := o_Settings o in
    '(configData, err) ← read (loadData (resolvePath runConfig rawName));
    match err with
    | Some err => mret (None, Some err)
    | None =>
        mret (Some {| Settings_Name := SanitizeFileName rawName;
                      Settings_Content := configData |}, None)
    end
  else if nonempty (Settings_Dependencies (Runtime_Settings runConfig))
          || nonempty (Settings_Repositories (Runtime_Settings runConfig))
          || nonempty (Settings_Loggers (Runtime_Settings runConfig)) then
    let '(configData, err) := yaml_Marshal (Runtime_Settings runConfig) in
    match err with
    | Some err => mret (None, Some err)
    | None =>
        mret (Some {| Settings_Name := "yaks.settings.yaml";
                      Settings_Content := configData |}, None)
    end
  else mret (None, None).

(** [if err != nil { return nil, err }] after a call that yields a value
    and an error; [inl err] is that return. *)
Definition or_fail {A B} (m : M (A * option error)) (k : A → M (error + B)) : M (error + B) :=
  '(a, err) ← m;
  match err with
  | Some err => mret (inl err)
  | None => k a
  end.

(** One of the three loops that load resource files into
    [test.Spec.Resources]. *)
Fixpoint appendResources (runConfig : RunConfig) (resources : list string) (test : Test)
  : M (Test * option error) :=
  match resources with
  | [] => mret (test, None)
  | resource :: rest =>
      '(data, err) ← read (loadData (resolvePath runConfig resource));
      match err with
      | Some err => mret (test, Some err)
      | None =>
          let test :=
            with_Resources test
              (Resources (Spec test)
               ++ [{| Resource_Name := path_Base resource; Resource_Content := data |}]) in
          appendResources runConfig rest test
      end
  end.

(** Lines 408-503: the Test resource is put together; nothing but files is
    read.  [inl err] stands for [return nil, err]. *)
Definition buildTest (rawName : string) (runConfig : RunConfig) : M (error + Test) :=
  o ← get_opts;
  let namespace := Namespace_Name runConfig in
  let fileName := SanitizeFileName rawName in
  let name := SanitizeName rawName in
  if String.eqb name "" then mret (inl (errors_New "unable to determine test name"))
  else
    or_fail (read (loadData rawName)) (λ data,
    let test :=
      {| Kind := TestKind; APIVersion := SchemeGroupVersion;
         Namespace := namespace; Name := name; ResourceVersion := "";
         Spec := {| Source := {| Source_Name := fileName; Source_Content := data;
                                 Source_Language := LanguageGherkin |};
                    Resources := []; Settings := SettingsSpec_zero; Env := [];
                    Secret := ""; Selenium_Image := ""; KubeDock_Image := ""; Dev := false |};
         Status := TestStatus_zero |} in
    let test := if o_Dev o then with_Dev test true else test in
    or_fail (appendResources runConfig (Runtime_Resources runConfig) test) (λ test,
    or_fail (appendResources runConfig (o_Resources o) test) (λ test,
    or_fail (appendResources runConfig (PropertyFiles o) test) (λ test,
    or_fail (newSettings o runConfig) (λ settings,
    let test :=
      match settings with
      | Some settings => with_Settings test settings
      | None => test
      end in
    or_fail (mret (setupEnvSettings o test runConfig)) (λ test,
    let test :=
      if negb (String.eqb (Runtime_Secret runConfig) "")
      then with_Secret test (Runtime_Secret runConfig) else test in
    let test :=
      if negb (String.eqb (Runtime_Selenium_Image runConfig) "")
      then with_Selenium test (Runtime_Selenium_Image runConfig) else test in
    let test :=
      if Runtime_TestContainers_Enabled runConfig
      then with_KubeDock test "joyrex2001/kubedock:0.7.0" else test in
    mret (inr test))))))).

(** Lines 528-558: create, or update what already exists.  The client
    writes the server's answer into the object it is handed, so every call
    returns the object as it stands afterwards.  The result is the test and
    the flag [existed]. *)
Definition submitTest (test : Test) : M (error + Test * bool) :=
  let existed := false in
  '(test, err) ← call (EvCreate test) (client_Create test);
  match err with
  | Some err =>
      if IsAlreadyExists err then
        let existed := true in
        let clone := test in
        let key := ObjectKeyFromObject clone in
        or_fail (call (EvGet key) (client_Get key clone)) (λ clone,
        (* Hold the resource from the operator controller *)
        let clone := with_Status clone (with_Phase (Status clone) TestPhaseUpdating) in
        or_fail (call (EvStatusUpdate clone) (client_Status_Update clone)) (λ clone,
        (* Update the spec *)
        let test := with_ResourceVersion test (ResourceVersion clone) in
        or_fail (call (EvUpdate test) (client_Update test)) (λ test,
        (* Reset status *)
        let test := with_Status test TestStatus_zero in
        or_fail (call (EvStatusUpdate test) (client_Status_Update test)) (λ test,
        mret (inr (test, existed))))))
      else mret (inl err)
  | None => mret (inr (test, existed))
  end.

(** The watcher goroutine of the non-dev mode (lines 600-635), run to its
    [cancel()]. *)
Definition watchPhase (runConfig : RunConfig) (test : Test) (status : TestPhase)
  : M (Test * TestPhase) :=
  o ← get_opts;
  let '(waitTimeout, complaint) := watcherTimeout o runConfig in
  match complaint with
  | Some line => Println line
  | None => mret tt
  end;;
  let key := ObjectKeyFromObject test in
  polls ← call (EvWait key waitTimeout) (poll key waitTimeout);
  let '(_, test, status) := WaitCondition phaseCondition polls test status in
  mret (test, status).

(** The route poller goroutine of the dev mode (lines 569-599).  It
    touches neither [test] nor [status].  It is the only caller of
    [cancel()] in this mode, and it may loop for ever, end without calling
    [cancel()] or bring the process down: a run in which the main flow does
    not go on has no outcome in [M], and what the poller has printed in a
    run in which it does is the platform's. *)
Definition watchRoute (test : Test) : M unit :=
  let key := ObjectKeyFromObject test in
  printed ← call (EvRoute key) (pollRoute key);
  Print printed.

(** Lines 566-652.  The goroutine is started first, whatever [o.Wait]
    says and before the logs are asked for; its calls and lines are placed
    where it is started.  A caller that waits goes on after [cancel()]; a
    caller that does not wait reads [status] and [test] while the watcher
    is still polling, and what the watcher has seen by then is what [poll]
    gives. *)
Definition awaitTest (test : Test) (name namespace : string) (runConfig : RunConfig)
  : M (option Test * option error) :=
  o ← get_opts;
  let status := TestPhaseNew in
  '(test, status) ← (if o_Dev o then watchRoute test;; mret (test, status)
                     else watchPhase runConfig test status);
  err ← (if Logs o && Wait o
         then call (EvLogs namespace name) (log_Print namespace name)
         else mret None);
  match err with
  | Some err => mret (None, Some err)
  | None =>
      if Wait o then
        Println ("Test '" +:+ name +:+ "' finished with status: " +:+ phase_string status);;
        mret (Some test, AsError status name)
      else
        Println ("Test '" +:+ name +:+ "' started");;
        mret (Some test, AsError status name)
  end.

Definition createAndRunTest (rawName : string) (runConfig : RunConfig)
  : M (option Test * option error) :=
  o ← get_opts;
  let namespace := Namespace_Name runConfig in
  let name := SanitizeName rawName in
  built ← buildTest rawName runConfig;
  match built with
  | inl err => mret (None, Some err)
  | inr test =>
      (* switch o.DumpFormat *)
      if String.eqb (DumpFormat o) "" then
        submitted ← submitTest test;
        match submitted with
        | inl err => mret (None, Some err)
        | inr (test, existed) =>
            (if existed : bool
             then Println ("Test '" +:+ name +:+ "' updated")
             else Println ("Test '" +:+ name +:+ "' created"));;
            awaitTest test name namespace runConfig
        end
      else if String.eqb (DumpFormat o) "yaml" then
        let '(data, err) := ToYAML test in
        match err with
        | Some err => mret (None, Some err)
        | None => Print data;; mret (None, None)
        end
      else if String.eqb (DumpFormat o) "json" then
        let '(data, err) := ToJSON test in
        match err with
        | Some err => mret (None, Some err)
        | None => Print data;; mret (None, None)
        end
      else
        mret (None, Some (errors_New ("invalid dump output format option '" +:+ DumpFormat o
                                      +:+ "', should be one of: yaml|json")))
  end.

End CreateAndRun.

(** ** [runTest], [runTestGroup], [run] *)

Section Run.
Context {P : Platform}.

(** What follows a call of [createAndRunTest] in [runTest] and in the loop
    of [runTestGroup].  [suite] is copied into [results.Suites] by value, so
    the later [suite.Errors = append(...)] changes the local variable only. *)
Definition recordOutcome (namespace name : string) (test : option Test) (err : option error)
  : M unit :=
  let suite := TestSuite_zero in
  match test with
  | Some test =>
      suite ← handleTestResult test suite;
      append_suite suite;;
      let suite :=
        match err with
        | Some err => {| Tests := Tests suite; Errors := Errors suite ++ [Error err] |}
        | None => suite
        end in
      mret tt
  | None =>
      match err with
      | Some err => handleTestError namespace name err
      | None => mret tt
      end
  end.

(** Lines 189-212 of [runTest]. *)
Definition runTest_main (source : string) (runConfig : RunConfig) : M unit :=
  err ← uploadArtifacts runConfig;
  match err with
  | Some err => handleTestError (Namespace_Name runConfig) source err
  | None =>
      defer (runSteps (Post runConfig) (Namespace_Name runConfig) (BaseDir runConfig);; mret tt) (
        err ← runSteps (Pre runConfig) (Namespace_Name runConfig) (BaseDir runConfig);
        match err with
        | Some err => handleTestError (Namespace_Name runConfig) source err
        | None =>
            '(test, err) ← createAndRunTest source runConfig;
            recordOutcome (Namespace_Name runConfig) source test err
        end)
  end.

(** Lines 173-212 of [runTest]: the run configuration is loaded. *)
Definition runTest_configured (source : string) (runConfig : RunConfig) : M unit :=
  if Namespace_Temporary runConfig then
    '(namespace, err, runConfig) ← createTempNamespace runConfig;
    match namespace with
    | Some namespace =>
        o ← get_opts;
        (if Namespace_AutoRemove runConfig && Wait o
         then defer (deleteTempNamespace namespace)
         else id) (
          match err with
          | Some err => handleTestError (Namespace_Name runConfig) source err
          | None => runTest_main source runConfig
          end)
    | None =>
        match err with
        | Some err => handleTestError (Namespace_Name runConfig) source err
        | None => runTest_main source runConfig
        end
    end
  else runTest_main source runConfig.

Definition runTest (source : string) : M unit :=
  err ← read GetCmdClient;
  match err with
  | Some err => handleTestError "" source err
  | None =>
      '(runConfig, err) ← getRunConfig source;
      match err, runConfig with
      | Some err, _ => handleTestError "" source err
      | None, None => panic "nil pointer dereference"
      | None, Some runConfig => runTest_configured source runConfig
      end
  end.

(** Lines 228-240 of [runTestGroup]: the run configuration is loaded; [k]
    is the rest of the function. *)
Definition runTestGroup_configured (source : string) (k : RunConfig → M unit)
    (runConfig : RunConfig) : M unit :=
  let upload (runConfig : RunConfig) : M unit :=
    err ← uploadArtifacts runConfig;
    match err with
    | Some err => handleTestError (Namespace_Name runConfig) source err
    | None => k runConfig
    end in
  if Namespace_Temporary runConfig then
    '(namespace, err, runConfig) ← createTempNamespace runConfig;
    match err with
    | Some err => handleTestError (Namespace_Name runConfig) source err
    | None =>
        o ← get_opts;
        match namespace with
        | Some namespace =>
            if Namespace_AutoRemove runConfig && Wait o
            then defer (deleteTempNamespace namespace) (upload runConfig)
            else upload runConfig
        | None => upload runConfig
        end
    end
  else upload runConfig.

(** Lines 216-240 of [runTestGroup]; [k] is the rest of the function. *)
Definition runTestGroup_setup (source : string) (k : RunConfig → M unit) : M unit :=
  err ← read GetCmdClient;
  match err with
  | Some err => handleTestError "" source err
  | None =>
      '(runConfig, err) ← getRunConfig source;
      match err, runConfig with
      | Some err, _ => handleTestError "" source err
      | None, None => panic "nil pointer dereference"
      | None, Some runConfig => runTestGroup_configured source k runConfig
      end
  end.

(** One pass of the loop over [files] (lines 255-272); [recurse] is the
    recursive call of [runTestGroup] on a subdirectory and its listing. *)
Definition runTestGroup_entry (recurse : string → Listing → M unit)
    (source : string) (runConfig : RunConfig) (f : FileInfo) : M unit :=
  let name := path_Join source (FileInfo_Name f) in
  match snd f with
  | Some sub =>
      (* [f.IsDir()] *)
      if Recursive runConfig then recurse name sub
      else if strings.HasSuffix (FileInfo_Name f) FileSuffix
      then '(test, err) ← createAndRunTest name runConfig;
           recordOutcome (Namespace_Name runConfig) name test err
      else mret tt
  | None =>
      if strings.HasSuffix (FileInfo_Name f) FileSuffix
      then '(test, err) ← createAndRunTest name runConfig;
           recordOutcome (Namespace_Name runConfig) name test err
      else mret tt
  end.

Definition runTestGroup_loop (recurse : string → Listing → M unit)
    (source : string) (runConfig : RunConfig) : list FileInfo → M unit :=
  fix loop (files : list FileInfo) : M unit :=
    match files with
    | [] => mret tt
    | f :: rest => runTestGroup_entry recurse source runConfig f;; loop rest
    end.

(** Lines 242-273 of [runTestGroup], from what [ioutil.ReadDir(source)]
    returned.  A subdirectory carries its own listing, on which the
    recursive call runs. *)
Fixpoint runTestGroup_listed (source : string) (listing : Listing) (runConfig : RunConfig)
  : M unit :=
  match listing with
  | ReadDirResult _ (Some err) => handleTestError (Namespace_Name runConfig) source err
  | ReadDirResult files None =>
      defer (runSteps (Post runConfig) (Namespace_Name runConfig) (BaseDir runConfig);; mret tt) (
        err ← runSteps (Pre runConfig) (Namespace_Name runConfig) (BaseDir runConfig);
        match err with
        | Some err => handleTestError (Namespace_Name runConfig) source err
        | None =>
            runTestGroup_loop
              (λ name sub, runTestGroup_setup name (runTestGroup_listed name sub))
              source runConfig files
        end)
  end.

Definition runTestGroup (source : string) : M unit :=
  runTestGroup_setup source (λ runConfig,
    listing ← read (ReadDir source);
    runTestGroup_listed source listing runConfig).

Definition run (args : list string) : M (option error) :=
  match args !! 0%nat with
  | None => panic "index out of range"
  | Some source =>
      (λ w, (Done tt, set_results w {| Suites := [] |}));;
      o ← get_opts;
      let body : M (option error) :=
        dir ← read (isDir source);
        (if dir : bool then runTestGroup source else runTest source);;
        results ← get_results;
        if hasErrors results then mret (Some (errors_New "There are test failures!"))
        else mret None in
      if Wait o then
        defer (results ← get_results;
               call_ (EvPrintSummaryReport results) (PrintSummaryReport results)) (
          if negb (String.eqb (ReportFormat o) DefaultOutput)
             && negb (String.eqb (ReportFormat o) SummaryOutput)
          then defer (results ← get_results;
                      call_ (EvGenerateReport results (ReportFormat o))
                            (GenerateReport results (ReportFormat o))) body
          else body)
      else body
  end.

End Run.

(** ** Vocabulary of the statements below *)

(** The entries given with [-e] on the command line. *)
Definition cli_env (o : runCmdOptions) : list string := default [] (o_Env o).

(** [reads m]: [m] finishes and leaves the world as it was. *)
Definition reads {P : Platform} {A} (m : M A) : Prop := ∀ w, ∃ a, m w = (Done a, w).

(** [frame R m]: every run of [m] relates the world before to the world
    after by [R]. *)
Definition frame {P : Platform} {A} (R : World → World → Prop) (m : M A) : Prop :=
  ∀ w r w', m w = (r, w') → R w w'.

(** The run left [results] alone. *)
Definition same_results {P : Platform} (w w' : World) : Prop := results w' = results w.

(** The run added events to the trace, all of them in [Q]. *)
Definition emits {P : Platform} (Q : Event → Prop) (w w' : World) : Prop :=
  ∃ evs, trace w' = trace w ++ evs ∧ Forall Q evs.

(** ** A reference platform: an in-memory cluster

    Used to run the model on concrete inputs.  Test resources are stored by
    (namespace, name); a write must carry the stored resource version and
    bumps it; the status is a subresource, written by [Status().Update] only. *)

Module Sim.

Record State := {
  sim_host : Host;
  files : gmap string string;          (* what [loadData] finds *)
  configs : gmap string RunConfig;     (* what [config.LoadConfig] finds *)
  dirs : gmap string Listing;          (* the directories *)
  store : gmap ObjectKey Test;         (* the Test resources on the cluster *)
  version : nat;                       (* the last resource version given out *)
  namespaces : list (string * bool);
  instances : list Instance;
  openshift : bool;
  setup_error : option error;          (* what [setupCluster] answers *)
  failing_scripts : list string;       (* the scripts that exit non-zero *)
  observed : list Object;              (* what a watcher is shown *)
  counter : nat;                       (* source of uuids and temp names *)
}.

Definition set_store (s : State) (m : gmap ObjectKey Test) : State :=
  {| sim_host := sim_host s; files := files s; configs := configs s; dirs := dirs s;
     store := m; version := S (version s); namespaces := namespaces s;
     instances := instances s; openshift := openshift s; setup_error := setup_error s;
     failing_scripts := failing_scripts s; observed := observed s; counter := counter s |}.

Definition set_namespaces (s : State) (l : list (string * bool)) : State :=
  {| sim_host := sim_host s; files := files s; configs := configs s; dirs := dirs s;
     store := store s; version := version s; namespaces := l;
     instances := instances s; openshift := openshift s; setup_error := setup_error s;
     failing_scripts := failing_scripts s; observed := observed s; counter := counter s |}.

Definition tick (s : State) : State :=
  {| sim_host := sim_host s; files := files s; configs := configs s; dirs := dirs s;
     store := store s; version := version s; namespaces := namespaces s;
     instances := instances s; openshift := openshift s; setup_error := setup_error s;
     failing_scripts := failing_scripts s; observed := observed s; counter := S (counter s) |}.

Definition api_error (reason what : string) : error :=
  {| Reason := reason; Error := what +:+ " (" +:+ reason +:+ ")" |}.

Definition next_version (s : State) : string := pretty (S (version s)).

Definition create (t : Test) (s : State) : (Test * option error) * State :=
  let key := ObjectKeyFromObject t in
  match store s !! key with
  | Some _ => ((t, Some (api_error "AlreadyExists" (Name t))), s)
  | None =>
      let t := with_ResourceVersion t (next_version s) in
      ((t, None), set_store s (<[key := t]> (store s)))
  end.

Definition get (key : ObjectKey) (obj : Test) (s : State) : (Test * option error) * State :=
  match store s !! key with
  | Some t => ((t, None), s)
  | None => ((obj, Some (api_error "NotFound" (snd key))), s)
  end.

Definition update (t : Test) (s : State) : (Test * option error) * State :=
  let key := ObjectKeyFromObject t in
  match store s !! key with
  | None => ((t, Some (api_error "NotFound" (Name t))), s)
  | Some cur =>
      if String.eqb (ResourceVersion t) (ResourceVersion cur) then
        let t := with_ResourceVersion (with_Status t (Status cur)) (next_version s) in
        ((t, None), set_store s (<[key := t]> (store s)))
      else ((t, Some (api_error "Conflict" (Name t))), s)
  end.

Definition status_update (t : Test) (s : State) : (Test * option error) * State :=
  let key := ObjectKeyFromObject t in
  match store s !! key with
  | None => ((t, Some (api_error "NotFound" (Name t))), s)
  | Some cur =>
      if String.eqb (ResourceVersion t) (ResourceVersion cur) then
        let t := with_ResourceVersion (with_Status cur (Status t)) (next_version s) in
        ((t, None), set_store s (<[key := t]> (store s)))
      else ((t, Some (api_error "Conflict" (Name t))), s)
  end.

Definition get_instance (namespace : string) (s : State) : (Instance * option error) * State :=
  match list_find (λ i, Instance_Namespace i = namespace) (instances s) with
  | Some (_, i) => ((i, None), s)
  | None =>
      (({| Instance_Namespace := namespace; Operator_Global := false |},
        Some (api_error "NotFound" "yaks")), s)
  end.

Definition create_namespace (ns : NamespaceObj) (s : State) : option error * State :=
  if bool_decide (ns_Name ns ∈ (namespaces s).*1)
  then (Some (api_error "AlreadyExists" (ns_Name ns)), s)
  else (None, set_namespaces s (namespaces s ++ [(ns_Name ns, ns_Project ns)])).

Definition delete_namespace (name : string) (project : bool) (s : State) : option error * State :=
  if bool_decide (name ∈ (namespaces s).*1)
  then (None, set_namespaces s (filter (λ n, n.1 ≠ name) (namespaces s)))
  else (Some (api_error "NotFound" name), s).

Definition run_command (script : string) (s : State) : option error * State :=
  if bool_decide (script ∈ failing_scripts s)
  then (Some (errors_New "exit status 1"), s)
  else (None, s).

Definition load (path : string) (s : State) : string * option error :=
  match files s !! path with
  | Some data => (data, None)
  | None => ("", Some (errors_New ("open " +:+ path +:+ ": no such file or directory")))
  end.

Definition read_dir (path : string) (s : State) : Listing :=
  match dirs s !! path with
  | Some l => l
  | None => ReadDirResult []
              (Some (errors_New ("open " +:+ path +:+ ": no such file or directory")))
  end.

(** Modelled from the spec: [kubernetes.SanitizeName] is missing; section 3
    has names lower-cased and what is not alphanumeric taken out. *)
Fixpoint sanitize (s : string) : string :=
  match s with
  | EmptyString => EmptyString
  | String c s' =>
      let n := Ascii.nat_of_ascii c in
      if (Nat.leb 97 n && Nat.leb n 122) || (Nat.leb 48 n && Nat.leb n 57)
      then String c (sanitize s')
      else if Nat.leb 65 n && Nat.leb n 90
      then String (Ascii.ascii_of_nat (n + 32)) (sanitize s')
      else sanitize s'
  end.

(** Durations are a number and one of the units [s], [m], [h]; the value is
    in seconds. *)
Fixpoint parse_amount (acc : nat) (seen : bool) (s : string) : option (nat * string) :=
  match s with
  | EmptyString => None
  | String c s' =>
      let n := Ascii.nat_of_ascii c in
      if Nat.leb 48 n && Nat.leb n 57 then parse_amount (10 * acc + (n - 48)) true s'
      else if seen then Some (acc, s) else None
  end.

Definition parse_duration (s : string) : Z * option error :=
  match parse_amount 0 false s with
  | Some (n, "s") => (Z.of_nat n, None)
  | Some (n, "m") => (Z.of_nat (60 * n), None)
  | Some (n, "h") => (Z.of_nat (3600 * n), None)
  | _ => (0%Z, Some (errors_New ("time: invalid duration " +:+ s)))
  end.

Definition render_test (open sep close : string) (t : Test) : string :=
  open +:+ "kind: " +:+ Kind t +:+ sep +:+ "namespace: " +:+ Namespace t +:+ sep
  +:+ "name: " +:+ Name t +:+ sep +:+ "env: " +:+ strings.Join (Env (Spec t)) "," +:+ close.

Definition as_error (phase : TestPhase) (name : string) : option error :=
  if bool_decide (phase = TestPhaseFailed ∨ phase = TestPhaseError)
  then Some (errors_New ("Test '" +:+ name +:+ "' finished with status: " +:+ phase_string phase))
  else None.

Definition error_result (namespace source : string) (err : error) : Test :=
  {| Kind := "Test"; APIVersion := "yaks.citrusframework.org/v1alpha1";
     Namespace := namespace; Name := sanitize source; ResourceVersion := "";
     Spec := {| Source := {| Source_Name := source; Source_Content := "";
                             Source_Language := "feature" |};
                Resources := []; Settings := SettingsSpec_zero; Env := [];
                Secret := ""; Selenium_Image := ""; KubeDock_Image := ""; Dev := false |};
     Status := {| Phase := TestPhaseError;
                  Results := {| Tests := [source]; Errors := [Error err] |} |} |}.

Definition defaults : RunConfig :=
  {| BaseDir := ""; Namespace_Name := ""; Namespace_Temporary := false;
     Namespace_AutoRemove := true; Recursive := true; Operator_Roles := [];
     Runtime_Resources := []; Runtime_Env := []; Runtime_Secret := "";
     Runtime_Selenium_Image := ""; Runtime_TestContainers_Enabled := false;
     Runtime_Settings := {| Settings_Dependencies := []; Settings_Repositories := [];
                            Settings_Loggers := [] |};
     Cucumber_Tags := []; Cucumber_Glue := []; Cucumber_Options := "";
     Config_Timeout := ""; Pre := []; Post := [] |}.

Definition last_segment (s : string) : string :=
  default s (last (strings.Split s "/")).

(** [fmt.Errorf] on a text and no operand: a verb finds its operand
    missing and [%%] is a percent sign.  Flags, a width and a precision
    are read the way [fmt] reads them; argument indexes and starred widths
    are not. *)
Inductive Scan := InText | InFlags | InWidth | InPrecision.

Definition missing (verb : Ascii.ascii) (rest : string) : string :=
  if Nat.eqb (Ascii.nat_of_ascii verb) 37 then String verb rest
  else "%!" +:+ String verb ("(MISSING)" +:+ rest).

Fixpoint reformat (state : Scan) (s : string) : string :=
  match s with
  | EmptyString =>
      match state with
      | InText => EmptyString
      | _ => "%!(NOVERB)"
      end
  | String c s' =>
      let n := Ascii.nat_of_ascii c in
      let digit := Nat.leb 48 n && Nat.leb n 57 in
      let flag := bool_decide (n ∈ [35; 48; 43; 45; 32]) in
      let dot := Nat.eqb n 46 in
      match state with
      | InText => if Nat.eqb n 37 then reformat InFlags s' else String c (reformat InText s')
      | InFlags =>
          if flag then reformat InFlags s'
          else if digit then reformat InWidth s'
          else if dot then reformat InPrecision s'
          else missing c (reformat InText s')
      | InWidth =>
          if digit then reformat InWidth s'
          else if dot then reformat InPrecision s'
          else missing c (reformat InText s')
      | InPrecision =>
          if digit then reformat InPrecision s'
          else missing c (reformat InText s')
      end
  end.

Definition errorf (format : string) : error := errors_New (reformat InText format).

(** The route never comes: the poller calls [cancel()] in its thousand and
    second round. *)
Definition route_rounds (key : ObjectKey) : string :=
  let round := "Error: routes " +:+ key.2 +:+ " not found"
               +:+ "waiting a sec for the route to provision" +:+ nl in
  String.concat "" (replicate 1001 round).

Definition dir_of (s : string) : string :=
  strings.Join (removelast (strings.Split s "/")) "/".

End Sim.

#[global] Instance sim : Platform := {|
  Sys := Sim.State;
  host := Sim.sim_host;
  TestKind := "Test";
  SchemeGroupVersion := "yaks.citrusframework.org/v1alpha1";
  LanguageGherkin := "feature";
  DefaultTimeout := "30m";
  DefaultOutput := "";
  SummaryOutput := "summary";
  ClusterTypeOpenShift := "OpenShift";
  ClusterTypeKubernetes := "Kubernetes";
  NewWithDefaults := Sim.defaults;
  SanitizeFileName := Sim.last_segment;
  SanitizeName := λ s, Sim.sanitize (Sim.last_segment s);
  resolvePath := λ runConfig path, BaseDir runConfig +:+ "/" +:+ path;
  getBaseDir := Sim.dir_of;
  isRemoteFile := λ s, strings.HasPrefix s "http://" || strings.HasPrefix s "https://";
  IsGlobal := Operator_Global;
  AsError := Sim.as_error;
  GetErrorResult := Sim.error_result;
  path_Base := Sim.last_segment;
  path_Join := λ a b, a +:+ "/" +:+ b;
  path_Split := λ s, (Sim.dir_of s, Sim.last_segment s);
  ParseDuration := Sim.parse_duration;
  ToYAML := λ t, (Sim.render_test "" nl nl t, None);
  ToJSON := λ t, (Sim.render_test "{" ", " "}" t, None);
  yaml_Marshal := λ c, (strings.Join (Settings_Dependencies c) ",", None);
  fmt_Errorf := Sim.errorf;
  isDir := λ path s, bool_decide (is_Some (Sim.dirs s !! path));
  ReadDir := Sim.read_dir;
  LoadConfig := λ path s, (default Sim.defaults (Sim.configs s !! path), None);
  loadData := Sim.load;
  GetCmdClient := λ _, None;
  IsOpenShift := λ s, (Sim.openshift s, None);
  client_Create := Sim.create;
  client_Get := Sim.get;
  client_Update := Sim.update;
  client_Status_Update := Sim.status_update;
  client_GetInstance := Sim.get_instance;
  client_ListInstances := λ s, ((Sim.instances s, None), s);
  client_CreateNamespace := Sim.create_namespace;
  client_DeleteNamespace := Sim.delete_namespace;
  poll := λ _ _ s, (Sim.observed s, s);
  log_Print := λ _ _ s, (None, s);
  pollRoute := λ key s, (Sim.route_rounds key, s);
  uuid_New := λ s, (pretty (Sim.counter s), Sim.tick s);
  setupCluster := λ s, (Sim.setup_error s, s);
  OperatorOrCollect := λ _ s, (None, s);
  applyOperatorRole := λ _ _ s, (None, s);
  uploadLocalArtifact := λ path _ s, ((Sim.last_segment path, None), s);
  command_Run := λ _ script _ _ _, Sim.run_command script;
  TempFile := λ s, (("/tmp/yaks-script-" +:+ pretty (Sim.counter s) +:+ ".sh", None), Sim.tick s);
  WriteString := λ _ _ s, (None, s);
  file_Close := λ _ s, (None, s);
  Chmod := λ _ s, (None, s);
  Remove := λ _ s, s;
  SaveTestResults := λ _ s, (None, s);
  GenerateReport := λ _ _ s, s;
  PrintSummaryReport := λ _ s, s;
|}.

(** *** Concrete inputs *)

Definition linux : Host :=
  {| GOOS := "linux"; GOARCH := "amd64"; environ := {["FOO" := "bar"]} |}.

Definition options0 : runCmdOptions :=
  {| o_Namespace := "default"; Repositories := []; Dependencies := []; Logger := [];
     Uploads := []; o_Settings := ""; o_Env := None; Tags := None; Features := None;
     o_Resources := []; PropertyFiles := []; Glue := None; Options := "";
     DumpFormat := ""; ReportFormat := "junit"; Timeout := ""; Wait := true; Logs := true;
     o_Dev := false |}.

Definition with_DumpFormat (o : runCmdOptions) (format : string) : runCmdOptions :=
  {| o_Namespace := o_Namespace o; Repositories := Repositories o;
     Dependencies := Dependencies o; Logger := Logger o; Uploads := Uploads o;
     o_Settings := o_Settings o; o_Env := o_Env o; Tags := Tags o; Features := Features o;
     o_Resources := o_Resources o; PropertyFiles := PropertyFiles o; Glue := Glue o;
     Options := Options o; DumpFormat := format; ReportFormat := ReportFormat o;
     Timeout := Timeout o; Wait := Wait o; Logs := Logs o; o_Dev := o_Dev o |}.

Definition with_Wait (o : runCmdOptions) (wait : bool) : runCmdOptions :=
  {| o_Namespace := o_Namespace o; Repositories := Repositories o;
     Dependencies := Dependencies o; Logger := Logger o; Uploads := Uploads o;
     o_Settings := o_Settings o; o_Env := o_Env o; Tags := Tags o; Features := Features o;
     o_Resources := o_Resources o; PropertyFiles := PropertyFiles o; Glue := Glue o;
     Options := Options o; DumpFormat := DumpFormat o; ReportFormat := ReportFormat o;
     Timeout := Timeout o; Wait := wait; Logs := Logs o; o_Dev := o_Dev o |}.

Definition with_Timeout (o : runCmdOptions) (timeout : string) : runCmdOptions :=
  {| o_Namespace := o_Namespace o; Repositories := Repositories o;
     Dependencies := Dependencies o; Logger := Logger o; Uploads := Uploads o;
     o_Settings := o_Settings o; o_Env := o_Env o; Tags := Tags o; Features := Features o;
     o_Resources := o_Resources o; PropertyFiles := PropertyFiles o; Glue := Glue o;
     Options := Options o; DumpFormat := DumpFormat o; ReportFormat := ReportFormat o;
     Timeout := timeout; Wait := Wait o; Logs := Logs o; o_Dev := o_Dev o |}.

Definition with_cli_env (o : runCmdOptions) (env : list string) : runCmdOptions :=
  {| o_Namespace := o_Namespace o; Repositories := Repositories o;
     Dependencies := Dependencies o; Logger := Logger o; Uploads := Uploads o;
     o_Settings := o_Settings o; o_Env := Some env; Tags := Tags o; Features := Features o;
     o_Resources := o_Resources o; PropertyFiles := PropertyFiles o; Glue := Glue o;
     Options := Options o; DumpFormat := DumpFormat o; ReportFormat := ReportFormat o;
     Timeout := Timeout o; Wait := Wait o; Logs := Logs o; o_Dev := o_Dev o |}.

Definition passed (namespace name : string) : Object :=
  ObjTest
    {| Kind := "Test"; APIVersion := "yaks.citrusframework.org/v1alpha1";
       Namespace := namespace; Name := name; ResourceVersion := "9";
       Spec := Spec (Sim.error_result namespace name (errors_New ""));
       Status := {| Phase := TestPhasePassed;
                    Results := {| Tests := [name]; Errors := [] |} |} |}.

(** A directory [tests] with [a.feature] and [b.feature]; [b.feature]
    cannot be read. *)
Definition state0 : Sim.State :=
  {| Sim.sim_host := linux;
     Sim.files := {["tests/a.feature" := "Feature: a"]};
     Sim.configs := ∅;
     Sim.dirs := {["tests" := ReadDirResult [("a.feature", None); ("b.feature", None)] None]};
     Sim.store := ∅;
     Sim.version := 0;
     Sim.namespaces := [];
     Sim.instances := [];
     Sim.openshift := false;
     Sim.setup_error := None;
     Sim.failing_scripts := [];
     Sim.observed := [passed "default" "afeature"];
     Sim.counter := 0 |}.

Definition world_of (s : Sim.State) (o : runCmdOptions) : World :=
  {| sys := s; stdout := []; stderr := []; trace := []; opts := o;
     results := {| Suites := [] |} |}.

Definition world0 : World := world_of state0 options0.

(** What [createAndRunTest] does with a built [test] under a dump format
    that is not empty. *)
Definition dump_outcome {P : Platform} (format : string) (test : Test) (w : World)
  : Outcome (option Test * option error) * World :=
  if String.eqb format "yaml" then
    match ToYAML test with
    | (data, None) => (Done (None, None), add_stdout w data)
    | (_, Some err) => (Done (None, Some err), w)
    end
  else if String.eqb format "json" then
    match ToJSON test with
    | (data, None) => (Done (None, None), add_stdout w data)
    | (_, Some err) => (Done (None, Some err), w)
    end
  else
    (Done (None, Some (errors_New ("invalid dump output format option '" +:+ format
                                   +:+ "', should be one of: yaml|json"))), w).

(** The events of the trace by what they touch. *)
Inductive EventClass :=
| ClTest        (* create, get, update, status update of the Test resource *)
| ClWatch       (* polling the Test resource or its route, following its logs *)
| ClInstance    (* looking for operator instances *)
| ClNamespace   (* creating the temporary namespace *)
| ClDelete      (* deleting the temporary namespace *)
| ClOperator    (* cluster set-up and operator installation *)
| ClUpload
| ClHook        (* scripts of the pre and post steps, and their temporary files *)
| ClReport.     (* saving results, reports *)

#[global] Instance EventClass_eq_dec : EqDecision EventClass.
Proof. solve_decision. Defined.

Definition class_of (ev : Event) : EventClass :=
  match ev with
  | EvCreate _ | EvGet _ | EvUpdate _ | EvStatusUpdate _ => ClTest
  | EvWait _ _ | EvLogs _ _ | EvRoute _ => ClWatch
  | EvGetInstance _ | EvListInstances => ClInstance
  | EvCreateNamespace _ => ClNamespace
  | EvDeleteNamespace _ _ => ClDelete
  | EvSetupCluster | EvInstallOperator _ | EvApplyRole _ _ => ClOperator
  | EvUpload _ _ => ClUpload
  | EvExec _ _ _ _ _ | EvTempFile _ | EvWriteString _ _ | EvClose _ | EvChmod _ | EvRemove _ =>
      ClHook
  | EvSaveTestResults _ | EvGenerateReport _ _ | EvPrintSummaryReport _ => ClReport
  end.

Definition of_class (classes : list EventClass) (ev : Event) : Prop :=
  bool_decide (class_of ev ∈ classes) = true.

(** The world after calls that left the outside state [s] and the events
    [evs]. *)
Definition after_calls {P : Platform} (w : World) (s : Sys) (evs : list Event) : World :=
  {| sys := s; stdout := stdout w; stderr := stderr w; trace := trace w ++ evs;
     opts := opts w; results := results w |}.

(** The reference cluster files every resource under its own namespace and
    name. *)
Definition sim_wf (s : Sim.State) : Prop :=
  ∀ key t, Sim.store s !! key = Some t → ObjectKeyFromObject t = key.

(** The run left the state outside the process alone. *)
Definition same_sys {P : Platform} (w w' : World) : Prop := sys w' = sys w.

(** The test of [tests/a.feature] as a previous run left it on the
    cluster: passed, with its results. *)
Definition stored_before : Test :=
  match passed "default" "afeature" with
  | ObjTest t => t
  | ObjOther => Sim.error_result "" "" (errors_New "")
  end.

Definition state1 : Sim.State :=
  Sim.set_store state0 {[("default", "afeature") := stored_before]}.

Definition config0 : RunConfig := with_Namespace_Name Sim.defaults "default".

(** What [buildTest] makes of [tests/a.feature] under [config0] and
    [options0]. *)
Definition test_a : Test :=
  {| Kind := "Test"; APIVersion := "yaks.citrusframework.org/v1alpha1";
     Namespace := "default"; Name := "afeature"; ResourceVersion := "";
     Spec := {| Source := {| Source_Name := "a.feature"; Source_Content := "Feature: a";
                             Source_Language := "feature" |};
                Resources := []; Settings := SettingsSpec_zero;
                Env := ["YAKS_NAMESPACE=default"];
                Secret := ""; Selenium_Image := ""; KubeDock_Image := ""; Dev := false |};
     Status := TestStatus_zero |}.

(** What a [defer runSteps(runConfig.Post, ...)] makes of the outcome [x]
    of the code it was registered in: the post steps run in the world that
    code left; what they return is dropped. *)
Definition then_post {P : Platform} {A} (runConfig : RunConfig) (x : Outcome A * World)
  : Outcome A * World :=
  match runSteps (Post runConfig) (Namespace_Name runConfig) (BaseDir runConfig) x.2 with
  | (Done _, w') => (x.1, w')
  | (Panic reason, w') => (Panic reason, w')
  end.

(** [k'] fails wherever [k] fails, with the same error and the same
    world. *)
Definition fails_alike {P : Platform} (k k' : M (option error)) : Prop :=
  ∀ w err w', k w = (Done (Some err), w') → k' w = (Done (Some err), w').

(** A configuration with two pre steps and one post step, and a state in
    which the first pre step fails. *)
Definition script_step (name script : string) : StepConfig :=
  {| step_Name := name; step_Script := script; step_Run := ""; step_If := "";
     step_Timeout := "" |}.

Definition with_steps (c : RunConfig) (pre post : list StepConfig) : RunConfig :=
  {| BaseDir := BaseDir c; Namespace_Name := Namespace_Name c;
     Namespace_Temporary := Namespace_Temporary c; Namespace_AutoRemove := Namespace_AutoRemove c;
     Recursive := Recursive c; Operator_Roles := Operator_Roles c;
     Runtime_Resources := Runtime_Resources c; Runtime_Env := Runtime_Env c;
     Runtime_Secret := Runtime_Secret c; Runtime_Selenium_Image := Runtime_Selenium_Image c;
     Runtime_TestContainers_Enabled := Runtime_TestContainers_Enabled c;
     Runtime_Settings := Runtime_Settings c; Cucumber_Tags := Cucumber_Tags c;
     Cucumber_Glue := Cucumber_Glue c; Cucumber_Options := Cucumber_Options c;
     Config_Timeout := Config_Timeout c; Pre := pre; Post := post |}.

Definition config_hooks : RunConfig :=
  with_steps config0
    [script_step "setup" "setup.sh"; script_step "never" "never.sh"]
    [script_step "cleanup" "cleanup.sh"].

Definition with_failing_scripts (s : Sim.State) (scripts : list string) : Sim.State :=
  {| Sim.sim_host := Sim.sim_host s; Sim.files := Sim.files s; Sim.configs := Sim.configs s;
     Sim.dirs := Sim.dirs s; Sim.store := Sim.store s; Sim.version := Sim.version s;
     Sim.namespaces := Sim.namespaces s; Sim.instances := Sim.instances s;
     Sim.openshift := Sim.openshift s; Sim.setup_error := Sim.setup_error s;
     Sim.failing_scripts := scripts; Sim.observed := Sim.observed s;
     Sim.counter := Sim.counter s |}.

Definition with_config (s : Sim.State) (path : string) (c : RunConfig) : Sim.State :=
  {| Sim.sim_host := Sim.sim_host s; Sim.files := Sim.files s;
     Sim.configs := <[path := c]> (Sim.configs s);
     Sim.dirs := Sim.dirs s; Sim.store := Sim.store s; Sim.version := Sim.version s;
     Sim.namespaces := Sim.namespaces s; Sim.instances := Sim.instances s;
     Sim.openshift := Sim.openshift s; Sim.setup_error := Sim.setup_error s;
     Sim.failing_scripts := Sim.failing_scripts s; Sim.observed := Sim.observed s;
     Sim.counter := Sim.counter s |}.

Definition world_hooks (failing : list string) : World :=
  world_of (with_failing_scripts state0 failing) options0.

(** The run left the options alone. *)
Definition same_opts {P : Platform} (w w' : World) : Prop := opts w' = opts w.

(** [returns Q m]: [m] never panics, and what it returns is in [Q]. *)
Definition returns {P : Platform} {A} (Q : A → Prop) (m : M A) : Prop :=
  ∀ w r w', m w = (r, w') → ∃ a, r = Done a ∧ Q a.

(** An entry of a directory that the loop of [runTestGroup] hands to
    [createAndRunTest]. *)
Definition matching (runConfig : RunConfig) (f : FileInfo) : bool :=
  negb (FileInfo_IsDir f && Recursive runConfig)
  && strings.HasSuffix (FileInfo_Name f) FileSuffix.

(** An entry on which the loop of [runTestGroup] calls [runTestGroup]. *)
Definition recursing (runConfig : RunConfig) (f : FileInfo) : bool :=
  FileInfo_IsDir f && Recursive runConfig.

Definition with_dir (s : Sim.State) (path : string) (l : Listing) : Sim.State :=
  {| Sim.sim_host := Sim.sim_host s; Sim.files := Sim.files s; Sim.configs := Sim.configs s;
     Sim.dirs := <[path := l]> (Sim.dirs s); Sim.store := Sim.store s;
     Sim.version := Sim.version s; Sim.namespaces := Sim.namespaces s;
     Sim.instances := Sim.instances s; Sim.openshift := Sim.openshift s;
     Sim.setup_error := Sim.setup_error s; Sim.failing_scripts := Sim.failing_scripts s;
     Sim.observed := Sim.observed s; Sim.counter := Sim.counter s |}.

(** A configuration that asks for a temporary namespace, to be removed
    after the run, and a cluster on which the operator cannot be set up. *)
Definition with_temporary (c : RunConfig) (temporary autoRemove : bool) : RunConfig :=
  {| BaseDir := BaseDir c; Namespace_Name := "";
     Namespace_Temporary := temporary; Namespace_AutoRemove := autoRemove;
     Recursive := Recursive c; Operator_Roles := Operator_Roles c;
     Runtime_Resources := Runtime_Resources c; Runtime_Env := Runtime_Env c;
     Runtime_Secret := Runtime_Secret c; Runtime_Selenium_Image := Runtime_Selenium_Image c;
     Runtime_TestContainers_Enabled := Runtime_TestContainers_Enabled c;
     Runtime_Settings := Runtime_Settings c; Cucumber_Tags := Cucumber_Tags c;
     Cucumber_Glue := Cucumber_Glue c; Cucumber_Options := Cucumber_Options c;
     Config_Timeout := Config_Timeout c; Pre := Pre c; Post := Post c |}.

Definition with_setup_error (s : Sim.State) (err : option error) : Sim.State :=
  {| Sim.sim_host := Sim.sim_host s; Sim.files := Sim.files s; Sim.configs := Sim.configs s;
     Sim.dirs := Sim.dirs s; Sim.store := Sim.store s; Sim.version := Sim.version s;
     Sim.namespaces := Sim.namespaces s; Sim.instances := Sim.instances s;
     Sim.openshift := Sim.openshift s; Sim.setup_error := err;
     Sim.failing_scripts := Sim.failing_scripts s; Sim.observed := Sim.observed s;
     Sim.counter := Sim.counter s |}.

Definition state_temporary (setup : option error) : Sim.State :=
  with_setup_error
    (with_config state0 "tests/yaks-config.yaml" (with_temporary Sim.defaults true true))
    setup.

Definition is_delete (ev : Event) : bool :=
  match ev with EvDeleteNamespace _ _ => true | _ => false end.

(** The classes of the events that may follow the set-up of the namespace
    in a run that does not recurse: none of them is a removal. *)
Definition after_setup : list EventClass := [ClUpload; ClHook; ClTest; ClWatch; ClReport].

(** *** A platform with faults

    The reference platform with a client that cannot be had, a cluster
    that cannot be probed or that refuses a Test, logs that cannot be
    printed, or roles that are refused. *)

Record Faults := {
  no_client : option error;          (* what [GetCmdClient] answers *)
  no_probe : option error;           (* what [openshift.IsOpenShift] answers *)
  no_create : option error;          (* what [c.Create] answers for a Test, if set *)
  no_logs : option error;            (* what [k8slog.Print] answers *)
  refused_roles : list string;       (* the roles that [applyOperatorRole] refuses *)
}.

Definition faulty (f : Faults) : Platform := {|
  Sys := Sim.State;
  host := @host sim;
  TestKind := @TestKind sim;
  SchemeGroupVersion := @SchemeGroupVersion sim;
  LanguageGherkin := @LanguageGherkin sim;
  DefaultTimeout := @DefaultTimeout sim;
  DefaultOutput := @DefaultOutput sim;
  SummaryOutput := @SummaryOutput sim;
  ClusterTypeOpenShift := @ClusterTypeOpenShift sim;
  ClusterTypeKubernetes := @ClusterTypeKubernetes sim;
  NewWithDefaults := @NewWithDefaults sim;
  SanitizeFileName := @SanitizeFileName sim;
  SanitizeName := @SanitizeName sim;
  resolvePath := @resolvePath sim;
  getBaseDir := @getBaseDir sim;
  isRemoteFile := @isRemoteFile sim;
  IsGlobal := @IsGlobal sim;
  AsError := @AsError sim;
  GetErrorResult := @GetErrorResult sim;
  path_Base := @path_Base sim;
  path_Join := @path_Join sim;
  path_Split := @path_Split sim;
  ParseDuration := @ParseDuration sim;
  ToYAML := @ToYAML sim;
  ToJSON := @ToJSON sim;
  yaml_Marshal := @yaml_Marshal sim;
  fmt_Errorf := @fmt_Errorf sim;
  isDir := @isDir sim;
  ReadDir := @ReadDir sim;
  LoadConfig := @LoadConfig sim;
  loadData := @loadData sim;
  GetCmdClient := λ _, no_client f;
  IsOpenShift := λ s, (Sim.openshift s, no_probe f);
  client_Create := λ t s,
    match no_create f with
    | Some err => ((t, Some err), s)
    | None => Sim.create t s
    end;
  client_Get := @client_Get sim;
  client_Update := @client_Update sim;
  client_Status_Update := @client_Status_Update sim;
  client_GetInstance := @client_GetInstance sim;
  client_ListInstances := @client_ListInstances sim;
  client_CreateNamespace := @client_CreateNamespace sim;
  client_DeleteNamespace := @client_DeleteNamespace sim;
  poll := @poll sim;
  log_Print := λ _ _ s, (no_logs f, s);
  pollRoute := @pollRoute sim;
  uuid_New := @uuid_New sim;
  setupCluster := @setupCluster sim;
  OperatorOrCollect := @OperatorOrCollect sim;
  applyOperatorRole := λ path _ s,
    (if bool_decide (path ∈ refused_roles f)
     then Some (errors_New ("forbidden: " +:+ path)) else None, s);
  uploadLocalArtifact := @uploadLocalArtifact sim;
  command_Run := @command_Run sim;
  TempFile := @TempFile sim;
  WriteString := @WriteString sim;
  file_Close := @file_Close sim;
  Chmod := @Chmod sim;
  Remove := @Remove sim;
  SaveTestResults := @SaveTestResults sim;
  GenerateReport := @GenerateReport sim;
  PrintSummaryReport := @PrintSummaryReport sim;
|}.

Definition faulty_world (f : Faults) (s : Sim.State) (o : runCmdOptions) : @World (faulty f) :=
  @Build_World (faulty f) s [] [] [] o {| Suites := [] |}.

Definition no_faults : Faults :=
  {| no_client := None; no_probe := None; no_create := None; no_logs := None;
     refused_roles := [] |}.

Definition offline : Faults :=
  {| no_client := Some (errors_New "no configuration has been provided");
     no_probe := None; no_create := None; no_logs := None; refused_roles := [] |}.

Definition mute : Faults :=
  {| no_client := None; no_probe := None; no_create := None;
     no_logs := Some (errors_New "container is not ready"); refused_roles := [] |}.

Definition strict : Faults :=
  {| no_client := None; no_probe := None; no_create := None; no_logs := None;
     refused_roles := ["/viewer.yaml"] |}.

Definition forbidden : Faults :=
  {| no_client := None; no_probe := None;
     no_create := Some {| Reason := "Forbidden"; Error := "tests is forbidden" |};
     no_logs := None; refused_roles := [] |}.

(** A cluster with a global operator in the namespace [operators]. *)
Definition with_instances (s : Sim.State) (l : list Instance) : Sim.State :=
  {| Sim.sim_host := Sim.sim_host s; Sim.files := Sim.files s; Sim.configs := Sim.configs s;
     Sim.dirs := Sim.dirs s; Sim.store := Sim.store s; Sim.version := Sim.version s;
     Sim.namespaces := Sim.namespaces s; Sim.instances := l;
     Sim.openshift := Sim.openshift s; Sim.setup_error := Sim.setup_error s;
     Sim.failing_scripts := Sim.failing_scripts s; Sim.observed := Sim.observed s;
     Sim.counter := Sim.counter s |}.

Definition state_global : Sim.State :=
  with_instances state0 [{| Instance_Namespace := "operators"; Operator_Global := true |}].

(** A test with a resource of the run configuration and a property file
    of the command line. *)
Definition with_files (s : Sim.State) (files : gmap string string) : Sim.State :=
  {| Sim.sim_host := Sim.sim_host s; Sim.files := files; Sim.configs := Sim.configs s;
     Sim.dirs := Sim.dirs s; Sim.store := Sim.store s; Sim.version := Sim.version s;
     Sim.namespaces := Sim.namespaces s; Sim.instances := Sim.instances s;
     Sim.openshift := Sim.openshift s; Sim.setup_error := Sim.setup_error s;
     Sim.failing_scripts := Sim.failing_scripts s; Sim.observed := Sim.observed s;
     Sim.counter := Sim.counter s |}.

Definition state_resources : Sim.State :=
  with_files state0
    {["tests/a.feature" := "Feature: a"; "tests/data.json" := "{}";
      "tests/app.properties" := "a=b"]}.

Definition config_resources : RunConfig :=
  {| BaseDir := "tests"; Namespace_Name := "default"; Namespace_Temporary := false;
     Namespace_AutoRemove := true; Recursive := true; Operator_Roles := [];
     Runtime_Resources := ["data.json"]; Runtime_Env := []; Runtime_Secret := "";
     Runtime_Selenium_Image := ""; Runtime_TestContainers_Enabled := true;
     Runtime_Settings := {| Settings_Dependencies := []; Settings_Repositories := [];
                            Settings_Loggers := [] |};
     Cucumber_Tags := []; Cucumber_Glue := []; Cucumber_Options := "";
     Config_Timeout := ""; Pre := []; Post := [] |}.

Definition options_resources : runCmdOptions :=
  {| o_Namespace := "default"; Repositories := []; Dependencies := []; Logger := [];
     Uploads := []; o_Settings := ""; o_Env := None; Tags := None; Features := None;
     o_Resources := []; PropertyFiles := ["app.properties"]; Glue := None; Options := "";
     DumpFormat := ""; ReportFormat := "junit"; Timeout := ""; Wait := true; Logs := true;
     o_Dev := false |}.

Definition test_resources : Test :=
  {| Kind := "Test"; APIVersion := "yaks.citrusframework.org/v1alpha1";
     Namespace := "default"; Name := "afeature"; ResourceVersion := "";
     Spec := {| Source := {| Source_Name := "a.feature"; Source_Content := "Feature: a";
                             Source_Language := "feature" |};
                Resources := [{| Resource_Name := "data.json"; Resource_Content := "{}" |};
                              {| Resource_Name := "app.properties";
                                 Resource_Content := "a=b" |}];
                Settings := SettingsSpec_zero;
                Env := ["YAKS_NAMESPACE=default"];
                Secret := ""; Selenium_Image := "";
                KubeDock_Image := "joyrex2001/kubedock:0.7.0"; Dev := false |};
     Status := TestStatus_zero |}.

(** A run configuration with two operator roles. *)
Definition config_roles : RunConfig :=
  {| BaseDir := ""; Namespace_Name := "default"; Namespace_Temporary := false;
     Namespace_AutoRemove := true; Recursive := true;
     Operator_Roles := ["viewer.yaml"; "editor.yaml"];
     Runtime_Resources := []; Runtime_Env := []; Runtime_Secret := "";
     Runtime_Selenium_Image := ""; Runtime_TestContainers_Enabled := false;
     Runtime_Settings := {| Settings_Dependencies := []; Settings_Repositories := [];
                            Settings_Loggers := [] |};
     Cucumber_Tags := []; Cucumber_Glue := []; Cucumber_Options := "";
     Config_Timeout := ""; Pre := []; Post := [] |}.

(** ** [validateArgs], and the body of [run] *)

Definition validateArgs (args : list string) : option error :=
  if negb (Nat.eqb (length args) 1)
  then Some (errors_New ("accepts exactly 1 test name to execute, received "
                         +:+ pretty (length args)))
  else None.

(** What [run] does between its [defer]s and its [return]. *)
Definition run_body {P : Platform} (source : string) : M (option error) :=
  dir ← read (isDir source);
  (if dir : bool then runTestGroup source else runTest source);;
  results ← get_results;
  if hasErrors results then mret (Some (errors_New "There are test failures!"))
  else mret None.

(** ** Vocabulary of the further properties *)

(** The file that [getRunConfig] loads for a local [source]. *)
Definition configFileOf {P : Platform} (source : string) (s : Sys) : string :=
  if isDir source s then path_Join source ConfigFile
  else path_Join (fst (path_Split source)) ConfigFile.

(** The files that [createAndRunTest] loads as resources of the test, in
    the order of its three loops. *)
Definition resource_files (o : runCmdOptions) (runConfig : RunConfig) : list string :=
  Runtime_Resources runConfig ++ o_Resources o ++ PropertyFiles o.

(** The resource that a loop of [createAndRunTest] appends for a file. *)
Definition resource_of {P : Platform} (runConfig : RunConfig) (s : Sys) (resource : string)
  : ResourceSpec :=
  {| Resource_Name := path_Base resource;
     Resource_Content := (loadData (resolvePath runConfig resource) s).1 |}.

(** The file can be read. *)
Definition readable {P : Platform} (s : Sys) (path : string) : Prop :=
  (loadData path s).2 = None.

(** A clause that [skipStep] looks at: its key is [os] or starts with
    [env:]. *)
Definition recognised (condition : string) : bool :=
  match keyValueOf condition !! 0%nat with
  | Some k0 => String.eqb k0 "os" || strings.HasPrefix k0 "env:"
  | None => false
  end.

(** The name under which [runSteps] reports the step at index [idx]. *)
Definition step_name (idx : nat) (step : StepConfig) : string :=
  if Nat.eqb (String.length (step_Name step)) 0 then "step-" +:+ pretty idx
  else step_Name step.

(** The files that a trace removes, and those it writes to. *)
Definition removed_files (evs : list Event) : list string :=
  omap (λ ev, match ev with EvRemove file => Some file | _ => None end) evs.

Definition written_files (evs : list Event) : list string :=
  omap (λ ev, match ev with EvWriteString file _ => Some file | _ => None end) evs.

(** An event that neither removes a file nor writes to one other than
    [file]; with no [file], one that does neither. *)
Definition spares (file : option string) (ev : Event) : Prop :=
  match ev with
  | EvRemove _ => False
  | EvWriteString f _ => file = Some f
  | _ => True
  end.

(** From [w] to [w'] the scripts that were written were all removed, at
    the very end. *)
Definition tidy {P : Platform} (w w' : World) : Prop :=
  ∃ body files,
    trace w' = trace w ++ body ++ (EvRemove <$> files)
    ∧ removed_files body = []
    ∧ ∀ file, file ∈ files ↔ file ∈ written_files body.

(** [m] makes calls that spare [file] and then goes on tidily. *)
Definition leads {P : Platform} {A} (file : option string) (m : M A) : Prop :=
  ∀ w r w', m w = (r, w') → ∃ w1, emits (spares file) w w1 ∧ tidy w1 w'.

(** A string with no opening brace: a file name without a placeholder. *)
Definition braceless (s : string) : Prop := strings.Contains s "{" = false.

(** An event that is not the making of a report. *)
Definition unreported (ev : Event) : Prop :=
  match ev with
  | EvGenerateReport _ _ | EvPrintSummaryReport _ => False
  | _ => True
  end.

(** How deep the directories of a listing nest. *)
Fixpoint Listing_depth (listing : Listing) : nat :=
  match listing with
  | ReadDirResult files _ =>
      S ((fix deepest (files : list (string * option Listing)) : nat :=
            match files with
            | [] => 0
            | (_, Some sub) :: rest => Nat.max (Listing_depth sub) (deepest rest)
            | (_, None) :: rest => deepest rest
            end) files)
  end.

(** The settings that [newSettings] makes for a test: the file of
    [--settings] when there is one, else the settings of the run
    configuration when it has any, else none. *)
Definition settings_of {P : Platform} (o : runCmdOptions) (runConfig : RunConfig) (s : Sys)
  : SettingsSpec :=
  if negb (String.eqb (o_Settings o) "") then
    {| Settings_Name := SanitizeFileName (o_Settings o);
       Settings_Content := (loadData (resolvePath runConfig (o_Settings o)) s).1 |}
  else if nonempty (Settings_Dependencies (Runtime_Settings runConfig))
          || nonempty (Settings_Repositories (Runtime_Settings runConfig))
          || nonempty (Settings_Loggers (Runtime_Settings runConfig)) then
    {| Settings_Name := "yaks.settings.yaml";
       Settings_Content := (yaml_Marshal (Runtime_Settings runConfig)).1 |}
  else SettingsSpec_zero.

(** *** Further concrete inputs *)

(** A test with a settings file on the command line. *)
Definition state_settings : Sim.State :=
  with_files state0
    {["tests/a.feature" := "Feature: a"; "/settings.yaml" := "loggers: []"]}.

Definition options_settings : runCmdOptions :=
  {| o_Namespace := "default"; Repositories := []; Dependencies := []; Logger := [];
     Uploads := []; o_Settings := "settings.yaml"; o_Env := None; Tags := None;
     Features := None; o_Resources := []; PropertyFiles := []; Glue := None; Options := "";
     DumpFormat := ""; ReportFormat := "junit"; Timeout := ""; Wait := true; Logs := true;
     o_Dev := false |}.

Definition test_settings : Test :=
  with_Settings test_a
    {| Settings_Name := "settings.yaml"; Settings_Content := "loggers: []" |}.

(** An inline command. *)
Definition inline_step : StepConfig :=
  {| step_Name := "greet"; step_Script := ""; step_Run := "echo hello"; step_If := "";
     step_Timeout := "10s" |}.

(** A command line with a library to upload. *)
Definition options_uploads : runCmdOptions :=
  {| o_Namespace := "default"; Repositories := []; Dependencies := ["org.acme:steps:1.0"];
     Logger := []; Uploads := ["build/lib.jar"]; o_Settings := ""; o_Env := None;
     Tags := None; Features := None; o_Resources := []; PropertyFiles := []; Glue := None;
     Options := ""; DumpFormat := ""; ReportFormat := "junit"; Timeout := ""; Wait := true;
     Logs := true; o_Dev := false |}.

Definition test_uploads : Test :=
  with_Env test_a ["YAKS_NAMESPACE=default"; "YAKS_DEPENDENCIES=org.acme:steps:1.0,lib.jar"].

(** The listing of a directory with two test files. *)
Definition listing_tests : Listing :=
  ReadDirResult [("a.feature", None); ("b.feature", None)] None.

(* ===================================================================== *)
(** * Properties *)
(* ===================================================================== *)

(** ** [strings.Split] on the separators of [skipStep] *)

Example Split_and : strings.Split "os=linux && env:FOO=bar" " && " = ["os=linux"; "env:FOO=bar"].
Proof. reflexivity. Qed.

Example Split_trailing : strings.Split "a=" "=" = ["a"; ""].
Proof. reflexivity. Qed.

Example Split_three : strings.Split "env:FOO=a=b" "=" = ["env:FOO"; "a"; "b"].
Proof. reflexivity. Qed.

Example skipStep_bare_os_panics h : skipStep h (mkStep "os") = None.
Proof. reflexivity. Qed.

Lemma append_cons a s t : String a s +:+ t = String a (s +:+ t).
Proof. reflexivity. Qed.

Lemma append_snoc cur c s : (cur +:+ String c "") +:+ s = cur +:+ String c s.
Proof. induction cur as [|a cur IH]; [done|]. by rewrite !append_cons, IH. Qed.

Lemma append_empty_r s : s +:+ "" = s.
Proof. induction s as [|a s IH]; [done|]. by rewrite append_cons, IH. Qed.

Lemma plain_cons c s :
  plain (String c s) ↔ strings.HasPrefix (String c s) "=" = false ∧ plain s.
Proof. unfold plain. cbn [strings.Contains]. apply orb_false_iff. Qed.

Lemma genSplit_plain cur s :
  plain s → strings.genSplit "=" 0 cur s = [cur +:+ s].
Proof.
  revert cur. induction s as [|c s IH]; intros cur Hs.
  - cbn. by rewrite append_empty_r.
  - apply plain_cons in Hs as [Hc Hs].
    cbn [strings.genSplit]. rewrite Hc, IH by done.
    by rewrite append_snoc.
Qed.

Lemma genSplit_key cur n v :
  plain n →
  strings.genSplit "=" 0 cur (n +:+ "=" +:+ v)
  = (cur +:+ n) :: strings.genSplit "=" 0 "" v.
Proof.
  revert cur. induction n as [|c n IH]; intros cur Hn.
  - change ("" +:+ "=" +:+ v) with ("=" +:+ v).
    rewrite append_empty_r. reflexivity.
  - apply plain_cons in Hn as [Hc Hn].
    change (String c n +:+ "=" +:+ v) with (String c (n +:+ "=" +:+ v)).
    cbn [strings.genSplit]. 
    change (strings.HasPrefix (String c (n +:+ "=" +:+ v)) "=")
      with (strings.HasPrefix (String c n) "=").
    rewrite Hc, IH by done. by rewrite append_snoc.
Qed.

Lemma Contains_app_sep n v : strings.Contains (n +:+ "=" +:+ v) "=" = true.
Proof.
  induction n as [|c n IH]; [done|].
  change (String c n +:+ "=" +:+ v) with (String c (n +:+ "=" +:+ v)).
  cbn [strings.Contains]. rewrite IH. apply orb_true_r.
Qed.

Lemma keyValueOf_os v : plain v → keyValueOf (render (OSEquals v)) = ["os"; v].
Proof.
  intros Hv. unfold keyValueOf, render.
  change ("os=" +:+ v) with ("os" +:+ "=" +:+ v).
  rewrite Contains_app_sep.
  change (strings.Split ("os" +:+ "=" +:+ v) "=")
    with (strings.genSplit "=" 0 "" ("os" +:+ "=" +:+ v)).
  rewrite genSplit_key by done. by rewrite genSplit_plain.
Qed.

Lemma keyValueOf_present n : plain n → keyValueOf (render (EnvPresent n)) = ["env:" +:+ n].
Proof.
  intros Hn. unfold keyValueOf, render.
  change (strings.Contains ("env:" +:+ n) "=") with (strings.Contains n "=").
  unfold plain in Hn. by rewrite Hn.
Qed.

Lemma plain_env n : plain n → plain ("env:" +:+ n).
Proof. intros Hn. exact Hn. Qed.

Lemma keyValueOf_equals n v :
  plain n → plain v → keyValueOf (render (EnvEquals n v)) = ["env:" +:+ n; v].
Proof.
  intros Hn Hv. unfold keyValueOf, render.
  change ("env:" +:+ n +:+ "=" +:+ v) with (("env:" +:+ n) +:+ "=" +:+ v).
  rewrite Contains_app_sep.
  change (strings.Split (("env:" +:+ n) +:+ "=" +:+ v) "=")
    with (strings.genSplit "=" 0 "" (("env:" +:+ n) +:+ "=" +:+ v)).
  rewrite genSplit_key by by apply plain_env.
  by rewrite genSplit_plain.
Qed.

Lemma env_key_not_os n : String.eqb ("env:" +:+ n) "os" = false.
Proof. reflexivity. Qed.

Lemma env_key_prefix n : strings.HasPrefix ("env:" +:+ n) "env:" = true.
Proof. reflexivity. Qed.

Lemma env_key_trim n : strings.TrimPrefix ("env:" +:+ n) "env:" = n.
Proof. reflexivity. Qed.

(** One pass of the loop body on a well-formed clause, entered with the
    variable [skipStep] still [false]. *)
Lemma skipStep_body_clause h c :
  clause_wf c →
  skipStep_body h false (render c)
  = Some (if clause_passes h c then IterNext false else IterReturn true).
Proof.
  destruct c as [v|n|n v]; cbn [clause_wf clause_passes]; intros Hwf; unfold skipStep_body.
  - rewrite keyValueOf_os by done. cbn.
    by destruct (String.eqb v (GOOS h)).
  - rewrite keyValueOf_present by done.
    cbn [lookup list_lookup mbind option_bind length].
    rewrite env_key_not_os, env_key_prefix, env_key_trim. cbn [Nat.eqb].
    unfold LookupEnv. destruct (environ h !! n) as [x|] eqn:E.
    + rewrite bool_decide_true; eauto.
    + rewrite bool_decide_false; [done|]. by intros [? ?].
  - destruct Hwf as [Hn Hv]. rewrite keyValueOf_equals by done. 
    cbn [lookup list_lookup mbind option_bind length].
    rewrite env_key_not_os, env_key_prefix, env_key_trim. cbn [Nat.eqb].
    unfold LookupEnv. destruct (environ h !! n) as [x|] eqn:E.
    + destruct (String.eqb v x) eqn:Evx; cbn.
      * apply String.eqb_eq in Evx as ->. by rewrite bool_decide_true.
      * apply String.eqb_neq in Evx. rewrite bool_decide_false; [done|congruence].
    + by rewrite bool_decide_false.
Qed.

Lemma skipStep_loop_conjunction h cs :
  Forall clause_wf cs →
  skipStep_loop h false (render <$> cs) = Some (negb (forallb (clause_passes h) cs)).
Proof.
  induction 1 as [|c cs Hc _ IH]; [done|].
  cbn [fmap list_fmap skipStep_loop forallb]. rewrite skipStep_body_clause by done.
  cbn. destruct (clause_passes h c); cbn; [exact IH | done].
Qed.

Lemma render_nonempty c : render c ≠ "".
Proof. by destruct c. Qed.

Lemma Split_nonempty_input s sep l c : strings.Split s sep = c :: l → c ≠ "" → s ≠ "".
Proof. intros HS Hc ->. destruct sep; cbn in HS; congruence. Qed.

Lemma skipStep_conjunction h step cs :
  Forall clause_wf cs →
  strings.Split (step_If step) " && " = render <$> cs →
  skipStep h step = Some (negb (forallb (clause_passes h) cs)).
Proof.
  intros Hwf HS. unfold skipStep.
  destruct (String.eqb (step_If step) "") eqn:E.
  - apply String.eqb_eq in E. rewrite E in HS.
    change (strings.Split "" " && ") with [""] in HS.
    destruct cs as [|c cs]; [discriminate HS|].
    injection HS as Hc _. by destruct c.
  - rewrite HS. by apply skipStep_loop_conjunction.
Qed.

(** ** C3: [skipStep] evaluates the [If] field as a conjunction *)

(** An [env:] clause that names an unset variable makes the loop return
    [true] or panic in an earlier clause; it never lets the step run. *)
Lemma skipStep_loop_unset h sk conditions condition n :
  condition ∈ conditions →
  keyValueOf condition !! 0%nat = Some ("env:" +:+ n) →
  LookupEnv h n = None →
  skipStep_loop h sk conditions ≠ Some false.
Proof.
  intros Hin Hk Hn. revert sk.
  induction conditions as [|c rest IH]; intros sk; [by apply elem_of_nil in Hin|].
  cbn [skipStep_loop].
  apply elem_of_cons in Hin as [<-|Hin].
  - unfold skipStep_body. rewrite Hk. cbn [mbind option_bind].
    rewrite env_key_not_os, env_key_prefix, env_key_trim, Hn. by cbn.
  - destruct (skipStep_body h sk c) as [[b|sk']|] eqn:E; cbn; [|by apply IH|done].
    intros [= ->]. revert E. unfold skipStep_body.
    destruct (keyValueOf c !! 0%nat) as [k0|]; [|done]. cbn [mbind option_bind].
    destruct (if String.eqb k0 "os" then _ else _) as [s1|]; [|done]. cbn [mbind option_bind].
    destruct (strings.HasPrefix k0 "env:").
    + destruct (LookupEnv h (strings.TrimPrefix k0 "env:")); [|done].
      destruct (Nat.eqb _ 1); [done|].
      destruct (keyValueOf c !! 1%nat) as [v|]; [|done]. cbn [mbind option_bind].
      by destruct (negb _).
    + by destruct s1.
Qed.

(** C3.  [skipStep] splits [If] on [" && "] and lets the step run exactly
    when every clause passes: (1) on clauses of the three documented forms
    it returns the negated conjunction of their meanings; (2) the step
    ["os=linux && env:FOO=bar"] runs exactly when the OS is linux and FOO
    equals bar; (3) ["env:FOO"] alone lets the step run whenever FOO is
    set, whatever its value, and (4) in any position such a clause leaves
    the loop going without a skip; (5) an [env:] clause naming an unset
    variable never lets the step run, and (6) among well-formed clauses it
    makes [skipStep] return [true]. *)
Theorem skipStep_conjunction_semantics :
  (∀ h step cs,
      Forall clause_wf cs →
      strings.Split (step_If step) " && " = render <$> cs →
      skipStep h step = Some (negb (forallb (clause_passes h) cs)))
  ∧ (∀ h step,
      step_If step = "os=linux && env:FOO=bar" →
      skipStep h step
      = Some (negb (bool_decide (GOOS h = "linux" ∧ LookupEnv h "FOO" = Some "bar"))))
  ∧ (∀ h step value,
      step_If step = "env:FOO" →
      LookupEnv h "FOO" = Some value →
      skipStep h step = Some false)
  ∧ (∀ h sk n value,
      plain n →
      LookupEnv h n = Some value →
      skipStep_body h sk ("env:" +:+ n) = Some (IterNext sk))
  ∧ (∀ h step condition n,
      condition ∈ strings.Split (step_If step) " && " →
      keyValueOf condition !! 0%nat = Some ("env:" +:+ n) →
      LookupEnv h n = None →
      skipStep h step ≠ Some false)
  ∧ (∀ h step cs c n,
      Forall clause_wf cs →
      strings.Split (step_If step) " && " = render <$> cs →
      c ∈ cs → clause_names c n →
      LookupEnv h n = None →
      skipStep h step = Some true).
Proof.
  split_and!.
  - intros h step cs. apply skipStep_conjunction.
  - intros h step HIf.
    rewrite (skipStep_conjunction h step [OSEquals "linux"; EnvEquals "FOO" "bar"]).
    + f_equal. f_equal. cbn [forallb clause_passes].
      destruct (String.eqb "linux" (GOOS h)) eqn:E.
      * apply String.eqb_eq in E. rewrite andb_true_r. cbn [andb].
        apply bool_decide_ext. naive_solver.
      * apply String.eqb_neq in E. cbn [andb]. symmetry.
        apply bool_decide_eq_false. naive_solver.
    + repeat constructor.
    + by rewrite HIf.
  - intros h step value HIf Hv.
    rewrite (skipStep_conjunction h step [EnvPresent "FOO"]).
    + cbn [forallb clause_passes]. rewrite bool_decide_true; eauto.
    + repeat constructor.
    + by rewrite HIf.
  - intros h sk n value Hn Hv. unfold skipStep_body.
    pose proof (keyValueOf_present n Hn) as Hk. cbn [render] in Hk. rewrite Hk.
    cbn [lookup list_lookup mbind option_bind length].
    rewrite env_key_not_os. cbn [mbind option_bind].
    by rewrite env_key_prefix, env_key_trim, Hv.
  - intros h step condition n Hin Hk Hn. unfold skipStep.
    destruct (String.eqb (step_If step) "") eqn:E.
    + apply String.eqb_eq in E. rewrite E in Hin.
      change (strings.Split "" " && ") with [""] in Hin.
      apply list_elem_of_singleton in Hin as ->. discriminate Hk.
    + by eapply skipStep_loop_unset.
  - intros h step cs c n Hwf HS Hin Hname Hn.
    rewrite (skipStep_conjunction h step cs) by done.
    f_equal. apply negb_true_iff, not_true_is_false. intros Hall.
    rewrite forallb_forall in Hall.
    apply list_elem_of_In, Hall in Hin.
    destruct c as [v|m|m v]; cbn in Hname, Hin; [done| |]; subst m.
    + apply bool_decide_eq_true in Hin as [? Hin]. congruence.
    + apply bool_decide_eq_true in Hin. congruence.
Qed.

(** ** Reasoning about computations in [M] *)

Section Frames.
Context {P : Platform}.

Lemma bind_unfold {A B} (m : M A) (f : A → M B) w :
  (m ≫= f) w = match m w with
               | (Done a, w') => f a w'
               | (Panic r, w') => (Panic r, w')
               end.
Proof. reflexivity. Qed.

Lemma bind_Done {A B} (m : M A) (f : A → M B) w a w1 :
  m w = (Done a, w1) → (m ≫= f) w = f a w1.
Proof. intros H. by rewrite bind_unfold, H. Qed.

Lemma bind_Panic {A B} (m : M A) (f : A → M B) w r w1 :
  m w = (Panic r, w1) → (m ≫= f) w = (Panic r, w1).
Proof. intros H. by rewrite bind_unfold, H. Qed.

Lemma bind_Done_inv {A B} (m : M A) (f : A → M B) w b w' :
  (m ≫= f) w = (Done b, w') →
  ∃ a w1, m w = (Done a, w1) ∧ f a w1 = (Done b, w').
Proof.
  rewrite bind_unfold. destruct (m w) as [[a|r] w1]; [eauto | discriminate].
Qed.

Section Preorder.
Variable R : World → World → Prop.
Hypothesis R_refl : ∀ w, R w w.
Hypothesis R_trans : ∀ w1 w2 w3, R w1 w2 → R w2 w3 → R w1 w3.

Lemma frame_ret {A} (a : A) : frame R (mret a).
Proof using R_refl. intros w r w' [= <- <-]. apply R_refl. Qed.

Lemma frame_panic {A} reason : frame R (@panic P A reason).
Proof using R_refl. intros w r w' [= <- <-]. apply R_refl. Qed.

Lemma frame_bind {A B} (m : M A) (f : A → M B) :
  frame R m → (∀ a, frame R (f a)) → frame R (m ≫= f).
Proof using R_trans.
  intros Hm Hf w r w'. rewrite bind_unfold.
  destruct (m w) as [[a|reason] w1] eqn:E.
  - intros Hfa. eapply R_trans; [by eapply Hm | by eapply Hf].
  - intros [= <- <-]. by eapply Hm.
Qed.

Lemma frame_defer {A} (d : M unit) (body : M A) :
  frame R d → frame R body → frame R (defer d body).
Proof using R_trans.
  intros Hd Hb w r w'. unfold defer.
  destruct (body w) as [rb w1] eqn:Eb.
  destruct (d w1) as [[[]|reason] w2] eqn:Ed; intros [= <- <-];
    (eapply R_trans; [by eapply Hb | by eapply Hd]).
Qed.

Lemma frame_read {A} (f : Sys → A) : frame R (read f).
Proof using R_refl. intros w r w' [= <- <-]. apply R_refl. Qed.

Lemma frame_get_opts : frame R get_opts.
Proof using R_refl. intros w r w' [= <- <-]. apply R_refl. Qed.

Lemma frame_get_results : frame R get_results.
Proof using R_refl. intros w r w' [= <- <-]. apply R_refl. Qed.
End Preorder.

Lemma emits_same_trace Q w w' : trace w' = trace w → emits Q w w'.
Proof. intros H. exists []. by rewrite app_nil_r. Qed.

Lemma emits_refl Q w : emits Q w w.
Proof. by apply emits_same_trace. Qed.

Lemma emits_trans Q w1 w2 w3 : emits Q w1 w2 → emits Q w2 w3 → emits Q w1 w3.
Proof.
  intros (e1 & H1 & F1) (e2 & H2 & F2). exists (e1 ++ e2).
  split; [by rewrite H2, H1, app_assoc | by apply Forall_app].
Qed.

Lemma emits_call {A} Q ev (f : Sys → A * Sys) : Q ev → frame (emits Q) (call ev f).
Proof.
  intros HQ w r w'. unfold call. destruct (f (sys w)) as [a s].
  intros [= <- <-]. exists [ev]. split; [done | by constructor].
Qed.

Lemma emits_call_ Q ev (f : Sys → Sys) : Q ev → frame (emits Q) (call_ ev f).
Proof. intros HQ w r w' [= <- <-]. exists [ev]. split; [done | by constructor]. Qed.

Lemma emits_effect {A} Q (f : Sys → A * Sys) : frame (emits Q) (effect f).
Proof.
  intros w r w'. unfold effect. destruct (f (sys w)) as [a s].
  intros [= <- <-]. by apply emits_same_trace.
Qed.

Lemma emits_Print Q text : frame (emits Q) (Print text).
Proof. intros w r w' [= <- <-]. by apply emits_same_trace. Qed.

Lemma emits_Eprint Q text : frame (emits Q) (Eprint text).
Proof. intros w r w' [= <- <-]. by apply emits_same_trace. Qed.

Lemma emits_put_opts Q o : frame (emits Q) (put_opts o).
Proof. intros w r w' [= <- <-]. by apply emits_same_trace. Qed.

Lemma emits_append_suite Q suite : frame (emits Q) (append_suite suite).
Proof. intros w r w' [= <- <-]. by apply emits_same_trace. Qed.

Lemma emits_weaken {A} (Q Q' : Event → Prop) (m : M A) :
  (∀ ev, Q ev → Q' ev) → frame (emits Q) m → frame (emits Q') m.
Proof.
  intros HQ Hm w r w' Hrun. destruct (Hm _ _ _ Hrun) as (evs & ? & HF).
  exists evs. split; [done|]. eapply Forall_impl; eauto.
Qed.

End Frames.

(** ** [setupEnvSettings]: the shape of [Spec.Env] *)

Lemma if_snoc {A} (c : bool) (env l : list A) :
  (if c then env ++ l else env) = env ++ (if c then l else []).
Proof. destruct c; [done | by rewrite app_nil_r]. Qed.

Lemma option_snoc {A B} (o : option B) (env : list A) (f : B → list A) (d : list A) :
  match o with Some x => env ++ f x | None => env ++ d end
  = env ++ match o with Some x => f x | None => d end.
Proof. by destruct o. Qed.

Lemma nonempty_cons {A} (x : A) l : nonempty (x :: l) = true.
Proof. reflexivity. Qed.

Ltac env_normalise :=
  repeat match goal with
  | |- context [if ?c then ?env ++ ?l else if ?c' then ?env ++ ?l' else ?env] =>
      replace (if c then env ++ l else if c' then env ++ l' else env)
        with (env ++ (if c then l else if c' then l' else []))
        by (destruct c, c'; by rewrite ?app_nil_r)
  | |- context [if ?c then ?env ++ ?l else ?env] => rewrite (if_snoc c env l)
  | |- context [match ?o with Some x => ?env ++ @?f x | None => ?env ++ ?d end] =>
      rewrite (option_snoc o env f d)
  | |- context [match ?o with Some x => ?env ++ @?f x | None => ?env end] =>
      replace (match o with Some x => env ++ f x | None => env end)
        with (env ++ match o with Some x => f x | None => [] end)
        by (destruct o; by rewrite ?app_nil_r)
  end.

Lemma setupEnvSettings_env o test runConfig :
  ∃ pre,
    Env (Spec (fst (setupEnvSettings o test runConfig))) = pre ++ cli_env o
    ∧ head pre = Some (NamespaceEnv +:+ "=" +:+ Namespace_Name runConfig)
    ∧ ∀ e, e ∈ config_env_entries o runConfig → e ∈ pre.
Proof.
  unfold setupEnvSettings. cbv zeta.
  rewrite !app_nil_l. env_normalise.
  match goal with |- context [nonempty ?l] =>
    replace (nonempty l) with true by (by rewrite <- !app_assoc) end.
  cbn [fst with_Env with_Spec Spec Env].
  eexists. split; [reflexivity|]. split.
  - by rewrite <- !app_assoc.
  - intros e. unfold config_env_entries. rewrite !elem_of_app.
    intros [He|[He|[He|[He|He]]]].
    + set_solver.
    + destruct (Tags o); [by apply elem_of_nil in He | set_solver].
    + destruct (Glue o); [by apply elem_of_nil in He | set_solver].
    + destruct (negb (String.length (Options o) =? 0)%nat);
        [by apply elem_of_nil in He | set_solver].
    + set_solver.
Qed.

(** ** [buildTest] only reads *)

Section Build.
Context {P : Platform}.

Lemma reads_ret {A} (a : A) : reads (mret a).
Proof. intros w. by exists a. Qed.

Lemma reads_read {A} (f : Sys → A) : reads (read f).
Proof. intros w. by eexists. Qed.

Lemma reads_get_opts : reads get_opts.
Proof. intros w. by eexists. Qed.

Lemma reads_bind {A B} (m : M A) (f : A → M B) :
  reads m → (∀ a, reads (f a)) → reads (m ≫= f).
Proof.
  intros Hm Hf w. destruct (Hm w) as [a Ha]. destruct (Hf a w) as [b Hb].
  exists b. by rewrite (bind_Done _ _ _ _ _ Ha).
Qed.

Lemma reads_or_fail {A B} (m : M (A * option error)) (k : A → M (error + B)) :
  reads m → (∀ a, reads (k a)) → reads (or_fail m k).
Proof.
  intros Hm Hk. apply reads_bind; [done|]. intros [a [err|]]; [apply reads_ret | apply Hk].
Qed.

Lemma reads_appendResources runConfig resources test :
  reads (appendResources runConfig resources test).
Proof.
  revert test. induction resources as [|resource rest IH]; intros test; [apply reads_ret|].
  cbn [appendResources]. apply reads_bind; [apply reads_read|].
  intros [data [err|]]; [apply reads_ret | apply IH].
Qed.

Lemma reads_newSettings o runConfig : reads (newSettings o runConfig).
Proof.
  unfold newSettings. destruct (negb _).
  - apply reads_bind; [apply reads_read|]. intros [data [err|]]; apply reads_ret.
  - destruct (_ || _); [|apply reads_ret].
    destruct (yaml_Marshal _) as [data [err|]]; apply reads_ret.
Qed.

Lemma reads_buildTest rawName runConfig : reads (buildTest rawName runConfig).
Proof.
  unfold buildTest. apply reads_bind; [apply reads_get_opts|]. intros o.
  destruct (String.eqb _ ""); [apply reads_ret|].
  apply reads_or_fail; [apply reads_read|]. intros data.
  apply reads_or_fail; [apply reads_appendResources|]. intros t1.
  apply reads_or_fail; [apply reads_appendResources|]. intros t2.
  apply reads_or_fail; [apply reads_appendResources|]. intros t3.
  apply reads_or_fail; [apply reads_newSettings|]. intros settings.
  apply reads_or_fail; [apply reads_ret|]. intros t4.
  apply reads_ret.
Qed.

Lemma mret_inv {A} (a b : A) (w w' : World) :
  (mret a : M A) w = (Done b, w') → a = b ∧ w' = w.
Proof. by intros [= -> ->]. Qed.

Lemma or_fail_inr {A B} (m : M (A * option error)) (k : A → M (error + B)) w b w' :
  reads m →
  or_fail m k w = (Done (inr b), w') →
  ∃ a, m w = (Done (a, None), w) ∧ k a w = (Done (inr b), w').
Proof.
  intros Hm. unfold or_fail. destruct (Hm w) as [[a err] Ha].
  rewrite (bind_Done _ _ _ _ _ Ha). destruct err; [discriminate|]. eauto.
Qed.

Lemma buildTest_inr rawName runConfig w test w' :
  buildTest rawName runConfig w = (Done (inr test), w') →
  w' = w ∧ SanitizeName rawName ≠ "" ∧
  ∃ t0, Env (Spec test) = Env (Spec (fst (setupEnvSettings (opts w) t0 runConfig))).
Proof.
  intros Hrun. split.
  { destruct (reads_buildTest rawName runConfig w) as [a Ha]. congruence. }
  revert Hrun. unfold buildTest.
  rewrite (bind_Done get_opts _ w (opts w) w eq_refl).
  destruct (String.eqb _ "") eqn:Ename; [discriminate|].
  apply String.eqb_neq in Ename. split; [done|]. revert Hrun.
  intros (data & _ & Hrun)%or_fail_inr; [|apply reads_read].
  apply or_fail_inr in Hrun as (t1 & _ & Hrun); [|apply reads_appendResources].
  apply or_fail_inr in Hrun as (t2 & _ & Hrun); [|apply reads_appendResources].
  apply or_fail_inr in Hrun as (t3 & _ & Hrun); [|apply reads_appendResources].
  apply or_fail_inr in Hrun as (settings & _ & Hrun); [|apply reads_newSettings].
  apply or_fail_inr in Hrun as (t4 & Ht4 & Hrun); [|apply reads_ret].
  apply mret_inv in Ht4 as [Hs _]. apply mret_inv in Hrun as [Ht _].
  match type of Hs with setupEnvSettings ?o ?t ?c = _ => exists t end.
  rewrite Hs. cbn [fst]. injection Ht as <-.
  by repeat match goal with |- context [if ?c then _ else _] => destruct c end.
Qed.

End Build.

(** ** C10: an empty test name *)

(** C10.  When [kubernetes.SanitizeName] turns the raw source path into the
    empty name, [createAndRunTest] returns the error "unable to determine
    test name" with no test, and the world it leaves is the world it found:
    no cluster call, nothing printed, no state changed. *)
Theorem createAndRunTest_empty_name {P : Platform} rawName runConfig (w : World) :
  SanitizeName rawName = "" →
  createAndRunTest rawName runConfig w
  = (Done (None, Some (errors_New "unable to determine test name")), w).
Proof.
  intros Hname. unfold createAndRunTest.
  rewrite (bind_Done get_opts _ w (opts w) w eq_refl).
  assert (Hb : buildTest rawName runConfig w
               = (Done (inl (errors_New "unable to determine test name")), w)).
  { unfold buildTest. rewrite (bind_Done get_opts _ w (opts w) w eq_refl).
    by rewrite Hname. }
  by rewrite (bind_Done _ _ _ _ _ Hb).
Qed.

Lemma createAndRunTest_empty_name_witness :
  createAndRunTest "tests/..." Sim.defaults world0
  = (Done (None, Some (errors_New "unable to determine test name")), world0).
Proof. apply (createAndRunTest_empty_name (P := sim)). reflexivity. Defined.

(** ** C4: the dump short-circuit *)


Lemma dump_short_circuit {P : Platform} rawName runConfig (w : World) :
  DumpFormat (opts w) ≠ "" →
  ∃ built,
    buildTest rawName runConfig w = (Done built, w)
    ∧ createAndRunTest rawName runConfig w
      = match built with
        | inl err => (Done (None, Some err), w)
        | inr test => dump_outcome (DumpFormat (opts w)) test w
        end.
Proof.
  intros Hdump. destruct (reads_buildTest rawName runConfig w) as [built Hb].
  exists built. split; [done|]. unfold createAndRunTest.
  rewrite (bind_Done get_opts _ w (opts w) w eq_refl).
  rewrite (bind_Done _ _ _ _ _ Hb).
  destruct built as [err|test]; [done|].
  apply String.eqb_neq in Hdump. rewrite Hdump. unfold dump_outcome.
  destruct (String.eqb (DumpFormat (opts w)) "yaml").
  { by destruct (ToYAML test) as [data [err|]]. }
  destruct (String.eqb (DumpFormat (opts w)) "json"); [|done].
  by destruct (ToJSON test) as [data [err|]].
Qed.

(** C4.  Under a dump format that is not empty [createAndRunTest] builds
    the Test and then: for [yaml] and [json] it serialises it, prints the
    text to standard output and returns no test and no error (or returns
    the serialisation error); for any other value it returns the error
    "invalid dump output format option".  In every case the trace of calls
    and the state outside the process are left as they were: no create,
    update or get reaches the cluster. *)
Theorem createAndRunTest_dump {P : Platform} rawName runConfig (w : World) :
  DumpFormat (opts w) ≠ "" →
  (∃ built,
      buildTest rawName runConfig w = (Done built, w)
      ∧ createAndRunTest rawName runConfig w
        = match built with
          | inl err => (Done (None, Some err), w)
          | inr test => dump_outcome (DumpFormat (opts w)) test w
          end)
  ∧ (∀ r w', createAndRunTest rawName runConfig w = (r, w') →
       trace w' = trace w ∧ sys w' = sys w ∧ results w' = results w
       ∧ ∃ err, r = Done (None, err))
  ∧ (DumpFormat (opts w) ≠ "yaml" → DumpFormat (opts w) ≠ "json" →
     ∃ err, createAndRunTest rawName runConfig w = (Done (None, Some err), w)).
Proof.
  intros Hdump.
  destruct (dump_short_circuit rawName runConfig w Hdump) as (built & Hb & Hrun).
  split_and!.
  - eauto.
  - intros r w'. rewrite Hrun. destruct built as [err|test]; [intros [= <- <-]; eauto 10|].
    unfold dump_outcome.
    repeat match goal with
           | |- context [if ?c then _ else _] => destruct c
           | |- context [match ?x with _ => _ end] => destruct x
           end; intros [= <- <-]; eauto 10.
  - intros Hy Hj. rewrite Hrun. destruct built as [err|test]; [eauto|].
    unfold dump_outcome. apply String.eqb_neq in Hy, Hj. rewrite Hy, Hj. eauto.
Qed.

Lemma createAndRunTest_dump_witness :
  DumpFormat (opts (world_of state0 (with_DumpFormat options0 "yaml"))) ≠ ""
  ∧ ∃ built,
      buildTest "tests/a.feature" (with_Namespace_Name Sim.defaults "default")
        (world_of state0 (with_DumpFormat options0 "yaml"))
      = (Done built, world_of state0 (with_DumpFormat options0 "yaml"))
      ∧ createAndRunTest "tests/a.feature" (with_Namespace_Name Sim.defaults "default")
          (world_of state0 (with_DumpFormat options0 "yaml"))
        = match built with
          | inl err => (Done (None, Some err), world_of state0 (with_DumpFormat options0 "yaml"))
          | inr test => dump_outcome "yaml" test (world_of state0 (with_DumpFormat options0 "yaml"))
          end.
Proof.
  split; [discriminate|].
  refine (proj1 (createAndRunTest_dump (P := sim) "tests/a.feature"
                   (with_Namespace_Name Sim.defaults "default")
                   (world_of state0 (with_DumpFormat options0 "yaml")) _)).
  discriminate.
Defined.

Example dump_yaml_prints :
  let run := createAndRunTest "tests/a.feature" (with_Namespace_Name Sim.defaults "default")
               (world_of state0 (with_DumpFormat options0 "yaml")) in
  run.1 = Done (None, None)
  ∧ stdout run.2 = ["kind: Test" +:+ nl +:+ "namespace: default" +:+ nl +:+ "name: afeature"
                    +:+ nl +:+ "env: YAKS_NAMESPACE=default" +:+ nl]
  ∧ trace run.2 = [].
Proof. vm_compute. done. Qed.

Example dump_xml_rejected :
  (createAndRunTest "tests/a.feature" (with_Namespace_Name Sim.defaults "default")
     (world_of state0 (with_DumpFormat options0 "xml"))).1
  = Done (None, Some (errors_New
      "invalid dump output format option 'xml', should be one of: yaml|json")).
Proof. vm_compute. done. Qed.

Lemma skipStep_conjunction_semantics_witness :
  skipStep linux (mkStep "os=linux && env:FOO=bar") = Some false
  ∧ skipStep linux (mkStep "env:FOO") = Some false
  ∧ skipStep linux (mkStep "os=linux && env:BAZ") = Some true.
Proof.
  destruct skipStep_conjunction_semantics as (Hall & Hexample & Hset & _ & _ & Hunset).
  split_and!.
  - rewrite (Hexample linux (mkStep "os=linux && env:FOO=bar") eq_refl).
    by rewrite bool_decide_true.
  - by apply (Hset linux (mkStep "env:FOO") "bar").
  - apply (Hunset linux (mkStep "os=linux && env:BAZ")
             [OSEquals "linux"; EnvPresent "BAZ"] (EnvPresent "BAZ") "BAZ").
    + by repeat constructor.
    + reflexivity.
    + apply elem_of_cons. right. apply elem_of_cons. by left.
    + reflexivity.
    + reflexivity.
Defined.

Section FrameFacts.
Context {P : Platform}.

Lemma same_results_refl (w : World) : same_results w w.
Proof. reflexivity. Qed.

Lemma same_results_trans (w1 w2 w3 : World) :
  same_results w1 w2 → same_results w2 w3 → same_results w1 w3.
Proof. unfold same_results. congruence. Qed.

Lemma same_results_call {A} ev (f : Sys → A * Sys) : frame same_results (call ev f).
Proof. intros w r w'. unfold call. destruct (f (sys w)). by intros [= <- <-]. Qed.

Lemma same_results_call_ ev (f : Sys → Sys) : frame same_results (call_ ev f).
Proof. by intros w r w' [= <- <-]. Qed.

Lemma same_results_effect {A} (f : Sys → A * Sys) : frame same_results (effect f).
Proof. intros w r w'. unfold effect. destruct (f (sys w)). by intros [= <- <-]. Qed.

Lemma same_results_Print text : frame same_results (Print text).
Proof. by intros w r w' [= <- <-]. Qed.

Lemma same_results_Println text : frame same_results (Println text).
Proof. apply same_results_Print. Qed.

Lemma same_results_Eprint text : frame same_results (Eprint text).
Proof. by intros w r w' [= <- <-]. Qed.

Lemma same_results_put_opts o : frame same_results (put_opts o).
Proof. by intros w r w' [= <- <-]. Qed.

Lemma emits_Println Q text : frame (emits Q) (Println text).
Proof. apply emits_Print. Qed.

Lemma of_class_weaken cs cs' ev : cs ⊆ cs' → of_class cs ev → of_class cs' ev.
Proof.
  unfold of_class. intros Hsub H%bool_decide_eq_true. apply bool_decide_eq_true. auto.
Qed.

Lemma emits_classes {A} cs cs' (m : M A) :
  cs ⊆ cs' → frame (emits (of_class cs)) m → frame (emits (of_class cs')) m.
Proof. intros Hsub. apply emits_weaken. intros ev. by apply of_class_weaken. Qed.

End FrameFacts.

Create HintDb frame discriminated.

#[global] Hint Resolve same_results_refl same_results_trans emits_refl emits_trans : frame.
#[global] Hint Resolve same_results_call same_results_call_ same_results_effect
  same_results_Print same_results_Println same_results_Eprint same_results_put_opts : frame.
#[global] Hint Resolve emits_effect emits_Print emits_Println emits_Eprint emits_put_opts
  emits_append_suite : frame.
#[global] Hint Extern 1 (frame _ (mret _)) => apply frame_ret : frame.
#[global] Hint Extern 1 (frame _ (panic _)) => apply frame_panic : frame.
#[global] Hint Extern 1 (frame _ (read _)) => apply frame_read : frame.
#[global] Hint Extern 1 (frame _ get_opts) => apply frame_get_opts : frame.
#[global] Hint Extern 1 (frame _ get_results) => apply frame_get_results : frame.
#[global] Hint Extern 1 (frame (emits _) (call _ _)) => apply emits_call; reflexivity : frame.
#[global] Hint Extern 1 (frame (emits _) (call_ _ _)) => apply emits_call_; reflexivity : frame.

(** One step through the structure of a computation. *)
Ltac frame_step :=
  lazymatch goal with
  | |- frame _ (_ ≫= _) => apply frame_bind; [solve [eauto with frame] | | intros ]
  | |- frame _ (defer _ _) => apply frame_defer; [solve [eauto with frame] | | ]
  | |- frame _ (match ?x with _ => _ end) => destruct x
  | |- frame _ (if ?c then _ else _) => destruct c
  | |- frame _ _ => solve [eauto with frame]
  end.

Ltac frame_auto := repeat frame_step.

Section FunctionFrames.
Context {P : Platform}.

Lemma emits_runScript scriptFile desc namespace baseDir timeout :
  frame (emits (of_class [ClHook])) (runScript scriptFile desc namespace baseDir timeout).
Proof. unfold runScript. frame_auto. Qed.

Lemma same_results_runScript scriptFile desc namespace baseDir timeout :
  frame same_results (runScript scriptFile desc namespace baseDir timeout).
Proof. unfold runScript. frame_auto. Qed.

Lemma emits_runSteps_from idx steps namespace baseDir :
  frame (emits (of_class [ClHook])) (runSteps_from idx steps namespace baseDir).
Proof.
  revert idx. induction steps as [|step rest IH]; intros idx; cbn [runSteps_from].
  - frame_auto.
  - pose proof emits_runScript. unfold runSteps_script, runSteps_run, or_return.
    frame_auto.
Qed.

Lemma same_results_runSteps_from idx steps namespace baseDir :
  frame same_results (runSteps_from idx steps namespace baseDir).
Proof.
  revert idx. induction steps as [|step rest IH]; intros idx; cbn [runSteps_from].
  - frame_auto.
  - pose proof same_results_runScript. unfold runSteps_script, runSteps_run, or_return.
    frame_auto.
Qed.

Lemma emits_runSteps steps namespace baseDir :
  frame (emits (of_class [ClHook])) (runSteps steps namespace baseDir).
Proof. apply emits_runSteps_from. Qed.

Lemma same_results_runSteps steps namespace baseDir :
  frame same_results (runSteps steps namespace baseDir).
Proof. apply same_results_runSteps_from. Qed.

Lemma emits_handleTestResult test suite :
  frame (emits (of_class [ClReport])) (handleTestResult test suite).
Proof. unfold handleTestResult. frame_auto. Qed.

Lemma emits_handleTestError namespace source err :
  frame (emits (of_class [ClReport])) (handleTestError namespace source err).
Proof. pose proof emits_handleTestResult. unfold handleTestError. frame_auto. Qed.

Lemma emits_recordOutcome namespace name test err :
  frame (emits (of_class [ClReport])) (recordOutcome namespace name test err).
Proof.
  pose proof emits_handleTestResult. pose proof emits_handleTestError.
  unfold recordOutcome. frame_auto.
Qed.

Lemma emits_appendResources Q runConfig resources test :
  frame (emits Q) (appendResources runConfig resources test).
Proof.
  revert test. induction resources as [|resource rest IH]; intros test;
    cbn [appendResources]; frame_auto.
Qed.

Lemma emits_buildTest Q rawName runConfig : frame (emits Q) (buildTest rawName runConfig).
Proof.
  pose proof (emits_appendResources Q).
  unfold buildTest, newSettings, or_fail. frame_auto.
Qed.

Lemma emits_submitTest test : frame (emits (of_class [ClTest])) (submitTest test).
Proof. unfold submitTest, or_fail. frame_auto. Qed.

Lemma emits_watchPhase runConfig test status :
  frame (emits (of_class [ClWatch])) (watchPhase runConfig test status).
Proof. unfold watchPhase. frame_auto. Qed.

Lemma emits_awaitTest test name namespace runConfig :
  frame (emits (of_class [ClWatch])) (awaitTest test name namespace runConfig).
Proof. pose proof emits_watchPhase. unfold awaitTest, watchRoute. frame_auto. Qed.

Lemma emits_createAndRunTest rawName runConfig :
  frame (emits (of_class [ClTest; ClWatch])) (createAndRunTest rawName runConfig).
Proof.
  pose proof (emits_buildTest (of_class [ClTest; ClWatch])).
  assert (∀ t, frame (emits (of_class [ClTest; ClWatch])) (submitTest t)).
  { intros t. eapply emits_classes; [|apply emits_submitTest]. set_solver. }
  assert (∀ t n ns c, frame (emits (of_class [ClTest; ClWatch])) (awaitTest t n ns c)).
  { intros. eapply emits_classes; [|apply emits_awaitTest]. set_solver. }
  unfold createAndRunTest. frame_auto.
Qed.

End FunctionFrames.

(** ** C1: create, or update in place *)

Section Submit.
Context {P : Platform}.

Lemma call_run {A} ev (f : Sys → A * Sys) (w : World) a s :
  f (sys w) = (a, s) → call ev f w = (Done a, after_calls w s [ev]).
Proof. intros H. unfold call. by rewrite H. Qed.

Lemma after_calls_after_calls (w : World) s1 evs1 s2 evs2 :
  after_calls (after_calls w s1 evs1) s2 evs2 = after_calls w s2 (evs1 ++ evs2).
Proof. unfold after_calls. cbn. by rewrite app_assoc. Qed.

Lemma submitTest_created test (w : World) t1 s1 :
  client_Create test (sys w) = ((t1, None), s1) →
  submitTest test w = (Done (inr (t1, false)), after_calls w s1 [EvCreate test]).
Proof.
  intros Hc. unfold submitTest. by rewrite (bind_Done _ _ _ _ _ (call_run _ _ _ _ _ Hc)).
Qed.

Lemma submitTest_create_failed test (w : World) t1 err s1 :
  client_Create test (sys w) = ((t1, Some err), s1) →
  IsAlreadyExists err = false →
  submitTest test w = (Done (inl err), after_calls w s1 [EvCreate test]).
Proof.
  intros Hc Hx. unfold submitTest.
  rewrite (bind_Done _ _ _ _ _ (call_run _ _ _ _ _ Hc)). by rewrite Hx.
Qed.

Lemma or_fail_call {A B} ev (f : Sys → (A * option error) * Sys)
    (k : A → M (error + B)) (w : World) a s :
  f (sys w) = ((a, None), s) →
  or_fail (call ev f) k w = k a (after_calls w s [ev]).
Proof.
  intros H. unfold or_fail. by rewrite (bind_Done _ _ _ _ _ (call_run _ _ _ _ _ H)).
Qed.

Lemma submitTest_updated test (w : World) t1 err s1 clone1 s2 clone2 s3 t2 s4 t3 s5 :
  let key := ObjectKeyFromObject t1 in
  let held := with_Status clone1 (with_Phase (Status clone1) TestPhaseUpdating) in
  let versioned := with_ResourceVersion t1 (ResourceVersion clone2) in
  let reset := with_Status t2 TestStatus_zero in
  client_Create test (sys w) = ((t1, Some err), s1) →
  IsAlreadyExists err = true →
  client_Get key t1 s1 = ((clone1, None), s2) →
  client_Status_Update held s2 = ((clone2, None), s3) →
  client_Update versioned s3 = ((t2, None), s4) →
  client_Status_Update reset s4 = ((t3, None), s5) →
  submitTest test w
  = (Done (inr (t3, true)),
     after_calls w s5
       [EvCreate test; EvGet key; EvStatusUpdate held; EvUpdate versioned;
        EvStatusUpdate reset]).
Proof.
  intros key held versioned reset Hc Hx Hg Hs Hu Hr. unfold submitTest.
  rewrite (bind_Done _ _ _ _ _ (call_run _ _ _ _ _ Hc)). rewrite Hx.
  cbv beta iota zeta.
  rewrite (or_fail_call _ _ _ (after_calls w s1 _) clone1 s2 Hg).
  rewrite (or_fail_call _ _ _ (after_calls (after_calls w s1 _) s2 _) clone2 s3 Hs).
  rewrite (or_fail_call _ _ _ (after_calls (after_calls (after_calls w s1 _) s2 _) s3 _)
             t2 s4 Hu).
  rewrite (or_fail_call _ _ _
             (after_calls (after_calls (after_calls (after_calls w s1 _) s2 _) s3 _) s4 _)
             t3 s5 Hr).
  by rewrite !after_calls_after_calls.
Qed.

(** With an empty dump format [createAndRunTest] hands the Test it built to
    the create-or-update step. *)
Lemma createAndRunTest_submit rawName runConfig (w : World) test :
  DumpFormat (opts w) = "" →
  buildTest rawName runConfig w = (Done (inr test), w) →
  createAndRunTest rawName runConfig w
  = match submitTest test w with
    | (Done (inl err), w1) => (Done (None, Some err), w1)
    | (Done (inr (test, existed)), w1) =>
        awaitTest test (SanitizeName rawName) (Namespace_Name runConfig) runConfig
          (add_stdout w1
             (("Test '" +:+ SanitizeName rawName +:+
               (if existed then "' updated" else "' created")) +:+ nl))
    | (Panic reason, w1) => (Panic reason, w1)
    end.
Proof.
  intros Hd Hb. unfold createAndRunTest.
  rewrite (bind_Done get_opts _ w (opts w) w eq_refl).
  rewrite (bind_Done _ _ _ _ _ Hb). rewrite Hd. cbn [String.eqb].
  rewrite bind_unfold.
  destruct (submitTest test w) as [[[err|[t existed]]|reason] w1]; [done| |done].
  by destruct existed.
Qed.

End Submit.

(** *** On the reference cluster *)

Lemma sim_wf_insert (s : Sim.State) t :
  sim_wf s → sim_wf (Sim.set_store s (<[ObjectKeyFromObject t := t]> (Sim.store s))).
Proof.
  intros Hwf key t'. cbn. intros [[<- <-]|[_ H]]%lookup_insert_Some; [done | by apply Hwf].
Qed.

Lemma sim_resubmit (w : World (P := sim)) test cur :
  sim_wf (sys w) →
  Sim.store (sys w) !! ObjectKeyFromObject test = Some cur →
  ∃ t3 w',
    submitTest test w = (Done (inr (t3, true)), w')
    ∧ Sim.store (sys w') !! ObjectKeyFromObject test = Some t3
    ∧ Status t3 = TestStatus_zero
    ∧ Spec t3 = Spec test
    ∧ dom (Sim.store (sys w')) = dom (Sim.store (sys w)).
Proof.
  intros Hwf Hcur. pose proof (Hwf _ _ Hcur) as Hkey.
  set (key := ObjectKeyFromObject test) in *.
  set (s := sys w) in *.
  set (held := with_Status cur (with_Phase (Status cur) TestPhaseUpdating)).
  set (clone2 := with_ResourceVersion (with_Status cur (Status held)) (Sim.next_version s)).
  set (s3 := Sim.set_store s (<[key := clone2]> (Sim.store s))).
  set (versioned := with_ResourceVersion test (ResourceVersion clone2)).
  set (t2 := with_ResourceVersion (with_Status versioned (Status clone2)) (Sim.next_version s3)).
  set (s4 := Sim.set_store s3 (<[key := t2]> (Sim.store s3))).
  set (reset := with_Status t2 TestStatus_zero).
  set (t3 := with_ResourceVersion (with_Status t2 (Status reset)) (Sim.next_version s4)).
  set (s5 := Sim.set_store s4 (<[key := t3]> (Sim.store s4))).
  exists t3. eexists. split.
  - apply (submitTest_updated (P := sim) test w test
             (Sim.api_error "AlreadyExists" (Name test)) s cur s clone2 s3 t2 s4 t3 s5).
    + cbn. unfold Sim.create. fold key. fold s. by rewrite Hcur.
    + reflexivity.
    + cbn. unfold Sim.get. fold key. fold s. by rewrite Hcur.
    + cbn. unfold Sim.status_update.
      change (ObjectKeyFromObject (with_Status cur _)) with (ObjectKeyFromObject cur).
      rewrite Hkey, Hcur. cbn [ResourceVersion with_Status]. by rewrite String.eqb_refl.
    + cbn. unfold Sim.update.
      change (ObjectKeyFromObject (with_ResourceVersion test _)) with key.
      subst s3. cbn [Sim.store Sim.set_store]. rewrite lookup_insert_eq.
      cbn [ResourceVersion with_ResourceVersion]. by rewrite String.eqb_refl.
    + cbn. unfold Sim.status_update.
      change (ObjectKeyFromObject (with_Status t2 _)) with key.
      subst s4. cbn [Sim.store Sim.set_store]. rewrite lookup_insert_eq.
      cbn [ResourceVersion with_Status with_ResourceVersion]. by rewrite String.eqb_refl.
  - cbn [sys after_calls]. subst s5 s4 s3. cbn [Sim.store Sim.set_store].
    split_and!.
    + by rewrite lookup_insert_eq.
    + reflexivity.
    + reflexivity.
    + rewrite !dom_insert_L. apply elem_of_dom_2 in Hcur. set_solver.
Qed.

Section SameSys.
Context {P : Platform}.

Lemma same_sys_refl (w : World) : same_sys w w.
Proof. reflexivity. Qed.

Lemma same_sys_trans (w1 w2 w3 : World) : same_sys w1 w2 → same_sys w2 w3 → same_sys w1 w3.
Proof. unfold same_sys. congruence. Qed.

Lemma same_sys_call {A} ev (f : Sys → A * Sys) :
  (∀ s, (f s).2 = s) → frame same_sys (call ev f).
Proof.
  intros Hf w r w'. unfold call. specialize (Hf (sys w)). destruct (f (sys w)).
  intros [= <- <-]. exact Hf.
Qed.

Lemma same_sys_Print text : frame same_sys (Print text).
Proof. by intros w r w' [= <- <-]. Qed.

Lemma same_sys_Println text : frame same_sys (Println text).
Proof. apply same_sys_Print. Qed.

End SameSys.

#[global] Hint Resolve same_sys_refl same_sys_trans same_sys_Print same_sys_Println : frame.
#[global] Hint Extern 1 (frame same_sys (call _ _)) =>
  apply same_sys_call; intros; reflexivity : frame.

Lemma sim_awaitTest_sys test name namespace runConfig (w : World (P := sim)) r w' :
  awaitTest test name namespace runConfig w = (r, w') → sys w' = sys w.
Proof.
  revert w r w'. change (frame same_sys (awaitTest test name namespace runConfig)).
  unfold awaitTest, watchPhase, watchRoute. frame_auto.
Qed.

Lemma sim_wf_state1 : sim_wf state1.
Proof.
  intros key t. change (Sim.store state1) with ({[("default", "afeature") := stored_before]}
                                               : gmap ObjectKey Test).
  intros [<- <-]%lookup_singleton_Some. reflexivity.
Qed.

Lemma buildTest_a s :
  Sim.files s !! "tests/a.feature" = Some "Feature: a" →
  buildTest "tests/a.feature" config0 (world_of s options0)
  = (Done (inr test_a), world_of s options0).
Proof.
  intros Hf. unfold buildTest.
  rewrite (bind_Done get_opts _ (world_of s options0) options0 (world_of s options0) eq_refl).
  assert (Hload : read (loadData "tests/a.feature") (world_of s options0)
                  = (Done ("Feature: a", None), world_of s options0)).
  { unfold read. cbn [loadData sim sys world_of]. unfold Sim.load. by rewrite Hf. }
  replace (SanitizeName "tests/a.feature") with "afeature" by (vm_compute; reflexivity).
  cbn [String.eqb Ascii.eqb Bool.eqb]. unfold or_fail at 1.
  rewrite (bind_Done _ _ _ _ _ Hload). reflexivity.
Qed.

(** C1.  With an empty dump format [createAndRunTest] first calls
    [c.Create] on the Test it built.  If that succeeds, or fails with an
    error other than "already exists", no other call for the resource is
    made before the wait (the test is reported as created, or the error is
    returned).  If it fails with "already exists" and the following calls
    succeed, the calls are, in this order: get the current object, push its
    status with the phase set to Updating, update the object with the
    resource version of that clone copied onto the new Test, push the zero
    status; the test is reported as updated.  On the reference cluster a
    submission against a (namespace, name) that is already stored leaves
    exactly the resources that were stored, the one at that address with
    the new spec and the zero status. *)
Theorem createAndRunTest_create_or_update :
  (∀ (P : Platform) rawName runConfig (w : World) test,
      DumpFormat (opts w) = "" →
      buildTest rawName runConfig w = (Done (inr test), w) →
      let await t (existed : bool) w1 :=
        awaitTest t (SanitizeName rawName) (Namespace_Name runConfig) runConfig
          (add_stdout w1
             (("Test '" +:+ SanitizeName rawName +:+
               (if existed then "' updated" else "' created")) +:+ nl)) in
      (∀ t1 s1,
          client_Create test (sys w) = ((t1, None), s1) →
          createAndRunTest rawName runConfig w
          = await t1 false (after_calls w s1 [EvCreate test]))
      ∧ (∀ t1 err s1,
          client_Create test (sys w) = ((t1, Some err), s1) →
          IsAlreadyExists err = false →
          createAndRunTest rawName runConfig w
          = (Done (None, Some err), after_calls w s1 [EvCreate test]))
      ∧ (∀ t1 err s1 clone1 s2 clone2 s3 t2 s4 t3 s5,
          let key := ObjectKeyFromObject t1 in
          let held := with_Status clone1 (with_Phase (Status clone1) TestPhaseUpdating) in
          let versioned := with_ResourceVersion t1 (ResourceVersion clone2) in
          let reset := with_Status t2 TestStatus_zero in
          client_Create test (sys w) = ((t1, Some err), s1) →
          IsAlreadyExists err = true →
          client_Get key t1 s1 = ((clone1, None), s2) →
          client_Status_Update held s2 = ((clone2, None), s3) →
          client_Update versioned s3 = ((t2, None), s4) →
          client_Status_Update reset s4 = ((t3, None), s5) →
          createAndRunTest rawName runConfig w
          = await t3 true
              (after_calls w s5
                 [EvCreate test; EvGet key; EvStatusUpdate held; EvUpdate versioned;
                  EvStatusUpdate reset])))
  ∧ (∀ rawName runConfig (w : World (P := sim)) test cur r w',
      DumpFormat (opts w) = "" →
      buildTest rawName runConfig w = (Done (inr test), w) →
      sim_wf (sys w) →
      Sim.store (sys w) !! ObjectKeyFromObject test = Some cur →
      createAndRunTest rawName runConfig w = (r, w') →
      ∃ t,
        Sim.store (sys w') !! ObjectKeyFromObject test = Some t
        ∧ Status t = TestStatus_zero
        ∧ Spec t = Spec test
        ∧ dom (Sim.store (sys w')) = dom (Sim.store (sys w))).
Proof.
  split.
  - intros P rawName runConfig w test Hd Hb await. split_and!.
    + intros t1 s1 Hc. rewrite (createAndRunTest_submit _ _ _ _ Hd Hb).
      by rewrite (submitTest_created _ _ _ _ Hc).
    + intros t1 err s1 Hc Hx. rewrite (createAndRunTest_submit _ _ _ _ Hd Hb).
      by rewrite (submitTest_create_failed _ _ _ _ _ Hc Hx).
    + intros t1 err s1 clone1 s2 clone2 s3 t2 s4 t3 s5 key held versioned reset
        Hc Hx Hg Hs Hu Hr.
      rewrite (createAndRunTest_submit _ _ _ _ Hd Hb).
      by rewrite (submitTest_updated _ _ _ _ _ _ _ _ _ _ _ _ _ Hc Hx Hg Hs Hu Hr).
  - intros rawName runConfig w test cur r w' Hd Hb Hwf Hcur.
    rewrite (createAndRunTest_submit _ _ _ _ Hd Hb).
    destruct (sim_resubmit w test cur Hwf Hcur) as (t3 & w1 & -> & Hst & Hz & Hsp & Hdom).
    intros Hrun%sim_awaitTest_sys. cbn [sys add_stdout] in Hrun. rewrite Hrun. eauto.
Qed.

Lemma createAndRunTest_create_or_update_witness :
  ∃ t,
    Sim.store (sys (createAndRunTest "tests/a.feature" config0 (world_of state1 options0)).2)
      !! ("default", "afeature") = Some t
    ∧ Status t = TestStatus_zero
    ∧ Spec t = Spec test_a
    ∧ dom (Sim.store (sys (createAndRunTest "tests/a.feature" config0
                             (world_of state1 options0)).2))
      = dom (Sim.store state1).
Proof.
  destruct createAndRunTest_create_or_update as [_ Hsim].
  apply (Hsim "tests/a.feature" config0 (world_of state1 options0) test_a stored_before
           (createAndRunTest "tests/a.feature" config0 (world_of state1 options0)).1).
  - reflexivity.
  - by apply buildTest_a.
  - apply sim_wf_state1.
  - reflexivity.
  - by destruct (createAndRunTest _ _ _).
Defined.

(** ** C9: the environment of every Test that is built *)

Section Env.
Context {P : Platform}.

(** Whatever [submitTest] goes on to do, its first call is the creation of
    the Test it was handed. *)
Lemma submitTest_first_call test (w : World) r w' :
  submitTest test w = (r, w') → ∃ evs, trace w' = trace w ++ EvCreate test :: evs.
Proof.
  unfold submitTest. rewrite bind_unfold. unfold call at 1.
  destruct (client_Create test (sys w)) as [[t1 err] s1].
  match goal with |- ?k _ = _ → _ =>
    assert (Hk : frame (emits (of_class [ClTest])) k)
      by (unfold or_fail; frame_auto) end.
  intros (evs & Hevs & _)%Hk. exists evs. rewrite Hevs. cbn. by rewrite <- app_assoc.
Qed.

Lemma createAndRunTest_first_call rawName runConfig (w : World) test r w' :
  DumpFormat (opts w) = "" →
  buildTest rawName runConfig w = (Done (inr test), w) →
  createAndRunTest rawName runConfig w = (r, w') →
  ∃ evs, trace w' = trace w ++ EvCreate test :: evs.
Proof.
  intros Hd Hb. rewrite (createAndRunTest_submit _ _ _ _ Hd Hb).
  destruct (submitTest test w) as [[[err|[t existed]]|reason] w1] eqn:Hs;
    apply submitTest_first_call in Hs as [evs Hevs].
  - intros [= <- <-]. eauto.
  - intros (evs' & Hevs' & _)%emits_awaitTest. exists (evs ++ evs').
    rewrite Hevs'. cbn. rewrite Hevs. by rewrite <- app_assoc.
  - intros [= <- <-]. eauto.
Qed.

End Env.

(** C9.  Every Test that [createAndRunTest] builds has a non-empty
    [Spec.Env] whose first entry is [YAKS_NAMESPACE=<configured namespace
    name>] and which ends with the [-e] entries of the command line, every
    entry derived from the run configuration coming before them; with an
    empty dump format that Test is what the first cluster call,
    [c.Create], is handed. *)
Theorem createAndRunTest_env {P : Platform} rawName runConfig (w w1 : World) test :
  buildTest rawName runConfig w = (Done (inr test), w1) →
  Env (Spec test) ≠ []
  ∧ head (Env (Spec test)) = Some ("YAKS_NAMESPACE=" +:+ Namespace_Name runConfig)
  ∧ (∃ pre,
        Env (Spec test) = pre ++ cli_env (opts w)
        ∧ ∀ e, e ∈ config_env_entries (opts w) runConfig → e ∈ pre)
  ∧ (DumpFormat (opts w) = "" →
     ∀ r w', createAndRunTest rawName runConfig w = (r, w') →
             ∃ evs, trace w' = trace w ++ EvCreate test :: evs).
Proof.
  intros Hb. destruct (buildTest_inr _ _ _ _ _ Hb) as (-> & _ & t0 & HEnv).
  destruct (setupEnvSettings_env (opts w) t0 runConfig) as (pre & Hpre & Hhead & Hcfg).
  rewrite HEnv, Hpre. split_and!.
  - destruct pre; [discriminate Hhead | discriminate].
  - destruct pre; [discriminate Hhead | exact Hhead].
  - eauto.
  - intros Hd r w'. by apply createAndRunTest_first_call.
Qed.

Lemma createAndRunTest_env_witness :
  Env (Spec test_a) ≠ []
  ∧ head (Env (Spec test_a)) = Some ("YAKS_NAMESPACE=" +:+ Namespace_Name config0)
  ∧ (∃ pre,
        Env (Spec test_a) = pre ++ cli_env (opts (world_of state0 options0))
        ∧ ∀ e, e ∈ config_env_entries (opts (world_of state0 options0)) config0 → e ∈ pre)
  ∧ (DumpFormat (opts (world_of state0 options0)) = "" →
     ∀ r w', createAndRunTest "tests/a.feature" config0 (world_of state0 options0) = (r, w') →
             ∃ evs, trace w' = trace (world_of state0 options0) ++ EvCreate test_a :: evs).
Proof.
  apply (createAndRunTest_env (P := sim) "tests/a.feature" config0
           (world_of state0 options0) (world_of state0 options0) test_a).
  by apply buildTest_a.
Defined.

Example env_order :
  let o := with_cli_env options0 ["YAKS_NAMESPACE=other"; "A=1"] in
  let config :=
    {| BaseDir := ""; Namespace_Name := "ns"; Namespace_Temporary := false;
       Namespace_AutoRemove := true; Recursive := true; Operator_Roles := [];
       Runtime_Resources := [];
       Runtime_Env := [{| EnvConfig_Name := "A"; EnvConfig_Value := "0" |}];
       Runtime_Secret := ""; Runtime_Selenium_Image := "";
       Runtime_TestContainers_Enabled := false;
       Runtime_Settings := Runtime_Settings Sim.defaults;
       Cucumber_Tags := ["@smoke"]; Cucumber_Glue := []; Cucumber_Options := "";
       Config_Timeout := ""; Pre := []; Post := [] |} in
  Env (Spec (setupEnvSettings o test_a config).1)
  = ["YAKS_NAMESPACE=ns"; "CUCUMBER_FILTER_TAGS=@smoke"; "A=0"; "YAKS_NAMESPACE=other"; "A=1"].
Proof. reflexivity. Qed.

(** ** C5: the timeout of the phase watcher *)

Section Timeout.
Context {P : Platform}.

Lemma watcherTimeoutSetting_flag o runConfig :
  Timeout o ≠ "" → watcherTimeoutSetting o runConfig = Timeout o.
Proof. intros H%String.eqb_neq. unfold watcherTimeoutSetting. by rewrite H. Qed.

Lemma watcherTimeoutSetting_config o runConfig :
  Timeout o = "" → Config_Timeout runConfig ≠ "" →
  watcherTimeoutSetting o runConfig = Config_Timeout runConfig.
Proof.
  intros Ht H%String.eqb_neq. unfold watcherTimeoutSetting. by rewrite Ht, H.
Qed.

Lemma watcherTimeoutSetting_default o runConfig :
  Timeout o = "" → Config_Timeout runConfig = "" →
  watcherTimeoutSetting o runConfig = DefaultTimeout.
Proof. intros Ht Hc. unfold watcherTimeoutSetting. by rewrite Ht, Hc. Qed.

(** The watcher with the timeout [d] it ends up with and the lines
    [complaint] it prints before it starts to poll. *)
Lemma watchPhase_run runConfig test status (w : World) d complaint :
  watcherTimeout (opts w) runConfig = (d, complaint) →
  ∃ seen s,
    poll (ObjectKeyFromObject test) d (sys w) = (seen, s)
    ∧ watchPhase runConfig test status w
      = (Done ((WaitCondition phaseCondition seen test status).1.2,
               (WaitCondition phaseCondition seen test status).2),
         {| sys := s;
            stdout := stdout w ++ match complaint with
                                  | Some line => [line +:+ nl]
                                  | None => []
                                  end;
            stderr := stderr w;
            trace := trace w ++ [EvWait (ObjectKeyFromObject test) d];
            opts := opts w; results := results w |}).
Proof.
  intros Ht. destruct (poll (ObjectKeyFromObject test) d (sys w)) as [seen s] eqn:Hp.
  exists seen, s. split; [done|]. unfold watchPhase.
  rewrite (bind_Done get_opts _ w (opts w) w eq_refl). rewrite Ht.
  destruct (WaitCondition phaseCondition seen test status) as [[err t] st] eqn:Hw.
  destruct complaint as [line|]; rewrite !bind_unfold; cbn; unfold call; cbn;
    rewrite bind_unfold; cbn [sys add_stdout]; rewrite Hp; rewrite Hw; cbn;
    by rewrite ?app_nil_r.
Qed.

End Timeout.

(** C5.  The watcher takes its timeout from the [--timeout] flag when that
    is not empty, else from the run configuration when that is not empty,
    else from [config.DefaultTimeout].  When the chosen text parses as a
    duration the watcher polls with it and prints nothing; when it does not
    parse, the watcher prints "Failed to parse test timeout setting - ..."
    and polls with the parsed default: the failure stops nothing. *)
Theorem watcher_timeout_precedence {P : Platform} (o : runCmdOptions) (runConfig : RunConfig) :
  (Timeout o ≠ "" → watcherTimeoutSetting o runConfig = Timeout o)
  ∧ (Timeout o = "" → Config_Timeout runConfig ≠ "" →
     watcherTimeoutSetting o runConfig = Config_Timeout runConfig)
  ∧ (Timeout o = "" → Config_Timeout runConfig = "" →
     watcherTimeoutSetting o runConfig = DefaultTimeout)
  ∧ (∀ d, ParseDuration (watcherTimeoutSetting o runConfig) = (d, None) →
          watcherTimeout o runConfig = (d, None))
  ∧ (∀ d parseErr,
        ParseDuration (watcherTimeoutSetting o runConfig) = (d, Some parseErr) →
        watcherTimeout o runConfig
        = ((ParseDuration DefaultTimeout).1,
           Some ("Failed to parse test timeout setting - " +:+ Error parseErr)))
  ∧ (∀ test status (w : World),
        opts w = o →
        ∃ seen s,
          poll (ObjectKeyFromObject test) (watcherTimeout o runConfig).1 (sys w) = (seen, s)
          ∧ watchPhase runConfig test status w
            = (Done ((WaitCondition phaseCondition seen test status).1.2,
                     (WaitCondition phaseCondition seen test status).2),
               {| sys := s;
                  stdout := stdout w ++ match (watcherTimeout o runConfig).2 with
                                        | Some line => [line +:+ nl]
                                        | None => []
                                        end;
                  stderr := stderr w;
                  trace := trace w ++ [EvWait (ObjectKeyFromObject test)
                                         (watcherTimeout o runConfig).1];
                  opts := opts w; results := results w |})).
Proof.
  split_and!.
  - apply watcherTimeoutSetting_flag.
  - apply watcherTimeoutSetting_config.
  - apply watcherTimeoutSetting_default.
  - intros d Hd. unfold watcherTimeout. by rewrite Hd.
  - intros d parseErr Hd. unfold watcherTimeout. by rewrite Hd.
  - intros test status w <-. apply watchPhase_run. by destruct (watcherTimeout _ _).
Qed.

Lemma watcher_timeout_precedence_witness :
  watcherTimeoutSetting (P := sim) (with_Timeout options0 "10s") config0 = "10s"
  ∧ watcherTimeout (P := sim) (with_Timeout options0 "soon") config0
    = (1800%Z, Some "Failed to parse test timeout setting - time: invalid duration soon").
Proof.
  split.
  - refine (proj1 (watcher_timeout_precedence (P := sim)
                     (with_Timeout options0 "10s") config0) _).
    discriminate.
  - destruct (watcher_timeout_precedence (P := sim) (with_Timeout options0 "soon") config0)
      as (_ & _ & _ & _ & Hfallback & _).
    exact (Hfallback 0%Z (errors_New "time: invalid duration soon") eq_refl).
Defined.

(** ** C6: the condition of the phase watcher *)

Section Condition.
Context {P : Platform}.

Lemma phaseCondition_terminal status t :
  phaseCondition status (ObjTest t)
  = ((terminal (Phase (Status t)), None),
     if bool_decide (Phase (Status t) ≠ TestPhaseNone) then Phase (Status t) else status).
Proof. unfold phaseCondition, terminal. by destruct (Phase (Status t)). Qed.

Lemma phaseCondition_calls status objs :
  foldl (λ status obj, (phaseCondition status obj).2) status objs
  = last_non_None status (phases_shown objs).
Proof.
  revert status. induction objs as [|[t|] rest IH]; intros status; [done| |].
  - cbn [foldl phases_shown last_non_None]. rewrite phaseCondition_terminal. apply IH.
  - cbn [foldl phases_shown phaseCondition snd]. apply IH.
Qed.

Lemma WaitCondition_status polls obj status :
  (WaitCondition phaseCondition polls obj status).2
  = last_non_None status (phases_seen polls).
Proof.
  revert obj status. induction polls as [|[t|] rest IH]; intros obj status; [done| |].
  - cbn [WaitCondition phases_seen]. rewrite phaseCondition_terminal.
    destruct (terminal (Phase (Status t))); [done|]. cbn [last_non_None foldl].
    apply IH.
  - cbn [WaitCondition phases_seen phaseCondition]. apply IH.
Qed.

End Condition.

(** C6.  In the non-dev mode the condition function answers [true], with
    no error, exactly on a Test whose phase is Deleting, Error, Passed or
    Failed, and [false] on anything else.  A call on a Test with a phase
    other than None sets the captured [status] to that phase, any other call
    leaves it alone: after any sequence of calls [status] is the last phase
    other than None that was shown, whatever came later.  So the status that
    the watcher reports is the last such phase among the polls up to the
    first terminal one, and [New] when there is none. *)
Theorem watcher_condition {P : Platform} :
  (∀ status t,
      (phaseCondition status (ObjTest t)).1.2 = None
      ∧ ((phaseCondition status (ObjTest t)).1.1 = true
         ↔ Phase (Status t) ∈ [TestPhaseDeleting; TestPhaseError; TestPhasePassed;
                               TestPhaseFailed]))
  ∧ (∀ status, phaseCondition status ObjOther = ((false, None), status))
  ∧ (∀ status t,
      (phaseCondition status (ObjTest t)).2
      = if bool_decide (Phase (Status t) = TestPhaseNone) then status
        else Phase (Status t))
  ∧ (∀ status objs,
      foldl (λ status obj, (phaseCondition status obj).2) status objs
      = last_non_None status (phases_shown objs))
  ∧ (∀ polls obj status,
      (WaitCondition phaseCondition polls obj status).2
      = last_non_None status (phases_seen polls))
  ∧ (∀ runConfig test (w : World) r w',
      watchPhase runConfig test TestPhaseNew w = (r, w') →
      ∃ seen t,
        (poll (ObjectKeyFromObject test) (watcherTimeout (opts w) runConfig).1 (sys w)).1 = seen
        ∧ r = Done (t, last_non_None TestPhaseNew (phases_seen seen))).
Proof.
  split_and!.
  - intros status t. rewrite phaseCondition_terminal. split; [done|].
    unfold terminal. cbn [fst]. apply bool_decide_eq_true.
  - done.
  - intros status t. rewrite phaseCondition_terminal. cbn [snd].
    by destruct (Phase (Status t)).
  - apply phaseCondition_calls.
  - apply WaitCondition_status.
  - intros runConfig test w r w'.
    destruct (watchPhase_run runConfig test TestPhaseNew w _ _
                (surjective_pairing (watcherTimeout (opts w) runConfig)))
      as (seen & s & Hp & ->).
    intros [= <- <-]. exists seen. eexists. split; [by rewrite Hp|].
    by rewrite WaitCondition_status.
Qed.

Example watcher_keeps_last_phase :
  let running := with_Status test_a (with_Phase TestStatus_zero TestPhaseRunning) in
  let blank := test_a in
  (WaitCondition phaseCondition [ObjTest running; ObjOther; ObjTest blank] test_a TestPhaseNew).2
  = TestPhaseRunning.
Proof. reflexivity. Qed.

Lemma watcher_condition_witness :
  ∃ seen t,
    (poll (ObjectKeyFromObject test_a) (watcherTimeout (opts world0) config0).1 (sys world0)).1
    = seen
    ∧ (watchPhase config0 test_a TestPhaseNew world0).1
      = Done (t, last_non_None TestPhaseNew (phases_seen seen)).
Proof.
  destruct (watcher_condition (P := sim)) as (_ & _ & _ & _ & _ & Hwatch).
  apply (Hwatch config0 test_a world0 (watchPhase config0 test_a TestPhaseNew world0).1
           (watchPhase config0 test_a TestPhaseNew world0).2).
  by destruct (watchPhase _ _ _ _).
Defined.

(** ** C8: the pre and post steps *)

Section Steps.
Context {P : Platform}.

Lemma fails_alike_refl (k : M (option error)) : fails_alike k k.
Proof. by intros w err w'. Qed.

Lemma fails_alike_bind {A} (m : M A) (f f' : A → M (option error)) :
  (∀ a, fails_alike (f a) (f' a)) → fails_alike (m ≫= f) (m ≫= f').
Proof.
  intros Hf w err w'. rewrite !bind_unfold.
  destruct (m w) as [[a|reason] w1]; [apply Hf | done].
Qed.

Lemma fails_alike_defer (d : M unit) (k k' : M (option error)) :
  fails_alike k k' → fails_alike (defer d k) (defer d k').
Proof.
  intros Hk w err w'. unfold defer.
  destruct (k w) as [r w1] eqn:Ek.
  destruct (d w1) as [[[]|reason] w2] eqn:Ed; [|discriminate].
  intros [= -> <-]. by rewrite (Hk _ _ _ Ek), Ed.
Qed.

Lemma fails_alike_or_return err (k k' : M (option error)) :
  fails_alike k k' → fails_alike (or_return err k) (or_return err k').
Proof. intros Hk. destruct err; [apply fails_alike_refl | exact Hk]. Qed.

Lemma fails_alike_script step namespace baseDir (k k' : M (option error)) :
  fails_alike k k' →
  fails_alike (runSteps_script step namespace baseDir k)
              (runSteps_script step namespace baseDir k').
Proof.
  intros Hk. unfold runSteps_script. destruct (nonempty_string _); [|exact Hk].
  apply fails_alike_bind. intros [err|]; [apply fails_alike_refl | exact Hk].
Qed.

Lemma fails_alike_run idx step namespace baseDir (k k' : M (option error)) :
  fails_alike k k' →
  fails_alike (runSteps_run idx step namespace baseDir k)
              (runSteps_run idx step namespace baseDir k').
Proof.
  intros Hk. unfold runSteps_run. destruct (nonempty_string _); [|exact Hk].
  apply fails_alike_bind. intros [file err].
  apply fails_alike_or_return, fails_alike_defer.
  do 4 (apply fails_alike_bind; intros ?; apply fails_alike_or_return).
  apply fails_alike_bind. intros [e|]; [apply fails_alike_refl | exact Hk].
Qed.

(** Steps that come after a failure change nothing. *)
Lemma runSteps_from_stops idx steps more namespace baseDir :
  fails_alike (runSteps_from idx steps namespace baseDir)
              (runSteps_from idx (steps ++ more) namespace baseDir).
Proof.
  revert idx. induction steps as [|step rest IH]; intros idx; [by intros w err w'|].
  cbn [app runSteps_from]. apply fails_alike_bind. intros h.
  destruct (skipStep h _) as [[|]|]; [| |apply fails_alike_refl].
  - apply fails_alike_bind. intros _. apply IH.
  - apply fails_alike_script, fails_alike_run, IH.
Qed.

(** What [runScript] does once the timeout is read. *)
Lemma runScript_run scriptFile desc namespace baseDir timeout (w : World) d err s :
  ParseDuration (if String.eqb timeout "" then DefaultTimeout else timeout) = (d, None) →
  command_Run (if String.eqb (GOOS (host (sys w))) "windows" then "powershell.exe"
               else "/bin/bash")
    (resolve (host (sys w)) scriptFile) namespace baseDir d (sys w) = (err, s) →
  runScript scriptFile desc namespace baseDir timeout w
  = (Done err,
     {| sys := s;
        stdout := stdout w ++ (("Running " +:+ desc +:+ ":") +:+ nl)
                  :: match err with
                     | Some e => [("Failed to run " +:+ desc +:+ ": " +:+ nl +:+ Error e) +:+ nl]
                     | None => []
                     end;
        stderr := stderr w;
        trace := trace w ++ [EvExec (if String.eqb (GOOS (host (sys w))) "windows"
                                     then "powershell.exe" else "/bin/bash")
                               (resolve (host (sys w)) scriptFile) namespace baseDir d];
        opts := opts w; results := results w |}).
Proof.
  intros Hd Hrun. unfold runScript. rewrite Hd.
  rewrite (bind_Done (read host) _ w _ w eq_refl).
  rewrite (bind_Done (Println _) _ w tt _ eq_refl).
  rewrite bind_unfold. unfold call. cbn [sys add_stdout]. rewrite Hrun.
  destruct err as [e|]; cbn beta iota; [|done].
  rewrite (bind_Done (Println _) _ _ tt _ eq_refl).
  unfold add_trace, set_sys, add_stdout. cbn. by rewrite <- app_assoc.
Qed.

(** The step that [runSteps] goes on with at index [idx]: a step with no
    name is given one. *)
Lemma named_step idx step :
  let named := if Nat.eqb (String.length (step_Name step)) 0
               then step_with_Name step ("step-" +:+ pretty idx) else step in
  step_Name named = step_name idx step
  ∧ step_Script named = step_Script step
  ∧ step_Run named = step_Run step
  ∧ step_Timeout named = step_Timeout step
  ∧ String.eqb (step_name idx step) "" = false
  ∧ ∀ h, skipStep h named = skipStep h step.
Proof.
  unfold step_name. destruct (Nat.eqb _ 0) eqn:E; cbn; split_and!; try done.
  by destruct (step_Name step).
Qed.

(** A step that is not skipped goes through its script and then through its
    inline command. *)
Lemma runSteps_from_step idx step rest namespace baseDir (w : World) :
  skipStep (host (sys w)) step = Some false →
  let named := if Nat.eqb (String.length (step_Name step)) 0
               then step_with_Name step ("step-" +:+ pretty idx) else step in
  runSteps_from idx (step :: rest) namespace baseDir w
  = runSteps_script named namespace baseDir
      (runSteps_run idx named namespace baseDir
         (runSteps_from (S idx) rest namespace baseDir)) w.
Proof.
  intros Hskip named. cbn [runSteps_from]. cbv zeta.
  rewrite (bind_Done (read host) _ w (host (sys w)) w eq_refl).
  destruct (named_step idx step) as (_ & _ & _ & _ & _ & Hsame).
  fold named in Hsame |- *. by rewrite Hsame, Hskip.
Qed.

(** A script step that is not skipped and whose command fails: the error
    names the step, and the world is the one that command left. *)
Lemma runSteps_from_script_fails idx step rest namespace baseDir (w : World) d err s :
  skipStep (host (sys w)) step = Some false →
  step_Script step ≠ "" →
  ParseDuration (if String.eqb (step_Timeout step) "" then DefaultTimeout
                 else step_Timeout step) = (d, None) →
  let desc := step_name idx step in
  let executor :=
    if String.eqb (GOOS (host (sys w))) "windows" then "powershell.exe" else "/bin/bash" in
  let script := resolve (host (sys w)) (step_Script step) in
  command_Run executor script namespace baseDir d (sys w) = (Some err, s) →
  runSteps_from idx (step :: rest) namespace baseDir w
  = (Done (Some (fmt_Errorf ("Failed to run " +:+ desc +:+ ": " +:+ Error err))),
     {| sys := s;
        stdout := stdout w ++ [("Running " +:+ desc +:+ ":") +:+ nl;
                               ("Failed to run " +:+ desc +:+ ": " +:+ nl +:+ Error err)
                               +:+ nl];
        stderr := stderr w;
        trace := trace w ++ [EvExec executor script namespace baseDir d];
        opts := opts w; results := results w |}).
Proof.
  intros Hskip Hscript Hparse desc executor script Hrun.
  rewrite (runSteps_from_step _ _ _ _ _ _ Hskip).
  destruct (named_step idx step) as (Hname & Hscr & _ & Htime & Hdesc & _).
  unfold runSteps_script. rewrite Hname, Hscr, Htime. fold desc in Hdesc |- *.
  assert (nonempty_string (step_Script step) = true) as ->.
  { unfold nonempty_string. destruct (step_Script step); [done | reflexivity]. }
  rewrite Hdesc.
  by rewrite (bind_Done _ _ _ _ _
                (runScript_run _ desc _ _ _ w _ _ _ Hparse Hrun)).
Qed.

(** An inline command that is not skipped and fails: the error names the
    step, the temporary script is removed, and the steps after it are not
    run. *)
Lemma runSteps_from_inline_fails idx step rest namespace baseDir (w : World)
    file s1 s2 s3 s4 s5 d err s6 :
  skipStep (host (sys w)) step = Some false →
  step_Script step = "" →
  step_Run step ≠ "" →
  TempFile (sys w) = ((file, None), s1) →
  WriteString file scriptHeader s1 = (None, s2) →
  WriteString file (step_Run step) s2 = (None, s3) →
  file_Close file s3 = (None, s4) →
  Chmod file s4 = (None, s5) →
  ParseDuration (if String.eqb (step_Timeout step) "" then DefaultTimeout
                 else step_Timeout step) = (d, None) →
  let desc := step_name idx step in
  let executor :=
    if String.eqb (GOOS (host s5)) "windows" then "powershell.exe" else "/bin/bash" in
  let script := resolve (host s5) file in
  command_Run executor script namespace baseDir d s5 = (Some err, s6) →
  runSteps_from idx (step :: rest) namespace baseDir w
  = (Done (Some (fmt_Errorf ("Failed to run " +:+ desc +:+ ": " +:+ Error err))),
     {| sys := Remove file s6;
        stdout := stdout w ++ [("Running " +:+ desc +:+ ":") +:+ nl;
                               ("Failed to run " +:+ desc +:+ ": " +:+ nl +:+ Error err)
                               +:+ nl];
        stderr := stderr w;
        trace := trace w ++ [EvTempFile "yaks-script-*.sh";
                             EvWriteString file scriptHeader;
                             EvWriteString file (step_Run step);
                             EvClose file; EvChmod file;
                             EvExec executor script namespace baseDir d;
                             EvRemove file];
        opts := opts w; results := results w |}).
Proof.
  intros Hskip Hscript Hrun Htemp Hw1 Hw2 Hclose Hchmod Hd desc executor script Hcmd.
  rewrite (runSteps_from_step _ _ _ _ _ _ Hskip).
  destruct (named_step idx step) as (Hname & Hscr & Hinl & Htime & Hdesc & _).
  unfold runSteps_script, runSteps_run, nonempty_string.
  rewrite Hname, Hscr, Hinl, Htime, Hscript. fold desc in Hdesc |- *.
  cbn [String.length Nat.eqb negb].
  assert (Nat.eqb (String.length (step_Run step)) 0 = false) as ->
    by (by destruct (step_Run step)).
  cbn [negb].
  rewrite (bind_Done _ _ _ _ _ (call_run _ _ _ _ _ Htemp)). cbn beta iota. cbn [or_return].
  unfold defer.
  set (w1 := after_calls w s1 [EvTempFile "yaks-script-*.sh"]).
  rewrite (bind_Done _ _ w1 None _ (call_run _ _ w1 _ _ Hw1)). cbn [or_return].
  set (w2 := after_calls w1 s2 [EvWriteString file scriptHeader]).
  rewrite (bind_Done _ _ w2 None _ (call_run _ _ w2 _ _ Hw2)). cbn [or_return].
  set (w3 := after_calls w2 s3 [EvWriteString file (step_Run step)]).
  rewrite (bind_Done _ _ w3 None _ (call_run _ _ w3 _ _ Hclose)). cbn [or_return].
  set (w4 := after_calls w3 s4 [EvClose file]).
  rewrite (bind_Done _ _ w4 None _ (call_run _ _ w4 _ _ Hchmod)). cbn [or_return].
  set (w5 := after_calls w4 s5 [EvChmod file]).
  rewrite Hdesc.
  rewrite (bind_Done _ _ w5 _ _ (runScript_run _ desc _ _ _ w5 _ _ _ Hd Hcmd)).
  unfold call_, add_trace, set_sys; cbn; by rewrite <- !app_assoc.
Qed.

(** Whatever the pre steps and the test do, a panic included, the post
    steps run after them. *)
Lemma runTest_main_defers source runConfig (w w1 : World) :
  uploadArtifacts runConfig w = (Done None, w1) →
  runTest_main source runConfig w
  = then_post runConfig
      ((err ← runSteps (Pre runConfig) (Namespace_Name runConfig) (BaseDir runConfig);
        match err with
        | Some err => handleTestError (Namespace_Name runConfig) source err
        | None =>
            '(test, err) ← createAndRunTest source runConfig;
            recordOutcome (Namespace_Name runConfig) source test err
        end) w1).
Proof.
  intros Hup. unfold runTest_main. rewrite (bind_Done _ _ _ _ _ Hup).
  unfold defer, then_post.
  match goal with |- (let '(_, _) := ?b in _) = _ => destruct b as [rb wb] end.
  cbn [fst snd]. rewrite bind_unfold.
  by destruct (runSteps (Post runConfig) _ _ wb) as [[rp|reason] w2].
Qed.

Lemma runTest_main_pre_failed source runConfig (w w1 w2 : World) err :
  uploadArtifacts runConfig w = (Done None, w1) →
  runSteps (Pre runConfig) (Namespace_Name runConfig) (BaseDir runConfig) w1
  = (Done (Some err), w2) →
  runTest_main source runConfig w
  = then_post runConfig (handleTestError (Namespace_Name runConfig) source err w2).
Proof.
  intros Hup Hpre. unfold runTest_main. rewrite (bind_Done _ _ _ _ _ Hup).
  unfold defer, then_post. rewrite (bind_Done _ _ _ _ _ Hpre).
  destruct (handleTestError _ _ _ _) as [rh w3]. cbn [fst snd].
  rewrite bind_unfold.
  by destruct (runSteps (Post runConfig) _ _ w3) as [[rp|reason] w4].
Qed.

Lemma runTest_main_pre_passed source runConfig (w w1 w2 w3 : World) test err :
  uploadArtifacts runConfig w = (Done None, w1) →
  runSteps (Pre runConfig) (Namespace_Name runConfig) (BaseDir runConfig) w1
  = (Done None, w2) →
  createAndRunTest source runConfig w2 = (Done (test, err), w3) →
  runTest_main source runConfig w
  = then_post runConfig (recordOutcome (Namespace_Name runConfig) source test err w3).
Proof.
  intros Hup Hpre Hrun. unfold runTest_main. rewrite (bind_Done _ _ _ _ _ Hup).
  unfold defer, then_post. rewrite (bind_Done _ _ _ _ _ Hpre).
  rewrite (bind_Done _ _ _ _ _ Hrun).
  destruct (recordOutcome _ _ _ _ _) as [rh w4]. cbn [fst snd].
  rewrite bind_unfold.
  by destruct (runSteps (Post runConfig) _ _ w4) as [[rp|reason] w5].
Qed.

Lemma then_post_results {A} runConfig (x : Outcome A * World) :
  results (then_post runConfig x).2 = results x.2.
Proof.
  unfold then_post.
  destruct (runSteps (Post runConfig) _ _ x.2) as [[rp|reason] w'] eqn:E;
    by apply same_results_runSteps in E.
Qed.

Lemma then_post_outcome {A} runConfig (x : Outcome A * World) rp w' :
  runSteps (Post runConfig) (Namespace_Name runConfig) (BaseDir runConfig) x.2
  = (Done rp, w') →
  then_post runConfig x = (x.1, w').
Proof. intros H. unfold then_post. by rewrite H. Qed.

Lemma handleTestError_results namespace source err (w : World) :
  ∃ suite w',
    handleTestError namespace source err w = (Done tt, w')
    ∧ results w' = {| Suites := Suites (results w) ++ [suite] |}
    ∧ head (Errors suite) = Some (ReasonForError err +:+ " - " +:+ Error err)
    ∧ trace w' = trace w ++ [EvSaveTestResults (GetErrorResult namespace source err)].
Proof.
  unfold handleTestError, handleTestResult. rewrite !bind_unfold. unfold call.
  destruct (SaveTestResults _ (sys w)) as [[saveErr|] s]; cbn; eauto 10.
Qed.

End Steps.



(** A percent sign in the name of a step: the text of the error is read as
    a format, and the sign finds no operand. *)
Example step_error_is_formatted_twice :
  (runSteps [script_step "50%" "setup.sh"] "default" "" (world_hooks ["setup.sh"])).1
  = Done (Some (errors_New "Failed to run 50%!:(MISSING) exit status 1")).
Proof. vm_compute. reflexivity. Qed.

Example failing_pre_step_run :
  let out := run ["tests/a.feature"]
               (world_of (with_config (with_failing_scripts state0 ["setup.sh"])
                            "tests/yaks-config.yaml" config_hooks) options0) in
  out.1 = Done (Some (errors_New "There are test failures!"))
  ∧ filter (λ ev, class_of ev ∈ [ClHook; ClTest]) (trace out.2)
    = [EvExec "/bin/bash" "setup.sh" "default" "tests" 1800;
       EvExec "/bin/bash" "cleanup.sh" "default" "tests" 1800].
Proof. vm_compute. done. Qed.

Example failing_post_step_run :
  let out := run ["tests/a.feature"]
               (world_of (with_config (with_failing_scripts state0 ["cleanup.sh"])
                            "tests/yaks-config.yaml" config_hooks) options0) in
  out.1 = Done None
  ∧ filter (λ ev, class_of ev ∈ [ClHook]) (trace out.2)
    = [EvExec "/bin/bash" "setup.sh" "default" "tests" 1800;
       EvExec "/bin/bash" "never.sh" "default" "tests" 1800;
       EvExec "/bin/bash" "cleanup.sh" "default" "tests" 1800].
Proof. vm_compute. done. Qed.

(** ** C2: a group run isolates the failure of a file *)

Section Returns.
Context {P : Platform}.

Lemma same_opts_refl (w : World) : same_opts w w.
Proof. reflexivity. Qed.

Lemma same_opts_trans (w1 w2 w3 : World) : same_opts w1 w2 → same_opts w2 w3 → same_opts w1 w3.
Proof. unfold same_opts. congruence. Qed.

Lemma same_opts_call {A} ev (f : Sys → A * Sys) : frame same_opts (call ev f).
Proof. intros w r w'. unfold call. destruct (f (sys w)). by intros [= <- <-]. Qed.

Lemma same_opts_Print text : frame same_opts (Print text).
Proof. by intros w r w' [= <- <-]. Qed.

Lemma same_opts_Println text : frame same_opts (Println text).
Proof. apply same_opts_Print. Qed.

Lemma same_opts_append_suite suite : frame same_opts (append_suite suite).
Proof. by intros w r w' [= <- <-]. Qed.

Lemma returns_ret {A} (Q : A → Prop) a : Q a → returns Q (mret a).
Proof. intros HQ w r w' [= <- <-]. eauto. Qed.

Lemma returns_bind {A B} (Q1 : A → Prop) (Q : B → Prop) (m : M A) (f : A → M B) :
  returns Q1 m → (∀ a, Q1 a → returns Q (f a)) → returns Q (m ≫= f).
Proof.
  intros Hm Hf w r w'. rewrite bind_unfold.
  destruct (m w) as [r1 w1] eqn:E. destruct (Hm _ _ _ E) as (a & -> & Ha).
  by apply Hf.
Qed.

Lemma returns_any {A} (Q : A → Prop) (m : M A) :
  returns (λ _, True) m → (∀ a, Q a) → returns Q m.
Proof. intros Hm HQ w r w' E. destruct (Hm _ _ _ E) as (a & -> & _). eauto. Qed.

Lemma returns_call {A} ev (f : Sys → A * Sys) : returns (λ _, True) (call ev f).
Proof. intros w r w'. unfold call. destruct (f (sys w)). intros [= <- <-]. eauto. Qed.

Lemma returns_read {A} (f : Sys → A) : returns (λ _, True) (read f).
Proof. intros w r w' [= <- <-]. eauto. Qed.

Lemma returns_get_opts : returns (λ _, True) get_opts.
Proof. intros w r w' [= <- <-]. eauto. Qed.

Lemma returns_Print text : returns (λ _, True) (Print text).
Proof. intros w r w' [= <- <-]. eauto. Qed.

Lemma returns_Println text : returns (λ _, True) (Println text).
Proof. apply returns_Print. Qed.

Lemma returns_reads {A} (m : M A) : reads m → returns (λ _, True) m.
Proof. intros Hm w r w' E. destruct (Hm w) as [a Ha]. rewrite Ha in E. injection E as <- <-. eauto. Qed.

End Returns.

#[global] Hint Resolve same_opts_refl same_opts_trans same_opts_call same_opts_Print
  same_opts_Println same_opts_append_suite : frame.

Create HintDb returns discriminated.
#[global] Hint Resolve returns_call returns_read returns_get_opts returns_Print
  returns_Println : returns.
#[global] Hint Extern 1 (returns _ (mret _)) => apply returns_ret; try done : returns.

(** One step through the structure of a computation that returns. *)
Ltac returns_step :=
  lazymatch goal with
  | |- returns _ (_ ≫= _) =>
      eapply (returns_bind (λ _, True)); [ | intros ? _ ]
  | |- returns _ (match ?x with _ => _ end) => destruct x
  | |- returns _ (if ?c then _ else _) => destruct c
  | |- returns _ _ => solve [eauto with returns]
  end.

Ltac returns_auto := repeat returns_step.

Section Group.
Context {P : Platform}.

Lemma returns_watchPhase runConfig test status :
  returns (λ _, True) (watchPhase runConfig test status).
Proof. unfold watchPhase. returns_auto. Qed.

(** [awaitTest] returns a test or an error. *)
Lemma returns_awaitTest test name namespace runConfig :
  returns (λ x, x.1 ≠ None ∨ x.2 ≠ None) (awaitTest test name namespace runConfig).
Proof.
  pose proof returns_watchPhase.
  unfold awaitTest, watchRoute. returns_auto; apply returns_ret; cbn; auto.
Qed.

Lemma returns_submitTest test : returns (λ _, True) (submitTest test).
Proof. unfold submitTest, or_fail. returns_auto. Qed.

Lemma createAndRunTest_build_failed rawName runConfig (w : World) err :
  buildTest rawName runConfig w = (Done (inl err), w) →
  createAndRunTest rawName runConfig w = (Done (None, Some err), w).
Proof.
  intros Hb. unfold createAndRunTest.
  rewrite (bind_Done get_opts _ w (opts w) w eq_refl). by rewrite (bind_Done _ _ _ _ _ Hb).
Qed.

(** With an empty dump format [createAndRunTest] returns a test or an
    error. *)
Lemma createAndRunTest_outcome rawName runConfig (w : World) r w' :
  DumpFormat (opts w) = "" →
  createAndRunTest rawName runConfig w = (r, w') →
  ∃ test err, r = Done (test, err) ∧ (test ≠ None ∨ err ≠ None).
Proof.
  intros Hd. destruct (reads_buildTest rawName runConfig w) as [[e|test] Hb].
  - rewrite (createAndRunTest_build_failed _ _ _ _ Hb). intros [= <- <-].
    exists None, (Some e). split; [done|]. by right.
  - rewrite (createAndRunTest_submit _ _ _ _ Hd Hb).
    destruct (submitTest test w) as [rs w1] eqn:Hs.
    destruct (returns_submitTest _ _ _ _ Hs) as ([e|[t existed]] & -> & _).
    + intros [= <- <-]. exists None, (Some e). split; [done|]. by right.
    + intros ([t' e'] & -> & Ht)%returns_awaitTest. eauto.
Qed.

Lemma same_results_createAndRunTest rawName runConfig :
  frame same_results (createAndRunTest rawName runConfig).
Proof.
  assert (∀ rs t, frame same_results (appendResources runConfig rs t)).
  { induction rs as [|resource rest IH]; intros t; cbn [appendResources]; frame_auto. }
  unfold createAndRunTest, buildTest, newSettings, submitTest, awaitTest, watchPhase,
    watchRoute, or_fail.
  frame_auto.
Qed.

Lemma same_opts_createAndRunTest rawName runConfig :
  frame same_opts (createAndRunTest rawName runConfig).
Proof.
  assert (∀ rs t, frame same_opts (appendResources runConfig rs t)).
  { induction rs as [|resource rest IH]; intros t; cbn [appendResources]; frame_auto. }
  unfold createAndRunTest, buildTest, newSettings, submitTest, awaitTest, watchPhase,
    watchRoute, or_fail.
  frame_auto.
Qed.

(** What [recordOutcome] adds to [results]: one suite, with the results of
    the test when there is a test, with the error otherwise. *)
Lemma recordOutcome_suite namespace name test err (w : World) :
  test ≠ None ∨ err ≠ None →
  ∃ suite w',
    recordOutcome namespace name test err w = (Done tt, w')
    ∧ results w' = {| Suites := Suites (results w) ++ [suite] |}
    ∧ opts w' = opts w
    ∧ match test, err with
      | Some t, _ => suite = AppendTestResults TestSuite_zero (Results (Status t))
      | None, Some e => head (Errors suite) = Some (ReasonForError e +:+ " - " +:+ Error e)
      | None, None => False
      end.
Proof.
  intros Hsome. unfold recordOutcome, handleTestError, handleTestResult.
  destruct test as [t|]; [|destruct err as [e|]; [|by destruct Hsome]];
    rewrite !bind_unfold; unfold call;
    destruct (SaveTestResults _ (sys w)) as [[saveErr|] s]; cbn; eauto 10.
Qed.

End Group.

Section Loop.
Context {P : Platform}.
Variable recurse : string → Listing → M unit.
Variable source : string.
Variable runConfig : RunConfig.

Lemma runTestGroup_entry_matching f :
  recursing runConfig f = false → matching runConfig f = true →
  runTestGroup_entry recurse source runConfig f
  = ('(test, err) ← createAndRunTest (path_Join source (FileInfo_Name f)) runConfig;
     recordOutcome (Namespace_Name runConfig) (path_Join source (FileInfo_Name f)) test err).
Proof.
  unfold recursing, matching, runTestGroup_entry, FileInfo_IsDir.
  destruct (snd f) as [sub|], (Recursive runConfig); cbn;
    try rewrite bool_decide_true by eauto; cbn; try done; by intros _ ->.
Qed.

Lemma runTestGroup_entry_other f :
  recursing runConfig f = false → matching runConfig f = false →
  runTestGroup_entry recurse source runConfig f = mret tt.
Proof.
  unfold recursing, matching, runTestGroup_entry, FileInfo_IsDir.
  destruct (snd f) as [sub|], (Recursive runConfig); cbn;
    try rewrite bool_decide_true by eauto; cbn; try done; by intros _ ->.
Qed.

Lemma runTestGroup_loop_cons f rest (w : World) :
  runTestGroup_loop recurse source runConfig (f :: rest) w
  = (runTestGroup_entry recurse source runConfig f;;
     runTestGroup_loop recurse source runConfig rest) w.
Proof. reflexivity. Qed.

(** A file whose submission fails: its error goes into a suite of its own
    and the loop goes on with the files that remain. *)
Lemma runTestGroup_loop_failure f rest (w w1 : World) err :
  recursing runConfig f = false → matching runConfig f = true →
  createAndRunTest (path_Join source (FileInfo_Name f)) runConfig w
  = (Done (None, Some err), w1) →
  ∃ suite w2,
    runTestGroup_loop recurse source runConfig (f :: rest) w
    = runTestGroup_loop recurse source runConfig rest w2
    ∧ results w2 = {| Suites := Suites (results w1) ++ [suite] |}
    ∧ head (Errors suite) = Some (ReasonForError err +:+ " - " +:+ Error err)
    ∧ opts w2 = opts w1.
Proof.
  intros Hrec Hmatch Hrun.
  destruct (recordOutcome_suite (Namespace_Name runConfig)
              (path_Join source (FileInfo_Name f)) None (Some err) w1)
    as (suite & w2 & Hrec2 & Hres & Hopts & Hsuite); [by right|].
  exists suite, w2. split_and!; try done.
  rewrite runTestGroup_loop_cons, (runTestGroup_entry_matching _ Hrec Hmatch).
  rewrite bind_unfold, (bind_Done _ _ _ _ _ Hrun). cbn beta iota. by rewrite Hrec2.
Qed.

(** A file whose submission yields a test: the results of the test make a
    suite of their own and the loop goes on. *)
Lemma runTestGroup_loop_success f rest (w w1 : World) test err :
  recursing runConfig f = false → matching runConfig f = true →
  createAndRunTest (path_Join source (FileInfo_Name f)) runConfig w
  = (Done (Some test, err), w1) →
  ∃ w2,
    runTestGroup_loop recurse source runConfig (f :: rest) w
    = runTestGroup_loop recurse source runConfig rest w2
    ∧ results w2
      = {| Suites := Suites (results w1)
                     ++ [AppendTestResults TestSuite_zero (Results (Status test))] |}
    ∧ opts w2 = opts w1.
Proof.
  intros Hrec Hmatch Hrun.
  destruct (recordOutcome_suite (Namespace_Name runConfig)
              (path_Join source (FileInfo_Name f)) (Some test) err w1)
    as (suite & w2 & Hrec2 & Hres & Hopts & ->); [by left|].
  exists w2. split_and!; try done.
  rewrite runTestGroup_loop_cons, (runTestGroup_entry_matching _ Hrec Hmatch).
  rewrite bind_unfold, (bind_Done _ _ _ _ _ Hrun). cbn beta iota. by rewrite Hrec2.
Qed.

(** Without recursion and without a dump format, the loop adds one suite
    for every matching entry, whatever fails. *)
Lemma runTestGroup_loop_count files (w : World) r w' :
  Forall (λ f, recursing runConfig f = false) files →
  DumpFormat (opts w) = "" →
  runTestGroup_loop recurse source runConfig files w = (r, w') →
  r = Done tt
  ∧ length (Suites (results w'))
    = length (Suites (results w)) + length (filter (λ f, matching runConfig f = true) files).
Proof.
  intros Hflat. revert w. induction Hflat as [|f rest Hf _ IH]; intros w Hd.
  - intros [= <- <-]. cbn. split; [done | lia].
  - rewrite runTestGroup_loop_cons. destruct (matching runConfig f) eqn:Hm.
    + rewrite (runTestGroup_entry_matching _ Hf Hm), !bind_unfold.
      destruct (createAndRunTest _ runConfig w) as [rc w1] eqn:Hc.
      pose proof (same_results_createAndRunTest _ _ _ _ _ Hc) as Hres1.
      pose proof (same_opts_createAndRunTest _ _ _ _ _ Hc) as Hopts1.
      destruct (createAndRunTest_outcome _ _ _ _ _ Hd Hc) as (test & err & -> & Hsome).
      destruct (recordOutcome_suite (Namespace_Name runConfig)
                  (path_Join source (FileInfo_Name f)) test err w1 Hsome)
        as (suite & w2 & -> & Hres2 & Hopts2 & _).
      intros Hrest. apply IH in Hrest as [-> Hlen]; [|congruence].
      split; [done|]. rewrite Hlen, Hres2, filter_cons_True by done. cbn.
      rewrite length_app, Hres1. cbn. lia.
    + rewrite (runTestGroup_entry_other _ Hf Hm).
      rewrite (bind_Done (mret tt) _ w tt w eq_refl).
      intros Hrest. apply IH in Hrest as [-> Hlen]; [|done].
      split; [done|]. rewrite Hlen, filter_cons_False; [done|]. by rewrite Hm.
Qed.

End Loop.

Section Verdict.
Context {P : Platform}.

Lemma hasErrors_spec rs :
  hasErrors rs = true ↔ ∃ suite, suite ∈ Suites rs ∧ Errors suite ≠ [].
Proof.
  unfold hasErrors. rewrite existsb_exists. split.
  - intros (suite & Hin%list_elem_of_In & Hne). exists suite. split; [done|].
    by destruct (Errors suite).
  - intros (suite & Hin%list_elem_of_In & Hne). exists suite. split; [done|].
    by destruct (Errors suite).
Qed.

(** The verdict of [run] is [hasErrors] of the results it leaves. *)
Lemma run_verdict args (w : World) r w' :
  run args w = (Done r, w') →
  r = if hasErrors (results w') then Some (errors_New "There are test failures!") else None.
Proof.
  unfold run. destruct (args !! 0%nat) as [source|]; [|discriminate].
  rewrite bind_unfold. cbn beta iota.
  set (w0 := set_results w {| Suites := [] |}).
  rewrite (bind_Done get_opts _ w0 (opts w0) w0 eq_refl).
  set (body := (read (isDir source) ≫= _)).
  assert (Hbody : ∀ wa ra wb, body wa = (Done ra, wb) →
            ra = if hasErrors (results wb) then Some (errors_New "There are test failures!")
                 else None).
  { intros wa ra wb. unfold body.
    rewrite (bind_Done (read (isDir source)) _ wa (isDir source (sys wa)) wa eq_refl).
    rewrite bind_unfold.
    destruct ((if isDir source (sys wa) : bool then runTestGroup source else runTest source) wa)
      as [[[]|?] w2]; [|intros [=]].
    rewrite (bind_Done get_results _ w2 (results w2) w2 eq_refl).
    destruct (hasErrors (results w2)) eqn:E; intros [= <- <-]; by rewrite E. }
  assert (Hdefer : ∀ (d : M unit) (m : M (option error)),
            frame same_results d →
            (∀ wa ra wb, m wa = (Done ra, wb) →
               ra = if hasErrors (results wb)
                    then Some (errors_New "There are test failures!") else None) →
            ∀ wa ra wb, defer d m wa = (Done ra, wb) →
               ra = if hasErrors (results wb)
                    then Some (errors_New "There are test failures!") else None).
  { intros d m Hd Hm wa ra wb. unfold defer.
    destruct (m wa) as [rm w1] eqn:Em. destruct (d w1) as [[[]|?] w2] eqn:Ed; [|discriminate].
    intros [= -> <-]. apply Hd in Ed. rewrite Ed. by eapply Hm. }
  destruct (Wait (opts w0)); [|apply Hbody].
  apply Hdefer; [frame_auto|].
  destruct (_ && _); [|apply Hbody].
  apply Hdefer; [frame_auto | apply Hbody].
Qed.

End Verdict.

Section Directory.
Context {P : Platform}.

Lemma same_results_uploadArtifacts runConfig :
  frame same_results (uploadArtifacts runConfig).
Proof.
  assert (∀ libs, frame same_results (uploadArtifacts_from runConfig libs)).
  { induction libs as [|lib rest IH]; cbn [uploadArtifacts_from]; frame_auto. }
  unfold uploadArtifacts. frame_auto.
Qed.

(** Once the client, the configuration, the uploads, the listing and the
    pre steps are through, [runTestGroup] is the loop over the entries of
    the directory, and the post steps after it. *)
Lemma runTestGroup_runs_loop source runConfig files (w w1 w2 : World) :
  GetCmdClient (sys w) = None →
  getRunConfig source w = (Done (Some runConfig, None), w) →
  Namespace_Temporary runConfig = false →
  uploadArtifacts runConfig w = (Done None, w1) →
  ReadDir source (sys w1) = ReadDirResult files None →
  runSteps (Pre runConfig) (Namespace_Name runConfig) (BaseDir runConfig) w1
  = (Done None, w2) →
  runTestGroup source w
  = then_post runConfig
      (runTestGroup_loop (λ name sub, runTestGroup_setup name (runTestGroup_listed name sub))
         source runConfig files w2).
Proof.
  intros Hc Hcfg Ht Hup Hdir Hpre. unfold runTestGroup, runTestGroup_setup.
  rewrite (bind_Done (read GetCmdClient) _ w None w) by (unfold read; by rewrite Hc).
  rewrite (bind_Done _ _ _ _ _ Hcfg). cbn beta iota.
  unfold runTestGroup_configured. rewrite Ht.
  rewrite (bind_Done _ _ _ _ _ Hup).
  rewrite (bind_Done (read (ReadDir source)) _ w1 _ w1 eq_refl). rewrite Hdir.
  cbn [runTestGroup_listed]. unfold defer, then_post.
  rewrite (bind_Done _ _ _ _ _ Hpre).
  destruct (runTestGroup_loop _ _ _ _ _) as [rl w3]. cbn [fst snd].
  rewrite bind_unfold.
  by destruct (runSteps (Post runConfig) _ _ w3) as [[rp|reason] w4].
Qed.

(** The suites that a directory without subdirectories to recurse into
    leaves: one for every matching entry. *)
Lemma runTestGroup_suites source runConfig files (w w1 w2 : World) :
  GetCmdClient (sys w) = None →
  getRunConfig source w = (Done (Some runConfig, None), w) →
  Namespace_Temporary runConfig = false →
  uploadArtifacts runConfig w = (Done None, w1) →
  ReadDir source (sys w1) = ReadDirResult files None →
  runSteps (Pre runConfig) (Namespace_Name runConfig) (BaseDir runConfig) w1
  = (Done None, w2) →
  Forall (λ f, recursing runConfig f = false) files →
  DumpFormat (opts w2) = "" →
  length (Suites (results (runTestGroup source w).2))
  = length (Suites (results w)) + length (filter (λ f, matching runConfig f = true) files).
Proof.
  intros Hc Hcfg Ht Hup Hdir Hpre Hflat Hd.
  rewrite (runTestGroup_runs_loop _ _ _ _ _ _ Hc Hcfg Ht Hup Hdir Hpre), then_post_results.
  destruct (runTestGroup_loop _ source runConfig files w2) as [r w3] eqn:Hloop.
  apply runTestGroup_loop_count in Hloop as [_ Hlen]; [|done..]. cbn [snd]. rewrite Hlen.
  apply same_results_uploadArtifacts in Hup. apply same_results_runSteps in Hpre.
  unfold same_results in Hup, Hpre. by rewrite Hpre, Hup.
Qed.

(** On a directory [run] is [runTestGroup] on results that start out
    empty, and the verdict on the results it leaves. *)
Lemma run_directory source more (w : World) :
  isDir source (sys w) = true →
  let out := runTestGroup source (set_results w {| Suites := [] |}) in
  results (run (source :: more) w).2 = results out.2
  ∧ (run (source :: more) w).1
    = match out.1 with
      | Done _ => Done (if hasErrors (results out.2)
                        then Some (errors_New "There are test failures!") else None)
      | Panic reason => Panic reason
      end.
Proof.
  intros Hdir. cbv zeta. unfold run. cbn [lookup list_lookup]. cbv zeta.
  rewrite bind_unfold. cbn beta iota. rewrite (bind_unfold get_opts). cbn [get_opts].
  cbn beta iota. cbn [opts set_results].
  set (w0 := set_results w _).
  set (body := (read (isDir source) ≫= _)).
  assert (Hbody : body w0
                  = match runTestGroup source w0 with
                    | (Done _, w1) =>
                        (Done (if hasErrors (results w1)
                               then Some (errors_New "There are test failures!") else None),
                         w1)
                    | (Panic reason, w1) => (Panic reason, w1)
                    end).
  { unfold body.
    rewrite (bind_Done (read (isDir source)) _ w0 true w0)
      by (unfold read; cbn [sys w0 set_results]; by rewrite Hdir).
    rewrite bind_unfold. destruct (runTestGroup source w0) as [[[]|reason] w1]; [|done].
    rewrite (bind_Done get_results _ w1 (results w1) w1 eq_refl).
    by destruct (hasErrors (results w1)). }
  destruct (Wait (opts w)); [destruct (negb _ && negb _)|]; unfold defer;
    rewrite Hbody; destruct (runTestGroup source w0) as [[[]|reason] w1];
    unfold mbind, M_bind, get_results, call_, add_trace, set_sys; cbn; done.
Qed.

End Directory.



Example group_run_with_one_failure :
  let out := run ["tests"] world0 in
  out.1 = Done (Some (errors_New "There are test failures!"))
  ∧ Suites (results out.2)
    = [{| Tests := ["afeature"]; Errors := [] |};
       {| Tests := ["tests/b.feature"];
          Errors := [" - open tests/b.feature: no such file or directory";
                     "open tests/b.feature: no such file or directory"] |}].
Proof. vm_compute. done. Qed.

Example group_run_goes_on_after_a_failure :
  let listing := ReadDirResult [("0.feature", None); ("a.feature", None)] None in
  let out := run ["tests"] (world_of (with_dir state0 "tests" listing) options0) in
  out.1 = Done (Some (errors_New "There are test failures!"))
  ∧ Suites (results out.2)
    = [{| Tests := ["tests/0.feature"];
          Errors := [" - open tests/0.feature: no such file or directory";
                     "open tests/0.feature: no such file or directory"] |};
       {| Tests := ["afeature"]; Errors := [] |}].
Proof. vm_compute. done. Qed.

(** ** C7: removal of the temporary namespace *)

Section Teardown.
Context {P : Platform}.

Lemma emits_uploadArtifacts runConfig :
  frame (emits (of_class [ClUpload])) (uploadArtifacts runConfig).
Proof.
  assert (∀ libs, frame (emits (of_class [ClUpload])) (uploadArtifacts_from runConfig libs)).
  { induction libs as [|lib rest IH]; cbn [uploadArtifacts_from]; frame_auto. }
  unfold uploadArtifacts. frame_auto.
Qed.

Lemma emits_after_setup {A} cs (m : M A) :
  cs ⊆ after_setup → frame (emits (of_class cs)) m → frame (emits (of_class after_setup)) m.
Proof. apply emits_classes. Qed.

Lemma emits_handleTestError_after namespace source err :
  frame (emits (of_class after_setup)) (handleTestError namespace source err).
Proof.
  eapply emits_after_setup; [|apply emits_handleTestError]. unfold after_setup. set_solver.
Qed.

Lemma emits_recordOutcome_after namespace name test err :
  frame (emits (of_class after_setup)) (recordOutcome namespace name test err).
Proof.
  eapply emits_after_setup; [|apply emits_recordOutcome]. unfold after_setup. set_solver.
Qed.

Lemma emits_runSteps_after steps namespace baseDir :
  frame (emits (of_class after_setup)) (runSteps steps namespace baseDir).
Proof.
  eapply emits_after_setup; [|apply emits_runSteps]. unfold after_setup. set_solver.
Qed.

Lemma emits_createAndRunTest_after rawName runConfig :
  frame (emits (of_class after_setup)) (createAndRunTest rawName runConfig).
Proof.
  eapply emits_after_setup; [|apply emits_createAndRunTest]. unfold after_setup. set_solver.
Qed.

Lemma emits_uploadArtifacts_after runConfig :
  frame (emits (of_class after_setup)) (uploadArtifacts runConfig).
Proof.
  eapply emits_after_setup; [|apply emits_uploadArtifacts]. unfold after_setup. set_solver.
Qed.

Lemma emits_runTest_main source runConfig :
  frame (emits (of_class after_setup)) (runTest_main source runConfig).
Proof.
  pose proof emits_handleTestError_after. pose proof emits_recordOutcome_after.
  pose proof emits_runSteps_after. pose proof emits_createAndRunTest_after.
  pose proof emits_uploadArtifacts_after.
  unfold runTest_main. frame_auto.
Qed.

(** Without recursion the loop of [runTestGroup] removes nothing. *)
Lemma emits_runTestGroup_listed source listing runConfig :
  Recursive runConfig = false →
  frame (emits (of_class after_setup)) (runTestGroup_listed source listing runConfig).
Proof.
  intros Hflat.
  pose proof emits_handleTestError_after. pose proof emits_recordOutcome_after.
  pose proof emits_runSteps_after. pose proof emits_createAndRunTest_after.
  destruct listing as [files err]. cbn [runTestGroup_listed].
  assert (Hloop : ∀ rec, frame (emits (of_class after_setup))
                           (runTestGroup_loop rec source runConfig files)).
  { intros rec. induction files as [|f rest IH]; cbn [runTestGroup_loop].
    - frame_auto.
    - fold (runTestGroup_loop rec source runConfig rest).
      unfold runTestGroup_entry. rewrite Hflat. frame_auto. }
  frame_auto.
Qed.

Lemma no_removal evs : Forall (of_class after_setup) evs → existsb is_delete evs = false.
Proof.
  induction 1 as [|ev evs Hev _ IH]; [done|]. cbn. rewrite IH, orb_false_r.
  by destruct ev.
Qed.

(** [deleteTempNamespace], when it does not panic, issues one removal. *)
Lemma deleteTempNamespace_run ns (w : World) r w' :
  deleteTempNamespace ns w = (Done r, w') →
  ∃ oc, trace w' = trace w ++ [EvDeleteNamespace (ns_Name ns) oc].
Proof.
  unfold deleteTempNamespace.
  rewrite (bind_Done (read IsOpenShift) _ w (IsOpenShift (sys w)) w eq_refl).
  destruct (IsOpenShift (sys w)) as [oc [err|]]; [discriminate|].
  rewrite bind_unfold. unfold call at 1.
  destruct (client_DeleteNamespace (ns_Name ns) oc (sys w)) as [[err|] s];
    rewrite !bind_unfold; cbn; intros [= <- <-]; by exists oc.
Qed.

(** What a body that removes nothing emits, with or without the deferred
    removal around it. *)
Lemma teardown_deferred (scheduled : bool) ns (body : M unit) (w : World) r w' :
  frame (emits (of_class after_setup)) body →
  (if scheduled then defer (deleteTempNamespace ns) else id) body w = (Done r, w') →
  ∃ evs, trace w' = trace w ++ evs ∧ existsb is_delete evs = scheduled.
Proof.
  intros Hbody. destruct scheduled.
  - unfold defer. destruct (body w) as [rb wb] eqn:Eb.
    destruct (Hbody _ _ _ Eb) as (evs & Hevs & Hcl).
    destruct (deleteTempNamespace ns wb) as [[[]|reason] wd] eqn:Ed; [|discriminate].
    intros [= -> <-]. apply deleteTempNamespace_run in Ed as [oc Hd].
    exists (evs ++ [EvDeleteNamespace (ns_Name ns) oc]). split.
    + by rewrite Hd, Hevs, app_assoc.
    + rewrite existsb_app. cbn. apply orb_true_r.
  - intros Eb. destruct (Hbody _ _ _ Eb) as (evs & Hevs & Hcl).
    exists evs. split; [done | by apply no_removal].
Qed.

(** The single-test path: once [createTempNamespace] has handed back a
    namespace, its removal is issued exactly when [AutoRemove] and [Wait]
    are set, with or without an error next to the namespace. *)
Lemma runTest_teardown source runConfig (w w1 : World) ns err runConfig1 r w' :
  Namespace_Temporary runConfig = true →
  createTempNamespace runConfig w = (Done (Some ns, err, runConfig1), w1) →
  runTest_configured source runConfig w = (Done r, w') →
  ∃ evs,
    trace w' = trace w1 ++ evs
    ∧ existsb is_delete evs = Namespace_AutoRemove runConfig1 && Wait (opts w1).
Proof.
  intros Htemp Hcreate. unfold runTest_configured. rewrite Htemp.
  rewrite (bind_Done _ _ _ _ _ Hcreate). cbn beta iota.
  rewrite (bind_Done get_opts _ w1 (opts w1) w1 eq_refl).
  apply teardown_deferred.
  destruct err; [apply emits_handleTestError_after | apply emits_runTest_main].
Qed.

(** The group path: the removal is issued exactly when [AutoRemove] and
    [Wait] are set and [createTempNamespace] returned no error. *)
Lemma runTestGroup_teardown source k runConfig (w w1 : World) ns err runConfig1 r w' :
  (∀ c, frame (emits (of_class after_setup)) (k c)) →
  Namespace_Temporary runConfig = true →
  createTempNamespace runConfig w = (Done (Some ns, err, runConfig1), w1) →
  runTestGroup_configured source k runConfig w = (Done r, w') →
  ∃ evs,
    trace w' = trace w1 ++ evs
    ∧ existsb is_delete evs
      = Namespace_AutoRemove runConfig1 && Wait (opts w1) && bool_decide (err = None).
Proof.
  intros Hk Htemp Hcreate. unfold runTestGroup_configured. rewrite Htemp.
  rewrite (bind_Done _ _ _ _ _ Hcreate). cbn beta iota.
  pose proof emits_handleTestError_after. pose proof emits_uploadArtifacts_after.
  destruct err as [e|].
  - intros (evs & Hevs & Hcl)%emits_handleTestError_after. exists evs.
    split; [done|]. rewrite (no_removal _ Hcl). by rewrite andb_false_r.
  - rewrite (bind_Done get_opts _ w1 (opts w1) w1 eq_refl).
    rewrite bool_decide_true, andb_true_r by done.
    intros Hrun.
    apply (teardown_deferred (Namespace_AutoRemove runConfig1 && Wait (opts w1)) ns
             (err ← uploadArtifacts runConfig1;
              match err with
              | Some err => handleTestError (Namespace_Name runConfig1) source err
              | None => k runConfig1
              end) w1 r w').
    + frame_auto.
    + by destruct (Namespace_AutoRemove runConfig1 && Wait (opts w1)).
Qed.

End Teardown.

(** C7 at its failing input: a temporary namespace with [AutoRemove], a
    waiting invocation, and a cluster set-up that fails after the namespace
    was created.  [createTempNamespace] returns the namespace and the
    error.  [runTest] removes the namespace; [runTestGroup] returns without
    having scheduled [deleteTempNamespace] and the namespace stays. *)
Theorem runTestGroup_leaves_namespace :
  let w := world_of (state_temporary (Some (errors_New "no cluster-admin"))) options0 in
  (createTempNamespace (with_temporary Sim.defaults true true) w).1
  = Done (Some {| ns_Name := "yaks-0"; ns_Project := false |},
          Some (errors_New "no cluster-admin"),
          with_Namespace_Name (with_temporary Sim.defaults true true) "yaks-0")
  ∧ (runTest "tests/a.feature" w).1 = Done tt
  ∧ filter is_delete (trace (runTest "tests/a.feature" w).2) = [EvDeleteNamespace "yaks-0" false]
  ∧ Sim.namespaces (sys (runTest "tests/a.feature" w).2) = []
  ∧ (runTestGroup "tests" w).1 = Done tt
  ∧ filter is_delete (trace (runTestGroup "tests" w).2) = []
  ∧ Sim.namespaces (sys (runTestGroup "tests" w).2) = [("yaks-0", false)].
Proof. vm_compute. done. Qed.

(** Where the set-up succeeds both paths agree: the namespace is removed
    when the invocation waits and left when it does not. *)
Example teardown_needs_wait :
  let waiting := world_of (state_temporary None) options0 in
  let detached := world_of (state_temporary None) (with_Wait options0 false) in
  filter is_delete (trace (runTest "tests/a.feature" waiting).2)
  = [EvDeleteNamespace "yaks-0" false]
  ∧ filter is_delete (trace (runTestGroup "tests" waiting).2)
    = [EvDeleteNamespace "yaks-0" false]
  ∧ filter is_delete (trace (runTest "tests/a.feature" detached).2) = []
  ∧ filter is_delete (trace (runTestGroup "tests" detached).2) = []
  ∧ Sim.namespaces (sys (runTest "tests/a.feature" detached).2) = [("yaks-0", false)]
  ∧ Sim.namespaces (sys (runTestGroup "tests" detached).2) = [("yaks-0", false)].
Proof. vm_compute. done. Qed.

(* ===================================================================== *)
(** * Further properties of [run.go] *)

(** A run whose outcome is known is known with the world it leaves. *)
Lemma outcome_split {P : Platform} {A} (m : M A) (w : World) (a : A) :
  (m w).1 = Done a → m w = (Done a, (m w).2).
Proof. destruct (m w) as [r w']. cbn. by intros ->. Qed.

(** ** Arguments and configuration *)

(** X1.  [validateArgs] accepts exactly the argument lists with one source, and
    names the count it received otherwise.  These are the lists that [run]
    uses in full: it indexes [args[0]], which panics on the empty list, and
    never looks at a further argument. *)
Theorem validateArgs_run {P : Platform} :
  (∀ args, validateArgs args = None ↔ ∃ source, args = [source])
  ∧ (∀ args err,
      validateArgs args = Some err →
      length args ≠ 1
      ∧ err = errors_New ("accepts exactly 1 test name to execute, received "
                          +:+ pretty (length args)))
  ∧ (∀ w : World, run [] w = (Panic "index out of range", w))
  ∧ (∀ source more (w : World), run (source :: more) w = run [source] w).
Proof.
  split_and!.
  - intros args. unfold validateArgs. destruct args as [|source [|? ?]]; cbn; split;
      try done; try by intros [? [=]]. intros _. by exists source.
  - intros args err. unfold validateArgs.
    destruct (Nat.eqb (length args) 1) eqn:E; cbn; [done|].
    apply Nat.eqb_neq in E. by intros [= <-].
  - done.
  - done.
Qed.

Lemma validateArgs_run_witness :
  length ["a.feature"; "b.feature"] ≠ 1
  ∧ errors_New "accepts exactly 1 test name to execute, received 2"
    = errors_New ("accepts exactly 1 test name to execute, received "
                  +:+ pretty (length ["a.feature"; "b.feature"])).
Proof.
  destruct (validateArgs_run (P := sim)) as (_ & Hcount & _).
  apply (Hcount ["a.feature"; "b.feature"]). reflexivity.
Defined.

(** X2.  [getRunConfig] changes nothing and returns either a configuration or an
    error, never both and never neither.  A remote source gets the defaults
    and no file is looked at.  A local one gets what [yaks-config.yaml]
    next to it holds, where only an empty [BaseDir] and the empty name of a
    namespace that is not temporary are filled in, the latter from the
    [--namespace] option; the name of a temporary namespace is left as the
    file has it. *)
Theorem getRunConfig_result {P : Platform} source (w : World) :
  ∃ r, getRunConfig source w = (Done r, w)
    ∧ if isRemoteFile source then r = (Some NewWithDefaults, None)
      else match LoadConfig (configFileOf source (sys w)) (sys w) with
           | (_, Some err) => r = (None, Some err)
           | (loaded, None) =>
               ∃ c, r = (Some c, None)
                 ∧ c = with_Namespace_Name (with_BaseDir loaded (BaseDir c)) (Namespace_Name c)
                 ∧ BaseDir c
                   = (if String.eqb (BaseDir loaded) "" then getBaseDir source
                      else BaseDir loaded)
                 ∧ Namespace_Name c
                   = (if String.eqb (Namespace_Name loaded) ""
                         && negb (Namespace_Temporary loaded)
                      then o_Namespace (opts w) else Namespace_Name loaded)
           end.
Proof.
  unfold getRunConfig. rewrite (bind_Done get_opts _ w (opts w) w eq_refl).
  destruct (isRemoteFile source); [by eexists|].
  rewrite (bind_Done (read (isDir source)) _ w (isDir source (sys w)) w eq_refl).
  fold (configFileOf source (sys w)).
  rewrite (bind_Done (read (LoadConfig _)) _ w _ w eq_refl).
  destruct (LoadConfig _ (sys w)) as [loaded [err|]]; [by eexists|].
  eexists. split; [done|]. eexists. split; [done|].
  destruct loaded as [base name temporary ?].
  cbn [BaseDir Namespace_Name Namespace_Temporary].
  destruct (String.eqb base "") eqn:Eb, (String.eqb name "") eqn:En, temporary;
    cbn [andb negb]; unfold with_Namespace_Name, with_BaseDir;
    cbn [BaseDir Namespace_Name Namespace_Temporary]; rewrite ?Eb, ?En; done.
Qed.

(** X3.  A source whose client or whose configuration cannot be had is dealt
    with in the same way by [runTest] and [runTestGroup]: the error is
    recorded as one suite of its own, under the empty namespace, and
    nothing else is called: no upload, no namespace, no step, no test. *)
Theorem setup_failure_recorded {P : Platform} source (w : World) err :
  GetCmdClient (sys w) = Some err
  ∨ (GetCmdClient (sys w) = None ∧ getRunConfig source w = (Done (None, Some err), w)) →
  runTest source w = handleTestError "" source err w
  ∧ runTestGroup source w = handleTestError "" source err w
  ∧ ∃ suite w',
      handleTestError "" source err w = (Done tt, w')
      ∧ results w' = {| Suites := Suites (results w) ++ [suite] |}
      ∧ trace w' = trace w ++ [EvSaveTestResults (GetErrorResult "" source err)].
Proof.
  intros Hfail. split_and!.
  3:{ destruct (handleTestError_results "" source err w) as (suite & w' & ? & ? & _ & ?).
      by exists suite, w'. }
  - unfold runTest. rewrite (bind_Done (read GetCmdClient) _ w _ w eq_refl).
    destruct Hfail as [->|[-> Hcfg]]; [done|].
    by rewrite (bind_Done _ _ _ _ _ Hcfg).
  - unfold runTestGroup, runTestGroup_setup.
    rewrite (bind_Done (read GetCmdClient) _ w _ w eq_refl).
    destruct Hfail as [->|[-> Hcfg]]; [done|].
    by rewrite (bind_Done _ _ _ _ _ Hcfg).
Qed.

Lemma setup_failure_recorded_witness :
  runTest (P := faulty offline) "tests/a.feature" (faulty_world offline state0 options0)
  = handleTestError "" "tests/a.feature" (errors_New "no configuration has been provided")
      (faulty_world offline state0 options0)
  ∧ runTestGroup (P := faulty offline) "tests" (faulty_world offline state0 options0)
    = handleTestError "" "tests" (errors_New "no configuration has been provided")
        (faulty_world offline state0 options0).
Proof.
  split.
  - refine (proj1 (setup_failure_recorded (P := faulty offline) "tests/a.feature"
                     (faulty_world offline state0 options0) _ _)).
    by left.
  - refine (proj1 (proj2 (setup_failure_recorded (P := faulty offline) "tests"
                            (faulty_world offline state0 options0) _ _))).
    by left.
Defined.

(** ** The temporary namespace and the operator *)

Section Namespace.
Context {P : Platform}.

Lemma emits_any_applyRoles runConfig namespace roles err :
  frame (emits (λ _, True)) (applyRoles runConfig namespace roles err).
Proof.
  revert err. induction roles as [|role rest IH]; intros err; cbn [applyRoles]; frame_auto.
Qed.

Lemma emits_any_deployOperator ns runConfig :
  frame (emits (λ _, True)) (deployOperator ns runConfig).
Proof.
  pose proof emits_any_applyRoles. unfold deployOperator, setupOperator. frame_auto.
Qed.

Lemma deployOperator_result ns runConfig (w : World) r w' :
  deployOperator ns runConfig w = (Done r, w') → r.1.1 = Some ns ∧ r.2 = runConfig.
Proof.
  unfold deployOperator. intros (err & w1 & _ & Hrun)%bind_Done_inv.
  destruct err; [by injection Hrun as <- <-|].
  apply bind_Done_inv in Hrun as (err & w2 & _ & Hrun).
  by destruct err; injection Hrun as <- <-.
Qed.

Lemma initializeTempNamespace_run name (w : World) r w' :
  initializeTempNamespace name w = (Done r, w') →
  let obj := {| ns_Name := name; ns_Project := (IsOpenShift (sys w)).1 |} in
  r = (obj, (client_CreateNamespace obj (sys w)).1)
  ∧ trace w' = trace w ++ [EvCreateNamespace obj]
  ∧ opts w' = opts w.
Proof.
  unfold initializeTempNamespace.
  rewrite (bind_Done (read IsOpenShift) _ w _ w eq_refl).
  destruct (IsOpenShift (sys w)) as [oc [err|]]; [discriminate|]. cbn [fst].
  rewrite (bind_Done (Println _) _ w tt _ eq_refl).
  rewrite bind_unfold. unfold call. cbn [sys add_stdout].
  destruct (client_CreateNamespace _ (sys w)) as [err s]. cbn.
  by intros [= <- <-].
Qed.

End Namespace.

(** X4.  [createTempNamespace] names the namespace [yaks-<uuid>] and asks the
    cluster for it before anything else.  When that fails it returns no
    namespace, the error, and the run configuration as it was, and has
    called nothing else.  In every other case it returns the namespace,
    with or without an error, and the run configuration names it. *)
Theorem createTempNamespace_result {P : Platform} runConfig (w : World) r w' :
  createTempNamespace runConfig w = (Done r, w') →
  let name := "yaks-" +:+ (uuid_New (sys w)).1 in
  let s1 := (uuid_New (sys w)).2 in
  let obj := {| ns_Name := name; ns_Project := (IsOpenShift s1).1 |} in
  (∃ evs, trace w' = trace w ++ EvCreateNamespace obj :: evs)
  ∧ match r with
    | (Some ns, _, c) =>
        ns = obj ∧ c = with_Namespace_Name runConfig name
        ∧ (client_CreateNamespace obj s1).1 = None
    | (None, err, c) =>
        err = (client_CreateNamespace obj s1).1 ∧ err ≠ None ∧ c = runConfig
        ∧ trace w' = trace w ++ [EvCreateNamespace obj]
    end.
Proof.
  unfold createTempNamespace.
  rewrite (bind_Done get_opts _ w (opts w) w eq_refl).
  intros (u & w1 & Hu & Hrun)%bind_Done_inv.
  unfold effect in Hu. destruct (uuid_New (sys w)) as [u' s1] eqn:Eu.
  injection Hu as <- <-. cbn [fst snd].
  apply bind_Done_inv in Hrun as ([ns err] & w2 & Hinit & Hrun).
  apply initializeTempNamespace_run in Hinit as ([= -> ->] & Htrace & Hopts).
  cbn [sys set_sys trace] in *.
  set (obj := {| ns_Name := "yaks-" +:+ u'; ns_Project := (IsOpenShift s1).1 |}) in *.
  destruct (client_CreateNamespace obj s1).1 as [err|] eqn:Ecreate.
  { injection Hrun as <- <-. rewrite Htrace. split; [by exists []|done]. }
  assert (∃ evs, trace w' = trace w2 ++ evs ∧
                 r.1.1 = Some obj ∧ r.2 = with_Namespace_Name runConfig ("yaks-" +:+ u'))
    as (evs & Hevs & Hns & Hc).
  { revert Hrun.
    intros ([inst ierr] & w3 & Hfind & Hrun)%bind_Done_inv.
    assert (∃ evs, trace w3 = trace w2 ++ evs) as [evs3 Hevs3].
    { revert Hfind. unfold findInstance, call. destruct (client_GetInstance _ _).
      intros [= _ <-]. by eexists. }
    assert (∃ evs, trace w' = trace w3 ++ evs ∧
                   r.1.1 = Some obj ∧ r.2 = with_Namespace_Name runConfig ("yaks-" +:+ u'))
      as (evs & Hevs & ?).
    { destruct ierr as [ierr|].
      - destruct (IsNotFound ierr).
        + apply bind_Done_inv in Hrun as ([l lerr] & w4 & Hlist & Hrun).
          assert (∃ evs, trace w4 = trace w3 ++ evs) as [evs4 Hevs4].
          { revert Hlist. unfold listInstances, call. destruct (client_ListInstances _).
            intros [= _ <-]. by eexists. }
          destruct lerr; [injection Hrun as <- <-; by exists evs4|].
          destruct (existsb _ _); [injection Hrun as <- <-; by exists evs4|].
          apply bind_Done_inv in Hrun as ([] & w5 & Hprint & Hrun).
          assert (trace w5 = trace w4) as Hw5.
          { by destruct (Nat.eqb _ 0); injection Hprint as <-. }
          destruct (emits_any_deployOperator _ _ _ _ _ Hrun) as (evs & Hevs & _).
          apply deployOperator_result in Hrun. eexists. split; [|done].
          rewrite Hevs, Hw5, Hevs4. by rewrite <- app_assoc.
        + injection Hrun as <- <-. exists []. by rewrite app_nil_r.
      - destruct (IsGlobal inst);
          [injection Hrun as <- <-; exists []; by rewrite app_nil_r|].
        destruct (emits_any_deployOperator _ _ _ _ _ Hrun) as (evs & Hevs & _).
        apply deployOperator_result in Hrun. by eexists. }
    eexists. split; [|done]. rewrite Hevs, Hevs3. by rewrite <- app_assoc. }
  split.
  - eexists. rewrite Hevs, Htrace, <- app_assoc. done.
  - destruct r as [[[ns|] err] c]; cbn in Hns, Hc; [|done]. by injection Hns as ->.
Qed.

(** X5.  A global operator needs no installation: when the instance found in
    the namespace of the command is a global one, or when none is found
    there and a global one is among the instances of the cluster,
    [createTempNamespace] returns the new namespace without an error and
    has neither set up the cluster nor installed an operator nor applied a
    role. *)
Theorem createTempNamespace_global_operator {P : Platform} runConfig (w : World)
    u s1 oc s2 inst ierr s3 :
  let name := "yaks-" +:+ u in
  let obj := {| ns_Name := name; ns_Project := oc |} in
  let created :=
    {| sys := s2; stdout := stdout w ++ [("Creating new test namespace " +:+ name) +:+ nl];
       stderr := stderr w; trace := trace w ++ [EvCreateNamespace obj];
       opts := opts w; results := results w |} in
  uuid_New (sys w) = (u, s1) →
  IsOpenShift s1 = (oc, None) →
  client_CreateNamespace obj s1 = (None, s2) →
  client_GetInstance (o_Namespace (opts w)) s2 = ((inst, ierr), s3) →
  (ierr = None → IsGlobal inst = true →
   createTempNamespace runConfig w
   = (Done (Some obj, None, with_Namespace_Name runConfig name),
      after_calls created s3 [EvGetInstance (o_Namespace (opts w))]))
  ∧ (∀ e l s4,
      ierr = Some e → IsNotFound e = true →
      client_ListInstances s3 = ((l, None), s4) →
      existsb Operator_Global l = true →
      createTempNamespace runConfig w
      = (Done (Some obj, None, with_Namespace_Name runConfig name),
         after_calls created s4 [EvGetInstance (o_Namespace (opts w)); EvListInstances])).
Proof.
  intros name obj created Hu Hoc Hcreate Hfind.
  unfold createTempNamespace.
  rewrite (bind_Done get_opts _ w (opts w) w eq_refl).
  rewrite (bind_Done (effect uuid_New) _ w u (set_sys w s1)) by (unfold effect; by rewrite Hu).
  rewrite (bind_Done (initializeTempNamespace name) _ (set_sys w s1) (obj, None) created).
  2:{ unfold initializeTempNamespace.
      rewrite (bind_Done (read IsOpenShift) _ _ (oc, None) (set_sys w s1))
        by (unfold read; cbn; by rewrite Hoc).
      rewrite (bind_Done (Println _) _ _ tt _ eq_refl).
      rewrite (bind_Done (call _ _) _ _ None created); [done|].
      unfold call. cbn. fold obj. by rewrite Hcreate. }
  cbn beta iota.
  rewrite (bind_Done (findInstance _) _ created (inst, ierr)
             (after_calls created s3 [EvGetInstance (o_Namespace (opts w))]))
    by (unfold findInstance, call; cbn; by rewrite Hfind).
  split.
  - intros -> Hglobal. by rewrite Hglobal.
  - intros e l s4 -> Hnf Hlist Hex. rewrite Hnf.
    rewrite (bind_Done listInstances _ _ (l, None)
               (after_calls created s4 [EvGetInstance (o_Namespace (opts w)); EvListInstances])).
    2:{ unfold listInstances, call. cbn. rewrite Hlist. unfold after_calls. cbn.
        unfold add_trace, set_sys. cbn. by rewrite <- (app_assoc _ [_] [_]). }
    by rewrite Hex.
Qed.


Lemma uploadArtifacts_from_run {P : Platform} runConfig libs (w : World) :
  let out := uploadArtifacts_from runConfig libs w in
  ∃ err deps,
    out.1 = Done err
    ∧ Dependencies (opts out.2) = Dependencies (opts w) ++ deps
    ∧ with_Dependencies (opts out.2) [] = with_Dependencies (opts w) []
    ∧ trace out.2
      = trace w ++ ((λ lib, EvUpload (resolvePath runConfig lib) (Namespace_Name runConfig))
                    <$> take (length deps + (match err with Some _ => 1 | None => 0 end)) libs)
    ∧ match err with
      | None => length deps = length libs
      | Some _ => length deps < length libs
      end
    ∧ results out.2 = results w ∧ stdout out.2 = stdout w.
Proof.
  revert w. induction libs as [|lib rest IH]; intros w.
  - exists None, []. cbn. by rewrite !app_nil_r.
  - cbn [uploadArtifacts_from]. cbv zeta. rewrite bind_unfold. unfold call.
    destruct (uploadLocalArtifact _ _ (sys w)) as [[dep [err|]] s].
    + exists (Some err), []. cbn. rewrite app_nil_r. split_and!; try done. lia.
    + cbn beta iota. rewrite bind_unfold. cbn [get_opts]. rewrite bind_unfold. cbn [put_opts].
      match goal with |- context [uploadArtifacts_from runConfig rest ?w1] =>
        destruct (IH w1) as (err & deps & Hr & Hd & Ho & Ht & Hl & Hres & Hout) end.
      exists err, (dep :: deps). cbn in *.
      rewrite Hr, Hd, Ho, Ht, Hres, Hout. rewrite <- !app_assoc. split_and!; try done.
      destruct err; cbn; lia.
Qed.


(** X8.  [deleteTempNamespace] never reports a failure to its caller: when the
    cluster refuses the removal it writes a warning to the standard error,
    and in both cases it prints the AutoRemove line.  On OpenShift it
    removes the project of that name.  It panics when the cluster type
    cannot be told. *)
Theorem deleteTempNamespace_outcome {P : Platform} ns (w : World) :
  match IsOpenShift (sys w) with
  | (_, Some e) => deleteTempNamespace ns w = (Panic (Error e), w)
  | (oc, None) =>
      let '(err, s) := client_DeleteNamespace (ns_Name ns) oc (sys w) in
      deleteTempNamespace ns w
      = (Done tt,
         {| sys := s;
            stdout := stdout w ++ [("AutoRemove namespace " +:+ ns_Name ns) +:+ nl];
            stderr := stderr w ++ match err with
                                  | Some _ => ["WARN: Failed to AutoRemove namespace "
                                               +:+ ns_Name ns +:+ nl]
                                  | None => []
                                  end;
            trace := trace w ++ [EvDeleteNamespace (ns_Name ns) oc];
            opts := opts w; results := results w |})
  end.
Proof.
  unfold deleteTempNamespace. rewrite (bind_Done (read IsOpenShift) _ w _ w eq_refl).
  destruct (IsOpenShift (sys w)) as [oc [e|]]; [done|].
  rewrite bind_unfold. unfold call.
  destruct (client_DeleteNamespace _ _ (sys w)) as [[err|] s]; cbn; by rewrite ?app_nil_r.
Qed.

(** X9.  [runScript] runs nothing when the timeout does not parse: it returns
    the parse error, with no output.  An empty timeout stands for the
    default.  Otherwise it runs the resolved script once, through
    [powershell.exe] on Windows and [/bin/bash] elsewhere, in the base
    directory and with the namespace, and returns what the command
    returned, printing the failure if there is one. *)
Theorem runScript_outcome {P : Platform} scriptFile desc namespace baseDir timeout (w : World) :
  match ParseDuration (if String.eqb timeout "" then DefaultTimeout else timeout) with
  | (_, Some e) =>
      runScript scriptFile desc namespace baseDir timeout w = (Done (Some e), w)
  | (d, None) =>
      let executor :=
        if String.eqb (GOOS (host (sys w))) "windows" then "powershell.exe" else "/bin/bash" in
      let script := resolve (host (sys w)) scriptFile in
      let '(err, s) := command_Run executor script namespace baseDir d (sys w) in
      runScript scriptFile desc namespace baseDir timeout w
      = (Done err,
         {| sys := s;
            stdout := stdout w ++ (("Running " +:+ desc +:+ ":") +:+ nl)
                      :: match err with
                         | Some e => [("Failed to run " +:+ desc +:+ ": " +:+ nl +:+ Error e)
                                      +:+ nl]
                         | None => []
                         end;
            stderr := stderr w;
            trace := trace w ++ [EvExec executor script namespace baseDir d];
            opts := opts w; results := results w |})
  end.
Proof.
  unfold runScript.
  destruct (ParseDuration _) as [d [e|]]; [done|].
  rewrite (bind_Done (read host) _ w _ w eq_refl).
  rewrite (bind_Done (Println _) _ w tt _ eq_refl).
  rewrite bind_unfold. unfold call. cbn [sys add_stdout].
  destruct (command_Run _ _ _ _ _ (sys w)) as [[err|] s]; cbn beta iota; [|done].
  rewrite (bind_Done (Println _) _ _ tt _ eq_refl).
  unfold add_trace, set_sys, add_stdout. cbn. by rewrite <- app_assoc.
Qed.

Lemma createTempNamespace_result_witness :
  ∃ evs,
    trace (createTempNamespace (with_temporary Sim.defaults true true)
             (world_of (state_temporary None) options0)).2
    = trace (world_of (state_temporary None) options0)
      ++ EvCreateNamespace {| ns_Name := "yaks-0"; ns_Project := false |} :: evs.
Proof.
  refine (proj1 (createTempNamespace_result (P := sim)
                   (with_temporary Sim.defaults true true)
                   (world_of (state_temporary None) options0)
                   (Some {| ns_Name := "yaks-0"; ns_Project := false |}, None,
                    with_Namespace_Name (with_temporary Sim.defaults true true) "yaks-0")
                   _ _)).
  apply outcome_split. vm_compute. reflexivity.
Defined.

Lemma createTempNamespace_global_operator_witness :
  (createTempNamespace (with_temporary Sim.defaults true true)
     (world_of state_global options0)).1
  = Done (Some {| ns_Name := "yaks-0"; ns_Project := false |}, None,
          with_Namespace_Name (with_temporary Sim.defaults true true) "yaks-0").
Proof.
  pose proof (createTempNamespace_global_operator (P := sim)
                (with_temporary Sim.defaults true true) (world_of state_global options0)
                "0" (Sim.tick state_global) false
                (Sim.set_namespaces (Sim.tick state_global) [("yaks-0", false)])
                {| Instance_Namespace := "default"; Operator_Global := false |}
                (Some (Sim.api_error "NotFound" "yaks"))
                (Sim.set_namespaces (Sim.tick state_global) [("yaks-0", false)])
                eq_refl eq_refl eq_refl eq_refl) as [_ Hlisted].
  by rewrite (Hlisted _ _ _ eq_refl eq_refl eq_refl eq_refl).
Defined.


(** ** The Test resource that [createAndRunTest] builds *)

Section Built.
Context {P : Platform}.

Lemma appendResources_run runConfig resources test (w : World) test' w' :
  appendResources runConfig resources test w = (Done (test', None), w') →
  test' = with_Resources test
            (Resources (Spec test) ++ (resource_of runConfig (sys w) <$> resources))
  ∧ Forall (λ resource, readable (sys w) (resolvePath runConfig resource)) resources.
Proof.
  revert test. induction resources as [|resource rest IH]; intros test.
  - intros [= <- <-]. split; [|done]. cbn. rewrite app_nil_r. by destruct test as [? ? ? ? ? []].
  - cbn [appendResources]. rewrite (bind_Done (read _) _ w _ w eq_refl).
    destruct (loadData _ (sys w)) as [data [err|]] eqn:Eload; [discriminate|].
    intros [-> Hrest]%IH. split.
    + cbn. rewrite <- app_assoc. unfold resource_of at 2. by rewrite Eload.
    + constructor; [|done]. unfold readable. by rewrite Eload.
Qed.

Lemma appendResources_failed runConfig resources test (w : World) test' err w' :
  appendResources runConfig resources test w = (Done (test', Some err), w') →
  Exists (λ resource, ¬ readable (sys w) (resolvePath runConfig resource)) resources.
Proof.
  revert test. induction resources as [|resource rest IH]; intros test; [discriminate|].
  cbn [appendResources]. rewrite (bind_Done (read _) _ w _ w eq_refl).
  destruct (loadData _ (sys w)) as [data [e|]] eqn:Eload.
  - intros _. left. unfold readable. by rewrite Eload.
  - intros Hrest%IH. by right.
Qed.

Lemma setupEnvSettings_rest o test runConfig :
  with_Env (setupEnvSettings o test runConfig).1 [] = with_Env test [].
Proof.
  unfold setupEnvSettings. cbv zeta. cbn [fst].
  lazymatch goal with
  | |- with_Env (if nonempty ?e then _ else _) [] = _ => generalize e
  end.
  intros env. by destruct (nonempty env).
Qed.

Lemma buildTest_built rawName runConfig (w : World) test w' :
  buildTest rawName runConfig w = (Done (inr test), w') →
  let o := opts w in
  (readable (sys w) rawName
   ∧ Forall (λ resource, readable (sys w) (resolvePath runConfig resource))
       (resource_files o runConfig)
   ∧ Resources (Spec test) = resource_of runConfig (sys w) <$> resource_files o runConfig)
  ∧ (Kind test = TestKind ∧ APIVersion test = SchemeGroupVersion
     ∧ Namespace test = Namespace_Name runConfig ∧ Name test = SanitizeName rawName
     ∧ ResourceVersion test = "" ∧ Status test = TestStatus_zero
     ∧ Source (Spec test)
       = {| Source_Name := SanitizeFileName rawName;
            Source_Content := (loadData rawName (sys w)).1;
            Source_Language := LanguageGherkin |})
  ∧ (Dev (Spec test) = o_Dev o
     ∧ Secret (Spec test) = Runtime_Secret runConfig
     ∧ Selenium_Image (Spec test) = Runtime_Selenium_Image runConfig
     ∧ KubeDock_Image (Spec test)
       = if Runtime_TestContainers_Enabled runConfig then "joyrex2001/kubedock:0.7.0"
         else "").
Proof.
  unfold buildTest. rewrite (bind_Done get_opts _ w (opts w) w eq_refl).
  destruct (String.eqb _ ""); [discriminate|].
  intros (data & Hdata & Hrun)%or_fail_inr; [|apply reads_read].
  apply or_fail_inr in Hrun as (t1 & Ht1 & Hrun); [|apply reads_appendResources].
  apply or_fail_inr in Hrun as (t2 & Ht2 & Hrun); [|apply reads_appendResources].
  apply or_fail_inr in Hrun as (t3 & Ht3 & Hrun); [|apply reads_appendResources].
  apply or_fail_inr in Hrun as (settings & _ & Hrun); [|apply reads_newSettings].
  apply or_fail_inr in Hrun as (t4 & Ht4 & Hrun); [|apply reads_ret].
  apply mret_inv in Ht4 as [Hs _]. apply mret_inv in Hrun as [Ht _].
  apply appendResources_run in Ht1 as [-> Hr1].
  apply appendResources_run in Ht2 as [-> Hr2].
  apply appendResources_run in Ht3 as [-> Hr3].
  injection Hdata as Hdata.
  match type of Hs with setupEnvSettings ?o ?t ?c = _ =>
    pose proof (setupEnvSettings_rest o t c) as Hrest; rewrite Hs in Hrest end.
  cbn [fst] in Hrest. injection Ht as <-. clear Hs.
  cbv zeta. split_and!.
  - unfold readable. by rewrite Hdata.
  - unfold resource_files. by rewrite !Forall_app.
  - apply (f_equal (λ t, Resources (Spec t))) in Hrest. revert Hrest.
    destruct (String.eqb (Runtime_Secret runConfig) ""),
      (String.eqb (Runtime_Selenium_Image runConfig) ""),
      (Runtime_TestContainers_Enabled runConfig), (o_Dev (opts w)), settings;
      cbn; intros ->; unfold resource_files; by rewrite !fmap_app, <- ?app_assoc.
  - apply (f_equal Kind) in Hrest. revert Hrest. by repeat case_match.
  - apply (f_equal APIVersion) in Hrest. revert Hrest. by repeat case_match.
  - apply (f_equal Namespace) in Hrest. revert Hrest. by repeat case_match.
  - apply (f_equal Name) in Hrest. revert Hrest. by repeat case_match.
  - apply (f_equal ResourceVersion) in Hrest. revert Hrest. by repeat case_match.
  - apply (f_equal Status) in Hrest. revert Hrest. by repeat case_match.
  - apply (f_equal (λ t, Source (Spec t))) in Hrest. revert Hrest. rewrite Hdata.
    by repeat case_match.
  - apply (f_equal (λ t, Dev (Spec t))) in Hrest. revert Hrest.
    by repeat case_match.
  - apply (f_equal (λ t, Secret (Spec t))) in Hrest. revert Hrest.
    destruct (String.eqb (Runtime_Secret runConfig) "") eqn:E; [|by repeat case_match].
    apply String.eqb_eq in E as ->. by repeat case_match.
  - apply (f_equal (λ t, Selenium_Image (Spec t))) in Hrest. revert Hrest.
    destruct (String.eqb (Runtime_Selenium_Image runConfig) "") eqn:E; [|by repeat case_match].
    apply String.eqb_eq in E as ->. by repeat case_match.
  - apply (f_equal (λ t, KubeDock_Image (Spec t))) in Hrest. revert Hrest.
    by repeat case_match.
Qed.

End Built.

(** X10.  The Test that [createAndRunTest] builds carries one resource per file,
    in this order: the resources of the run configuration, the resources
    of the command line, the property files of the command line.  Each is
    named by the base name of its path and holds what the file, resolved
    against the run configuration, holds.  A Test is only built when the
    source and every one of these files could be read; with an empty dump
    format it is what [c.Create] is handed. *)
Theorem built_test_resources {P : Platform} rawName runConfig (w w1 : World) test :
  buildTest rawName runConfig w = (Done (inr test), w1) →
  Resources (Spec test) = resource_of runConfig (sys w) <$> resource_files (opts w) runConfig
  ∧ Resource_Name <$> Resources (Spec test) = path_Base <$> resource_files (opts w) runConfig
  ∧ readable (sys w) rawName
  ∧ Forall (λ resource, readable (sys w) (resolvePath runConfig resource))
      (resource_files (opts w) runConfig)
  ∧ (DumpFormat (opts w) = "" →
     ∀ r w', createAndRunTest rawName runConfig w = (r, w') →
             ∃ evs, trace w' = trace w ++ EvCreate test :: evs).
Proof.
  intros Hb. destruct (buildTest_built _ _ _ _ _ Hb) as ((Hread & Hall & Hres) & _).
  destruct (buildTest_inr _ _ _ _ _ Hb) as (-> & _).
  split_and!; try done.
  - rewrite Hres, <- list_fmap_compose. done.
  - intros Hd r w'. by apply createAndRunTest_first_call.
Qed.

Lemma built_test_resources_witness :
  Resource_Name <$> Resources (Spec test_resources)
  = path_Base (Platform := sim)
    <$> resource_files (opts (world_of state_resources options_resources)) config_resources.
Proof.
  refine (proj1 (proj2 (built_test_resources (P := sim) "tests/a.feature" config_resources
                          (world_of state_resources options_resources) _ test_resources _))).
  apply outcome_split. vm_compute. reflexivity.
Defined.

(** X11.  The Test that [createAndRunTest] builds is of the Test kind, in the
    namespace of the run configuration, named by the sanitized source path,
    with no resource version and an empty status.  Its source is the
    content of the file at the raw path, read as it is given and not
    resolved against the run configuration, under the sanitized file name
    and as Gherkin.  [Dev] follows the [--dev] option; the secret and the
    Selenium image are those of the run configuration; the KubeDock image
    is set exactly when test containers are enabled. *)
Theorem built_test_identity {P : Platform} rawName runConfig (w w1 : World) test :
  buildTest rawName runConfig w = (Done (inr test), w1) →
  (Kind test = TestKind ∧ APIVersion test = SchemeGroupVersion
   ∧ Namespace test = Namespace_Name runConfig ∧ Name test = SanitizeName rawName
   ∧ ResourceVersion test = "" ∧ Status test = TestStatus_zero
   ∧ Source (Spec test)
     = {| Source_Name := SanitizeFileName rawName;
          Source_Content := (loadData rawName (sys w)).1;
          Source_Language := LanguageGherkin |})
  ∧ (Dev (Spec test) = o_Dev (opts w)
     ∧ Secret (Spec test) = Runtime_Secret runConfig
     ∧ Selenium_Image (Spec test) = Runtime_Selenium_Image runConfig
     ∧ KubeDock_Image (Spec test)
       = if Runtime_TestContainers_Enabled runConfig then "joyrex2001/kubedock:0.7.0"
         else "").
Proof. intros Hb. by destruct (buildTest_built _ _ _ _ _ Hb) as (_ & ? & ?). Qed.

Lemma built_test_identity_witness :
  Name test_resources = Sim.sanitize (Sim.last_segment "tests/a.feature")
  ∧ KubeDock_Image (Spec test_resources) = "joyrex2001/kubedock:0.7.0".
Proof.
  destruct (built_test_identity (P := sim) "tests/a.feature" config_resources
              (world_of state_resources options_resources)
              (buildTest "tests/a.feature" config_resources
                 (world_of state_resources options_resources)).2 test_resources)
    as ((_ & _ & _ & Hname & _) & (_ & _ & _ & Hdock)).
  - apply outcome_split. vm_compute. reflexivity.
  - split; [exact Hname | exact Hdock].
Defined.

(** X12.  When the source, or a resource or property file of the test, cannot be
    read, [createAndRunTest] returns an error and no test, and the world it
    leaves is the world it found: no cluster call, no output. *)
Theorem createAndRunTest_unreadable {P : Platform} rawName runConfig (w : World) :
  ¬ readable (sys w) rawName
  ∨ Exists (λ resource, ¬ readable (sys w) (resolvePath runConfig resource))
      (resource_files (opts w) runConfig) →
  ∃ err, createAndRunTest rawName runConfig w = (Done (None, Some err), w).
Proof.
  intros Hbad. destruct (reads_buildTest rawName runConfig w) as [[err|test] Hb].
  { exists err. by apply createAndRunTest_build_failed. }
  destruct (buildTest_built _ _ _ _ _ Hb) as ((Hread & Hall & _) & _).
  destruct Hbad as [Hbad|Hbad]; [done|].
  apply Exists_exists in Hbad as (resource & Hin & Hbad).
  rewrite Forall_forall in Hall. by apply Hall in Hin.
Qed.

Lemma createAndRunTest_unreadable_witness :
  ∃ err, createAndRunTest "tests/b.feature" config0 world0 = (Done (None, Some err), world0).
Proof.
  apply (createAndRunTest_unreadable (P := sim) "tests/b.feature" config0 world0).
  left. unfold readable. vm_compute. discriminate.
Defined.

Section Await.
Context {P : Platform}.

(** What [awaitTest] does outside the dev mode: the watcher, then the logs
    of a waiting invocation, then the line that reports the outcome. *)
Lemma awaitTest_watched test name namespace runConfig (w : World) :
  o_Dev (opts w) = false →
  let timeout := watcherTimeout (opts w) runConfig in
  let polled := poll (ObjectKeyFromObject test) timeout.1 (sys w) in
  let watched := WaitCondition phaseCondition polled.1 test TestPhaseNew in
  let w1 :=
    {| sys := polled.2;
       stdout := stdout w ++ match timeout.2 with
                             | Some line => [line +:+ nl]
                             | None => []
                             end;
       stderr := stderr w;
       trace := trace w ++ [EvWait (ObjectKeyFromObject test) timeout.1];
       opts := opts w; results := results w |} in
  awaitTest test name namespace runConfig w
  = if Logs (opts w) && Wait (opts w) then
      match log_Print namespace name polled.2 with
      | (Some e, s) => (Done (None, Some e), add_trace (set_sys w1 s) (EvLogs namespace name))
      | (None, s) =>
          (Done (Some watched.1.2, AsError watched.2 name),
           add_stdout (add_trace (set_sys w1 s) (EvLogs namespace name))
             (("Test '" +:+ name +:+ "' finished with status: "
               +:+ phase_string watched.2) +:+ nl))
      end
    else
      (Done (Some watched.1.2, AsError watched.2 name),
       add_stdout w1
         ((if Wait (opts w)
           then "Test '" +:+ name +:+ "' finished with status: " +:+ phase_string watched.2
           else "Test '" +:+ name +:+ "' started") +:+ nl)).
Proof.
  intros Hdev timeout polled watched w1. unfold awaitTest.
  rewrite (bind_Done get_opts _ w (opts w) w eq_refl). rewrite Hdev.
  destruct (watchPhase_run runConfig test TestPhaseNew w timeout.1 timeout.2)
    as (seen & s & Hpoll & Hwatch); [by destruct (watcherTimeout _ _)|].
  assert (polled = (seen, s)) as Hpolled by exact Hpoll.
  rewrite (bind_Done _ _ _ _ _ Hwatch). subst w1 watched. rewrite Hpolled.
  cbn [fst snd opts]. destruct (Logs (opts w) && Wait (opts w)) eqn:Hlw.
  - rewrite bind_unfold. unfold call. cbn [sys].
    destruct (log_Print namespace name s) as [[e|] s2]; [done|].
    apply andb_prop in Hlw as [_ ->]. by rewrite bind_unfold.
  - rewrite (bind_Done (mret None) _ _ None _ eq_refl).
    destruct (Wait (opts w)); by rewrite bind_unfold.
Qed.

End Await.



(** X14.  When the logs of the test cannot be printed, a waiting invocation
    returns that error and no test, although the Test was created and the
    watcher started: what the watcher comes to see is not reported.  After
    the creation of the Test the calls are the watcher's and the request
    for the logs, which are made by different goroutines, in one order or
    the other. *)
Theorem createAndRunTest_logs_fail {P : Platform} rawName runConfig (w : World) test e :
  DumpFormat (opts w) = "" →
  Wait (opts w) = true →
  Logs (opts w) = true →
  o_Dev (opts w) = false →
  (buildTest rawName runConfig w).1 = Done (inr test) →
  (client_Create test (sys w)).1.2 = None →
  let created := (client_Create test (sys w)).1.1 in
  let timeout := watcherTimeout (opts w) runConfig in
  let polled := poll (ObjectKeyFromObject created) timeout.1 (client_Create test (sys w)).2 in
  (log_Print (Namespace_Name runConfig) (SanitizeName rawName) polled.2).1 = Some e →
  let out := createAndRunTest rawName runConfig w in
  out.1 = Done (None, Some e)
  ∧ (∃ evs,
        trace out.2 = trace w ++ EvCreate test :: evs
        ∧ evs ≡ₚ [EvWait (ObjectKeyFromObject created) timeout.1;
                  EvLogs (Namespace_Name runConfig) (SanitizeName rawName)])
  ∧ stdout out.2
    = stdout w
      ++ (("Test '" +:+ SanitizeName rawName +:+ "' created") +:+ nl)
         :: match timeout.2 with
            | Some line => [line +:+ nl]
            | None => []
            end
  ∧ stderr out.2 = stderr w ∧ opts out.2 = opts w ∧ results out.2 = results w.
Proof.
  intros Hd Hwait Hlogs Hdev Hb Hcreate.
  assert (buildTest rawName runConfig w = (Done (inr test), w)) as Hbuilt.
  { destruct (reads_buildTest rawName runConfig w) as [a Ha].
    rewrite Ha in Hb |- *. cbn in Hb. by injection Hb as ->. }
  destruct (client_Create test (sys w)) as [[t1 err] s1] eqn:Ecreate.
  cbn in Hcreate. subst err. cbn [fst snd]. cbv zeta. intros Hlog.
  rewrite (createAndRunTest_submit _ _ _ _ Hd Hbuilt), (submitTest_created _ _ _ _ Ecreate).
  rewrite awaitTest_watched by done.
  cbn [opts sys stdout stderr trace results add_stdout after_calls].
  rewrite Hwait, Hlogs. cbn [andb].
  destruct (log_Print _ _ _) as [lerr s2]. cbn in Hlog. subst lerr.
  unfold add_trace, set_sys. cbn [opts sys stdout stderr trace results fst snd].
  split_and!; try done.
  - eexists. split; [by rewrite <- !app_assoc|]. done.
  - by rewrite <- !app_assoc.
Qed.

Lemma createAndRunTest_logs_fail_witness :
  (createAndRunTest (P := faulty mute) "tests/a.feature" config0
     (faulty_world mute state0 options0)).1
  = Done (None, Some (errors_New "container is not ready")).
Proof.
  apply (createAndRunTest_logs_fail (P := faulty mute) "tests/a.feature" config0
           (faulty_world mute state0 options0) test_a
           (errors_New "container is not ready")
           eq_refl eq_refl eq_refl eq_refl eq_refl eq_refl eq_refl).
Defined.

(** ** Conditions and steps *)

Lemma genSplit_nonempty sep skip cur s : strings.genSplit sep skip cur s ≠ [].
Proof.
  revert skip cur. induction s as [|c s IH]; intros skip cur; [done|].
  cbn [strings.genSplit]. destruct skip; [|apply IH].
  destruct (strings.HasPrefix _ _); [done | apply IH].
Qed.

Lemma keyValueOf_key condition : is_Some (keyValueOf condition !! 0%nat).
Proof.
  unfold keyValueOf. destruct (strings.Contains _ _); [|by eexists].
  unfold strings.Split.
  destruct (strings.genSplit "=" 0 "" condition) eqn:E; [|by eexists].
  by apply genSplit_nonempty in E.
Qed.

Lemma skipStep_body_unrecognised h condition :
  recognised condition = false → skipStep_body h false condition = Some (IterNext false).
Proof.
  unfold recognised, skipStep_body. destruct (keyValueOf_key condition) as [k0 ->].
  intros [Hos Henv]%orb_false_elim. cbn [mbind option_bind]. by rewrite Hos, Henv.
Qed.

Lemma skipStep_body_next h condition sk :
  skipStep_body h false condition = Some (IterNext sk) → sk = false.
Proof.
  unfold skipStep_body.
  destruct (keyValueOf condition !! 0%nat) as [k0|]; [|done]. cbn [mbind option_bind].
  destruct (String.eqb k0 "os") eqn:Eos.
  - apply String.eqb_eq in Eos as ->.
    destruct (keyValueOf condition !! 1%nat) as [v|]; [|done]. cbn.
    by destruct (negb _); intros [= <-].
  - cbn [mbind option_bind]. destruct (strings.HasPrefix k0 "env:"); [|by intros [= <-]].
    destruct (LookupEnv h _); [|done]. destruct (Nat.eqb _ 1); [by intros [= <-]|].
    destruct (keyValueOf condition !! 1%nat) as [v|]; [|done]. cbn.
    by destruct (negb _); intros [= <-].
Qed.

Lemma skipStep_loop_app h pre rest :
  skipStep_loop h false pre = Some false →
  skipStep_loop h false (pre ++ rest) = skipStep_loop h false rest.
Proof.
  induction pre as [|c pre IH]; [done|]. cbn [app skipStep_loop].
  destruct (skipStep_body h false c) as [[b|sk]|] eqn:E; cbn;
    [|by apply skipStep_body_next in E as ->|done].
  intros [= ->]. revert E. unfold skipStep_body.
  destruct (keyValueOf c !! 0%nat) as [k0|]; [|done]. cbn [mbind option_bind].
  destruct (if String.eqb k0 "os" then _ else _) as [s1|]; [|done]. cbn [mbind option_bind].
  destruct (strings.HasPrefix k0 "env:").
  - destruct (LookupEnv h _); [|done]. destruct (Nat.eqb _ 1); [done|].
    destruct (keyValueOf c !! 1%nat) as [v|]; [|done]. cbn. by destruct (negb _).
  - by destruct s1.
Qed.

(** X15.  [skipStep] looks only at the clauses whose key is [os] or starts with
    [env:]: any other clause is passed over, so the verdict on a condition
    is the verdict on its recognised clauses, and a condition with no
    recognised clause never skips the step. *)
Theorem skipStep_ignores_unknown :
  (∀ h conditions,
      skipStep_loop h false conditions = skipStep_loop h false (filter recognised conditions))
  ∧ (∀ h step step',
      step_If step ≠ "" → step_If step' ≠ "" →
      strings.Split (step_If step') " && "
      = filter recognised (strings.Split (step_If step) " && ") →
      skipStep h step = skipStep h step')
  ∧ (∀ h step,
      Forall (λ condition, recognised condition = false)
        (strings.Split (step_If step) " && ") →
      skipStep h step = Some false).
Proof.
  assert (Hloop : ∀ h conditions,
             skipStep_loop h false conditions
             = skipStep_loop h false (filter recognised conditions)).
  { intros h conditions. induction conditions as [|c rest IH]; [done|].
    rewrite filter_cons. destruct (decide (recognised c)) as [Hc|Hc].
    - cbn [skipStep_loop].
      destruct (skipStep_body h false c) as [[b|sk]|] eqn:E; cbn; [done| |done].
      by apply skipStep_body_next in E as ->.
    - apply Is_true_false in Hc. cbn [skipStep_loop].
      by rewrite (skipStep_body_unrecognised _ _ Hc). }
  split_and!; [done| |].
  - intros h step step' Hne Hne' Hsplit. unfold skipStep.
    apply String.eqb_neq in Hne, Hne'. by rewrite Hne, Hne', Hsplit, <- Hloop.
  - intros h step Hall. unfold skipStep. destruct (String.eqb _ ""); [done|].
    rewrite Hloop. replace (filter _ _) with (@nil string); [done|].
    symmetry. induction Hall as [|c rest Hc _ IH]; [done|].
    rewrite filter_cons. destruct (decide (recognised c)) as [Hc'|_]; [|done].
    by rewrite Hc in Hc'.
Qed.

Lemma skipStep_ignores_unknown_witness :
  skipStep linux (mkStep "debug && foo=bar") = Some false.
Proof.
  destruct skipStep_ignores_unknown as (_ & _ & Hnone). apply Hnone.
  vm_compute. repeat constructor.
Defined.

Section Skipping.
Context {P : Platform}.

Lemma runSteps_from_panics idx step rest namespace baseDir (w : World) :
  skipStep (host (sys w)) step = None →
  runSteps_from idx (step :: rest) namespace baseDir w = (Panic "index out of range", w).
Proof.
  intros Hskip. cbn [runSteps_from]. cbv zeta.
  rewrite (bind_Done (read host) _ w _ w eq_refl).
  replace (skipStep (host (sys w)) _) with (@None bool); [done|].
  by destruct (Nat.eqb _ 0).
Qed.

Lemma runSteps_from_skipped idx steps namespace baseDir (w : World) :
  Forall (λ step, skipStep (host (sys w)) step = Some true) steps →
  runSteps_from idx steps namespace baseDir w
  = (Done None,
     {| sys := sys w;
        stdout := stdout w
                  ++ imap (λ i step, ("Skip " +:+ step_name (idx + i) step) +:+ nl) steps;
        stderr := stderr w; trace := trace w; opts := opts w; results := results w |}).
Proof.
  intros Hall. revert idx w Hall. induction steps as [|step rest IH]; intros idx w Hall.
  - cbn. rewrite app_nil_r. by destruct w.
  - apply Forall_cons in Hall as [Hstep Hrest].
    cbn [runSteps_from]. cbv zeta.
    rewrite (bind_Done (read host) _ w _ w eq_refl).
    replace (skipStep (host (sys w)) _) with (Some true)
      by (by destruct (Nat.eqb _ 0)).
    rewrite (bind_Done (Println _) _ w tt _ eq_refl).
    rewrite IH by done. cbn [sys stdout stderr trace opts results add_stdout imap].
    rewrite <- app_assoc. cbn [app]. rewrite Nat.add_0_r.
    replace (step_Name (if Nat.eqb (String.length (step_Name step)) 0
                        then step_with_Name step ("step-" +:+ pretty idx) else step))
      with (step_name idx step) by (unfold step_name; by destruct (Nat.eqb _ 0)).
    do 3 f_equal. f_equal. apply imap_ext. intros i s _. cbn. by rewrite Nat.add_succ_r.
Qed.

End Skipping.

(** X16.  A clause [os] with no value stops the run: when the clauses before it
    pass, [skipStep] indexes past the end of the split clause, and
    [runSteps] panics on that step, before it has run anything of it. *)
Theorem bare_os_clause_panics {P : Platform} :
  (∀ h pre rest,
      skipStep_loop h false pre = Some false →
      skipStep_loop h false (pre ++ "os" :: rest) = None)
  ∧ (∀ idx step rest namespace baseDir (w : World),
      skipStep (host (sys w)) step = None →
      runSteps_from idx (step :: rest) namespace baseDir w
      = (Panic "index out of range", w)).
Proof.
  split.
  - intros h pre rest Hpre. by rewrite (skipStep_loop_app _ _ _ Hpre).
  - intros. by apply runSteps_from_panics.
Qed.

Lemma bare_os_clause_panics_witness :
  skipStep_loop linux false (["env:FOO"] ++ "os" :: ["os=linux"]) = None.
Proof.
  destruct (bare_os_clause_panics (P := sim)) as [Hloop _]. apply Hloop. reflexivity.
Defined.

(** X17.  Steps that are skipped run nothing: [runSteps] prints one Skip line for
    each, under its name or under [step-<index>] when it has none, returns
    no error, and leaves everything but the output as it was. *)
Theorem runSteps_skipped {P : Platform} steps namespace baseDir (w : World) :
  Forall (λ step, skipStep (host (sys w)) step = Some true) steps →
  runSteps steps namespace baseDir w
  = (Done None,
     {| sys := sys w;
        stdout := stdout w ++ imap (λ i step, ("Skip " +:+ step_name i step) +:+ nl) steps;
        stderr := stderr w; trace := trace w; opts := opts w; results := results w |}).
Proof. intros Hall. unfold runSteps. by rewrite runSteps_from_skipped. Qed.

Lemma runSteps_skipped_witness :
  (runSteps [{| step_Name := ""; step_Script := "install.ps1"; step_Run := "";
                step_If := "os=windows"; step_Timeout := "" |}] "default" "tests" world0).1
  = Done None.
Proof.
  rewrite (runSteps_skipped (P := sim)); [reflexivity|].
  constructor; [reflexivity | constructor].
Defined.

(** ** The temporary scripts of [runSteps] *)

Section Scripts.
Context {P : Platform}.

Lemma removed_files_app evs evs' :
  removed_files (evs ++ evs') = removed_files evs ++ removed_files evs'.
Proof. apply omap_app. Qed.

Lemma written_files_app evs evs' :
  written_files (evs ++ evs') = written_files evs ++ written_files evs'.
Proof. apply omap_app. Qed.

Lemma spares_removed file evs : Forall (spares file) evs → removed_files evs = [].
Proof. induction 1 as [|[] ? ? ?]; cbn; done. Qed.

Lemma spares_written file evs f :
  Forall (spares file) evs → f ∈ written_files evs → file = Some f.
Proof.
  induction 1 as [|ev evs Hev _ IH]; cbn; [by intros ?%elem_of_nil|].
  destruct ev; cbn; try done. intros [->|?]%elem_of_cons; [done | by apply IH].
Qed.

Lemma tidy_refl (w : World) : tidy w w.
Proof. exists [], []. cbn. by rewrite app_nil_r. Qed.

Lemma tidy_after (w w1 w' : World) : emits (spares None) w w1 → tidy w1 w' → tidy w w'.
Proof.
  intros (evs & Hevs & Hsp) (body & files & Ht & Hr & Hw).
  exists (evs ++ body), files. split_and!.
  - by rewrite Ht, Hevs, <- !app_assoc.
  - by rewrite removed_files_app, Hr, (spares_removed _ _ Hsp).
  - intros file. rewrite Hw, written_files_app, elem_of_app. split; [by right|].
    intros [Hin|Hin]; [|done]. by apply (spares_written _ _ _ Hsp) in Hin.
Qed.

Lemma leads_tidy {A} (m : M A) : leads None m → frame tidy m.
Proof. intros Hm w r w' (w1 & Hpre & Ht)%Hm. by eapply tidy_after. Qed.

Lemma leads_ret {A} file (a : A) : leads file (mret a).
Proof. intros w r w' [= <- <-]. exists w. split; [apply emits_refl | apply tidy_refl]. Qed.

Lemma leads_panic {A} file reason : leads file (@panic P A reason).
Proof. intros w r w' [= <- <-]. exists w. split; [apply emits_refl | apply tidy_refl]. Qed.

Lemma leads_frame {A} file (m : M A) : frame tidy m → leads file m.
Proof. intros Hm w r w' Hrun. exists w. split; [apply emits_refl | by eapply Hm]. Qed.

Lemma leads_bind {A B} file (m : M A) (f : A → M B) :
  frame (emits (spares file)) m → (∀ a, leads file (f a)) → leads file (m ≫= f).
Proof.
  intros Hm Hf w r w'. rewrite bind_unfold. destruct (m w) as [[a|reason] w1] eqn:Em.
  - intros (w2 & Hpre & Ht)%Hf. exists w2. split; [|done].
    eapply emits_trans; [by eapply Hm | done].
  - intros [= <- <-]. exists w1. split; [by eapply Hm | apply tidy_refl].
Qed.

Lemma spares_runScript file scriptFile desc namespace baseDir timeout :
  frame (emits (spares file)) (runScript scriptFile desc namespace baseDir timeout).
Proof.
  unfold runScript. destruct (ParseDuration _) as [d [err|]]; [apply frame_ret, emits_refl|].
  apply frame_bind; [apply emits_trans | apply frame_read, emits_refl |]. intros h.
  apply frame_bind; [apply emits_trans | apply emits_Println |]. intros _.
  apply frame_bind; [apply emits_trans | by apply emits_call |]. intros [err|].
  - apply frame_bind; [apply emits_trans | apply emits_Println |]. intros _.
    apply frame_ret, emits_refl.
  - apply frame_ret, emits_refl.
Qed.

Lemma leads_or_return file err (k : M (option error)) :
  leads file k → leads file (or_return err k).
Proof. intros Hk. destruct err; [apply leads_ret | done]. Qed.

(** The script of an inline command is removed when the steps after it are
    done. *)
Lemma tidy_defer_remove file data (rest : option error → M (option error)) :
  (∀ err, leads (Some file) (rest err)) →
  frame tidy (defer (call_ (EvRemove file) (Remove file))
                (call (EvWriteString file data) (WriteString file data) ≫= rest)).
Proof.
  intros Hrest w r w'. unfold defer. rewrite bind_unfold. unfold call at 1.
  destruct (WriteString file data (sys w)) as [err s].
  destruct (rest err _) as [r1 w1] eqn:Erest.
  apply Hrest in Erest as (w2 & (evs & Hevs & Hsp) & (body & files & Ht & Hr & Hw)).
  unfold call_. intros [= <- <-]. cbn [trace add_trace set_sys] in *.
  exists ((EvWriteString file data :: evs) ++ body), (files ++ [file]). split_and!.
  - cbn [trace add_trace set_sys]. rewrite Ht, Hevs, fmap_app, <- !app_assoc. done.
  - rewrite removed_files_app, Hr.
    change (removed_files (EvWriteString file data :: evs)) with (removed_files evs).
    by rewrite (spares_removed _ _ Hsp).
  - intros f.
    rewrite elem_of_app, Hw, written_files_app, elem_of_app, (elem_of_cons [] f file),
      elem_of_nil.
    change (written_files (EvWriteString file data :: evs))
      with (file :: written_files evs).
    rewrite elem_of_cons. split; [naive_solver|].
    intros [[->|Hin]|Hin]; [by right; left| |by left].
    apply (spares_written _ _ _ Hsp) in Hin. injection Hin as ->. by right; left.
Qed.

Lemma tidy_runSteps_from idx steps namespace baseDir :
  frame tidy (runSteps_from idx steps namespace baseDir).
Proof.
  revert idx. induction steps as [|step rest IH]; intros idx.
  { intros w r w' [= <- <-]. apply tidy_refl. }
  cbn [runSteps_from]. cbv zeta. apply leads_tidy.
  apply leads_bind; [apply frame_read, emits_refl|]. intros h.
  destruct (skipStep h _) as [[]|]; [| |apply leads_panic].
  { apply leads_bind; [apply emits_Println|]. intros _. apply leads_frame, IH. }
  assert (Hrun : leads None (runSteps_run idx
                   (if Nat.eqb (String.length (step_Name step)) 0
                    then step_with_Name step ("step-" +:+ pretty idx) else step)
                   namespace baseDir (runSteps_from (S idx) rest namespace baseDir))).
  { unfold runSteps_run. destruct (nonempty_string _); [|apply leads_frame, IH].
    apply leads_bind; [by apply emits_call|]. intros [file err].
    apply leads_or_return, leads_frame, tidy_defer_remove. intros err1.
    apply leads_or_return, leads_bind; [by apply emits_call|]. intros err2.
    apply leads_or_return, leads_bind; [by apply emits_call|]. intros err3.
    apply leads_or_return, leads_bind; [by apply emits_call|]. intros err4.
    apply leads_or_return, leads_bind; [apply spares_runScript|]. intros [err5|].
    - apply leads_ret.
    - apply leads_frame, IH. }
  unfold runSteps_script. destruct (nonempty_string _); [|done].
  apply leads_bind; [apply spares_runScript|]. intros [err|]; [apply leads_ret | done].
Qed.

End Scripts.

(** X18.  [runSteps] leaves no script behind.  The temporary script that it
    writes for an inline command is removed when [runSteps] returns, not
    when the step is done: whatever the steps do, a failure or a panic
    included, the calls that [runSteps] makes end with the removal of
    exactly the files it has written to, and no file is removed before. *)
Theorem runSteps_removes_scripts {P : Platform} steps namespace baseDir (w : World) :
  let w' := (runSteps steps namespace baseDir w).2 in
  ∃ body files,
    trace w' = trace w ++ body ++ (EvRemove <$> files)
    ∧ removed_files body = []
    ∧ ∀ file, file ∈ files ↔ file ∈ written_files body.
Proof.
  cbv zeta. destruct (runSteps steps namespace baseDir w) as [r w'] eqn:Hrun.
  by apply tidy_runSteps_from in Hrun.
Qed.

(** ** [resolve]: the placeholders of a script name *)


Lemma Contains_char_cons c a s :
  strings.Contains (String a s) (String c "")
  = Ascii.eqb c a || strings.Contains s (String c "").
Proof. cbn. by rewrite andb_true_r. Qed.

Lemma Contains_char_app c s t :
  strings.Contains (s +:+ t) (String c "")
  = strings.Contains s (String c "") || strings.Contains t (String c "").
Proof.
  induction s as [|a s IH]; [by destruct t|].
  rewrite append_cons, !Contains_char_cons, IH. by rewrite orb_assoc.
Qed.

Lemma braceless_app s t : braceless (s +:+ t) ↔ braceless s ∧ braceless t.
Proof. unfold braceless. rewrite Contains_char_app. apply orb_false_iff. Qed.

(** A separator whose first character does not occur splits nothing. *)
Lemma genSplit_free a sep cur s :
  strings.Contains s (String a "") = false →
  strings.genSplit (String a sep) 0 cur s = [cur +:+ s].
Proof.
  revert cur. induction s as [|b s IH]; intros cur.
  - intros _. cbn. by rewrite append_empty_r.
  - rewrite Contains_char_cons. intros [Hb Hs]%orb_false_elim.
    cbn [strings.genSplit strings.HasPrefix]. rewrite Hb. cbn [andb].
    rewrite IH by done. by rewrite append_snoc.
Qed.

Lemma HasPrefix_app sep post : strings.HasPrefix (sep +:+ post) sep = true.
Proof.
  induction sep as [|a sep IH]; [done|].
  rewrite append_cons. cbn [strings.HasPrefix]. by rewrite Ascii.eqb_refl, IH.
Qed.

Lemma genSplit_skip sep skipped cur post :
  strings.genSplit sep (String.length skipped) cur (skipped +:+ post)
  = strings.genSplit sep 0 cur post.
Proof.
  induction skipped as [|a skipped IH]; [done|].
  rewrite append_cons. cbn [String.length strings.genSplit]. apply IH.
Qed.

(** Up to the first occurrence of the separator, when its first character
    does not occur before. *)
Lemma genSplit_first a sep cur pre post :
  strings.Contains pre (String a "") = false →
  strings.genSplit (String a sep) 0 cur (pre +:+ String a sep +:+ post)
  = (cur +:+ pre) :: strings.genSplit (String a sep) 0 "" post.
Proof.
  revert cur. induction pre as [|b pre IH]; intros cur.
  - intros _. rewrite append_empty_r.
    change ("" +:+ String a sep +:+ post) with (String a (sep +:+ post)).
    cbn [strings.genSplit].
    change (String a (sep +:+ post)) with (String a sep +:+ post) at 1.
    rewrite HasPrefix_app.
    replace (String.length (String a sep) - 1) with (String.length sep) by (cbn; lia).
    by rewrite genSplit_skip.
  - rewrite Contains_char_cons. intros [Hb Hpre]%orb_false_elim.
    rewrite append_cons. cbn [strings.genSplit strings.HasPrefix]. rewrite Hb. cbn [andb].
    rewrite IH by done. by rewrite append_snoc.
Qed.

Lemma ReplaceAll_free a old new s :
  strings.Contains s (String a "") = false → ReplaceAll s (String a old) new = s.
Proof. intros Hs. unfold ReplaceAll, strings.Split. by rewrite genSplit_free. Qed.

Lemma ReplaceAll_first a old new pre post :
  strings.Contains pre (String a "") = false → strings.Contains post (String a "") = false →
  ReplaceAll (pre +:+ String a old +:+ post) (String a old) new = pre +:+ new +:+ post.
Proof.
  intros Hpre Hpost. unfold ReplaceAll, strings.Split.
  by rewrite genSplit_first, genSplit_free.
Qed.



(** ** The reports of [run] *)

Section Reports.
Context {P : Platform}.

Local Ltac quiet_call := apply emits_call; exact I.
Local Ltac quiet :=
  repeat first
    [ apply frame_ret, emits_refl
    | apply frame_panic, emits_refl
    | apply frame_read, emits_refl
    | apply frame_get_opts, emits_refl
    | apply frame_get_results, emits_refl
    | apply emits_Println | apply emits_Print | apply emits_Eprint
    | apply emits_effect | apply emits_put_opts | apply emits_append_suite
    | quiet_call
    | apply emits_call_; exact I
    | assumption
    | match goal with
      | H : ∀ _, frame _ _ |- _ => apply H
      | H : ∀ _ _, frame _ _ |- _ => apply H
      | H : ∀ _ _ _, frame _ _ |- _ => apply H
      | H : ∀ _ _ _ _, frame _ _ |- _ => apply H
      | H : ∀ _ _ _ _ _, frame _ _ |- _ => apply H
      end
    | apply frame_bind; [apply emits_trans | | intros]
    | apply frame_defer; [apply emits_trans | | ]
    | match goal with
      | |- frame _ (match ?x with _ => _ end) => destruct x
      | |- frame _ (if ?c then _ else _) => destruct c
      | |- frame _ (or_return ?e _) => destruct e
      | |- frame _ (or_fail _ _) => unfold or_fail
      | |- frame _ (let '(_, _) := ?x in _) => destruct x
      end ].

Lemma unreported_hook ev : of_class [ClHook] ev → unreported ev.
Proof. by destruct ev. Qed.

Lemma unreported_test ev : of_class [ClTest; ClWatch] ev → unreported ev.
Proof. by destruct ev. Qed.

Lemma unreported_upload ev : of_class [ClUpload] ev → unreported ev.
Proof. by destruct ev. Qed.

Lemma quiet_runSteps steps namespace baseDir :
  frame (emits unreported) (runSteps steps namespace baseDir).
Proof. eapply emits_weaken; [apply unreported_hook | apply emits_runSteps]. Qed.

Lemma quiet_createAndRunTest rawName runConfig :
  frame (emits unreported) (createAndRunTest rawName runConfig).
Proof. eapply emits_weaken; [apply unreported_test | apply emits_createAndRunTest]. Qed.

Lemma quiet_uploadArtifacts runConfig : frame (emits unreported) (uploadArtifacts runConfig).
Proof. eapply emits_weaken; [apply unreported_upload | apply emits_uploadArtifacts]. Qed.

Lemma quiet_handleTestResult test suite :
  frame (emits unreported) (handleTestResult test suite).
Proof. unfold handleTestResult. quiet. Qed.

Lemma quiet_handleTestError namespace source err :
  frame (emits unreported) (handleTestError namespace source err).
Proof. pose proof quiet_handleTestResult. unfold handleTestError. quiet. Qed.

Lemma quiet_recordOutcome namespace name test err :
  frame (emits unreported) (recordOutcome namespace name test err).
Proof.
  pose proof quiet_handleTestResult. pose proof quiet_handleTestError.
  unfold recordOutcome. quiet.
Qed.

Lemma quiet_getRunConfig source : frame (emits unreported) (getRunConfig source).
Proof. unfold getRunConfig. quiet. Qed.

Lemma quiet_deleteTempNamespace ns : frame (emits unreported) (deleteTempNamespace ns).
Proof. unfold deleteTempNamespace. quiet. Qed.

Lemma quiet_applyRoles runConfig namespace roles err :
  frame (emits unreported) (applyRoles runConfig namespace roles err).
Proof.
  revert err. induction roles as [|role rest IH]; intros err; cbn [applyRoles]; quiet.
Qed.

Lemma quiet_createTempNamespace runConfig :
  frame (emits unreported) (createTempNamespace runConfig).
Proof.
  pose proof quiet_applyRoles.
  unfold createTempNamespace, initializeTempNamespace, findInstance, listInstances,
    deployOperator, setupOperator.
  quiet.
Qed.

Lemma quiet_runTest_main source runConfig :
  frame (emits unreported) (runTest_main source runConfig).
Proof.
  pose proof quiet_handleTestError. pose proof quiet_recordOutcome.
  pose proof quiet_runSteps. pose proof quiet_createAndRunTest.
  pose proof quiet_uploadArtifacts.
  unfold runTest_main. quiet.
Qed.

Lemma quiet_runTest source : frame (emits unreported) (runTest source).
Proof.
  pose proof quiet_handleTestError. pose proof quiet_runTest_main.
  pose proof quiet_getRunConfig. pose proof quiet_createTempNamespace.
  pose proof quiet_deleteTempNamespace.
  unfold runTest, runTest_configured. quiet.
  destruct (_ && _); [|unfold id]; quiet.
Qed.

Lemma quiet_runTestGroup_setup source (k : RunConfig → M unit) :
  (∀ runConfig, frame (emits unreported) (k runConfig)) →
  frame (emits unreported) (runTestGroup_setup source k).
Proof.
  intros Hk.
  pose proof quiet_handleTestError. pose proof quiet_uploadArtifacts.
  pose proof quiet_getRunConfig. pose proof quiet_createTempNamespace.
  pose proof quiet_deleteTempNamespace.
  unfold runTestGroup_setup, runTestGroup_configured. quiet.
Qed.

Lemma quiet_runTestGroup_listed (n : nat) source listing runConfig :
  (Listing_depth listing ≤ n)%nat →
  frame (emits unreported) (runTestGroup_listed source listing runConfig).
Proof.
  revert source listing runConfig.
  induction n as [|n IH]; intros source [files err] runConfig; cbn [Listing_depth]; [lia|].
  intros Hdepth%le_S_n.
  pose proof quiet_handleTestError. pose proof quiet_recordOutcome.
  pose proof quiet_runSteps. pose proof quiet_createAndRunTest.
  cbn [runTestGroup_listed]. destruct err as [err|]; [quiet|].
  apply frame_defer; [apply emits_trans | quiet |].
  apply frame_bind; [apply emits_trans | quiet |]. intros [err|]; [quiet|].
  induction files as [|[name [sub|]] rest IHfiles]; cbn [runTestGroup_loop].
  - quiet.
  - fold (runTestGroup_loop
            (λ name sub, runTestGroup_setup name (runTestGroup_listed name sub))
            source runConfig rest).
    apply frame_bind; [apply emits_trans | | intros; apply IHfiles; lia].
    unfold runTestGroup_entry. cbn [snd fst].
    destruct (Recursive runConfig); [|quiet].
    apply quiet_runTestGroup_setup. intros c. apply IH. lia.
  - fold (runTestGroup_loop
            (λ name sub, runTestGroup_setup name (runTestGroup_listed name sub))
            source runConfig rest).
    apply frame_bind; [apply emits_trans | | intros; apply IHfiles; lia].
    unfold runTestGroup_entry. cbn [snd fst]. quiet.
Qed.

Lemma quiet_runTestGroup source : frame (emits unreported) (runTestGroup source).
Proof.
  unfold runTestGroup. apply quiet_runTestGroup_setup. intros runConfig.
  apply frame_bind; [apply emits_trans | apply frame_read, emits_refl |]. intros listing.
  by apply (quiet_runTestGroup_listed (Listing_depth listing)).
Qed.

Lemma quiet_run_body source : frame (emits unreported) (run_body source).
Proof.
  pose proof quiet_runTest. pose proof quiet_runTestGroup. unfold run_body. quiet.
Qed.

End Reports.

(** X20.  [run] makes its reports once, at the very end, and only for a waiting
    invocation: nothing that runs before, in a single test or in a whole
    tree of directories, makes a report.  A waiting invocation generates
    the report of the chosen format, unless that is the default or the
    summary format, and then prints the summary, both from the results as
    they stand when the tests are done; what [run] returns is not changed
    by them.  Only the first argument is looked at, and the results start
    out empty. *)
Theorem run_reports {P : Platform} source more (w : World) :
  let out := run_body source (set_results w {| Suites := [] |}) in
  let format := ReportFormat (opts w) in
  let reports :=
    (if negb (String.eqb format DefaultOutput) && negb (String.eqb format SummaryOutput)
     then [EvGenerateReport (results out.2) format] else [])
    ++ [EvPrintSummaryReport (results out.2)] in
  (∃ evs, trace out.2 = trace w ++ evs ∧ Forall unreported evs)
  ∧ (run (source :: more) w).1 = out.1
  ∧ trace (run (source :: more) w).2
    = trace out.2 ++ (if Wait (opts w) then reports else [])
  ∧ results (run (source :: more) w).2 = results out.2
  ∧ stdout (run (source :: more) w).2 = stdout out.2.
Proof.
  cbv zeta. split.
  { destruct (run_body source _) as [r wb] eqn:Hb.
    by apply quiet_run_body in Hb. }
  unfold run. cbn [lookup list_lookup]. cbv zeta. fold (run_body source).
  rewrite bind_unfold. cbn beta iota. rewrite (bind_unfold get_opts). cbn [get_opts].
  cbn beta iota. cbn [opts set_results].
  destruct (Wait (opts w)); [|split_and!; rewrite ?app_nil_r; reflexivity].
  destruct (negb _ && negb _); unfold defer;
    destruct (run_body source _) as [r wb];
    unfold mbind, M_bind, get_results, call_, add_trace, set_sys; cbn;
    split_and!; rewrite <- ?app_assoc; reflexivity.
Qed.

(** ** The entries of a directory *)

Section Entries.
Context {P : Platform}.

Lemma runTestGroup_loop_skip recurse source runConfig f rest (w : World) :
  recursing runConfig f = false → matching runConfig f = false →
  runTestGroup_loop recurse source runConfig (f :: rest) w
  = runTestGroup_loop recurse source runConfig rest w.
Proof.
  intros Hr Hm. cbn [runTestGroup_loop].
  by rewrite (runTestGroup_entry_other _ _ _ _ Hr Hm).
Qed.

End Entries.

(** X21.  The loop of [runTestGroup] passes over every entry that is neither a
    file named [*.feature] nor a directory to recurse into: such entries
    can be taken out of the listing, and a listing of such entries only
    changes nothing.  A directory is recursed into only in a recursive
    run; in a run that is not, a directory named [*.feature] is handed to
    [createAndRunTest] like a file. *)
Theorem runTestGroup_passes_over {P : Platform} recurse source runConfig :
  (∀ files (w : World),
      runTestGroup_loop recurse source runConfig files w
      = runTestGroup_loop recurse source runConfig
          (filter (λ f, matching runConfig f || recursing runConfig f) files) w)
  ∧ (∀ files (w : World),
      Forall (λ f, matching runConfig f || recursing runConfig f = false) files →
      runTestGroup_loop recurse source runConfig files w = (Done tt, w))
  ∧ (∀ name sub,
      Recursive runConfig = false →
      strings.HasSuffix name FileSuffix = true →
      runTestGroup_entry recurse source runConfig (name, Some sub)
      = '(test, err) ← createAndRunTest (path_Join source name) runConfig;
        recordOutcome (Namespace_Name runConfig) (path_Join source name) test err).
Proof.
  assert (Hfilter : ∀ files (w : World),
             runTestGroup_loop recurse source runConfig files w
             = runTestGroup_loop recurse source runConfig
                 (filter (λ f, matching runConfig f || recursing runConfig f) files) w).
  { intros files. induction files as [|f rest IH]; intros w; [done|].
    rewrite filter_cons. destruct (decide _) as [Hf|Hf].
    - cbn [runTestGroup_loop]. rewrite !bind_unfold.
      destruct (runTestGroup_entry _ _ _ _ w) as [[[]|?] w1]; [apply IH | done].
    - apply Is_true_false, orb_false_elim in Hf as [Hm Hr].
      by rewrite runTestGroup_loop_skip. }
  split_and!; [done| |].
  - intros files w Hall. rewrite Hfilter.
    replace (filter _ files) with (@nil FileInfo); [done|].
    symmetry. induction Hall as [|f rest Hf _ IH]; [done|].
    rewrite filter_cons. destruct (decide _) as [Hf'|_]; [|done]. by rewrite Hf in Hf'.
  - intros name sub Hflat Hsuffix. unfold runTestGroup_entry. cbn [snd fst FileInfo_Name].
    by rewrite Hflat, Hsuffix.
Qed.

Lemma runTestGroup_passes_over_witness :
  runTestGroup_loop (λ _ _, mret tt) "tests" config0
    [("README.md", None); ("notes.txt", None)] world0
  = (Done tt, world0).
Proof.
  destruct (runTestGroup_passes_over (P := sim) (λ _ _, mret tt) "tests" config0)
    as (_ & Hnone & _).
  apply Hnone. repeat constructor.
Defined.

(** X22.  A run whose namespace is not temporary takes the cluster as it is: a
    single test makes no call that creates or removes a namespace, looks
    for an operator instance or installs one; what it calls are uploads,
    steps, the Test resource, its watcher and logs, and the saving of
    results. *)
Theorem fixed_namespace_run {P : Platform} source runConfig (w : World) r w' :
  Namespace_Temporary runConfig = false →
  runTest_configured source runConfig w = (r, w') →
  ∃ evs, trace w' = trace w ++ evs
    ∧ Forall (λ ev, class_of ev ∈ [ClUpload; ClHook; ClTest; ClWatch; ClReport]) evs.
Proof.
  intros Hfixed. unfold runTest_configured. rewrite Hfixed.
  intros (evs & Hevs & Hall)%emits_runTest_main. exists evs. split; [done|].
  eapply Forall_impl; [exact Hall|]. intros ev. unfold of_class, after_setup.
  by intros ?%bool_decide_eq_true.
Qed.

Lemma fixed_namespace_run_witness :
  ∃ evs,
    trace (runTest_configured "tests/a.feature" config0 world0).2 = trace world0 ++ evs
    ∧ Forall (λ ev, class_of ev ∈ [ClUpload; ClHook; ClTest; ClWatch; ClReport]) evs.
Proof.
  apply (fixed_namespace_run (P := sim) "tests/a.feature" config0 world0
           (runTest_configured "tests/a.feature" config0 world0).1
           (runTest_configured "tests/a.feature" config0 world0).2).
  - reflexivity.
  - by destruct (runTest_configured _ _ _).
Defined.

(** ** Settings, refusals and results *)

Section Settings.
Context {P : Platform}.

Lemma newSettings_run o runConfig (w : World) settings w' :
  newSettings o runConfig w = (Done (settings, None), w') →
  default SettingsSpec_zero settings = settings_of o runConfig (sys w)
  ∧ (o_Settings o ≠ "" → readable (sys w) (resolvePath runConfig (o_Settings o))).
Proof.
  unfold newSettings, settings_of, readable.
  destruct (String.eqb (o_Settings o) "") eqn:E; cbn [negb].
  - apply String.eqb_eq in E. destruct (_ || _).
    + destruct (yaml_Marshal _) as [data [err|]]; [discriminate|]. by intros [= <- <-].
    + by intros [= <- <-].
  - rewrite (bind_Done (read _) _ w _ w eq_refl).
    destruct (loadData _ (sys w)) as [data [err|]]; [discriminate|]. by intros [= <- <-].
Qed.

End Settings.

(** X23.  The settings of the Test that [createAndRunTest] builds are the file
    named by [--settings], under its sanitized file name, whenever that
    option is set; the settings of the run configuration, as YAML under the
    name [yaks.settings.yaml], only when it is not; and empty when the run
    configuration has none either.  With [--settings] the Test is only
    built when that file could be read. *)
Theorem built_test_settings {P : Platform} rawName runConfig (w w1 : World) test :
  buildTest rawName runConfig w = (Done (inr test), w1) →
  Settings (Spec test) = settings_of (opts w) runConfig (sys w)
  ∧ (o_Settings (opts w) ≠ "" →
     Settings_Name (Settings (Spec test)) = SanitizeFileName (o_Settings (opts w))
     ∧ readable (sys w) (resolvePath runConfig (o_Settings (opts w)))).
Proof.
  unfold buildTest. rewrite (bind_Done get_opts _ w (opts w) w eq_refl).
  destruct (String.eqb _ ""); [discriminate|].
  intros (data & _ & Hrun)%or_fail_inr; [|apply reads_read].
  apply or_fail_inr in Hrun as (t1 & Ht1 & Hrun); [|apply reads_appendResources].
  apply or_fail_inr in Hrun as (t2 & Ht2 & Hrun); [|apply reads_appendResources].
  apply or_fail_inr in Hrun as (t3 & Ht3 & Hrun); [|apply reads_appendResources].
  apply or_fail_inr in Hrun as (settings & Hsettings & Hrun); [|apply reads_newSettings].
  apply or_fail_inr in Hrun as (t4 & Ht4 & Hrun); [|apply reads_ret].
  apply mret_inv in Ht4 as [Hs _]. apply mret_inv in Hrun as [Ht _].
  apply appendResources_run in Ht1 as [-> _].
  apply appendResources_run in Ht2 as [-> _].
  apply appendResources_run in Ht3 as [-> _].
  apply newSettings_run in Hsettings as [Hset Hread].
  match type of Hs with setupEnvSettings ?o ?t ?c = _ =>
    pose proof (setupEnvSettings_rest o t c) as Hrest; rewrite Hs in Hrest end.
  cbn [fst] in Hrest. injection Ht as <-. clear Hs.
  apply (f_equal (λ t, Settings (Spec t))) in Hrest.
  assert (Settings (Spec t4) = default SettingsSpec_zero settings) as Ht4.
  { revert Hrest. by destruct settings, (o_Dev (opts w)). }
  assert (Hfinal : ∀ t, Settings (Spec
            (if Runtime_TestContainers_Enabled runConfig
             then with_KubeDock
                    (if negb (String.eqb (Runtime_Selenium_Image runConfig) "")
                     then with_Selenium
                            (if negb (String.eqb (Runtime_Secret runConfig) "")
                             then with_Secret t (Runtime_Secret runConfig) else t)
                            (Runtime_Selenium_Image runConfig)
                     else if negb (String.eqb (Runtime_Secret runConfig) "")
                          then with_Secret t (Runtime_Secret runConfig) else t)
                    "joyrex2001/kubedock:0.7.0"
             else if negb (String.eqb (Runtime_Selenium_Image runConfig) "")
                  then with_Selenium
                         (if negb (String.eqb (Runtime_Secret runConfig) "")
                          then with_Secret t (Runtime_Secret runConfig) else t)
                         (Runtime_Selenium_Image runConfig)
                  else if negb (String.eqb (Runtime_Secret runConfig) "")
                       then with_Secret t (Runtime_Secret runConfig) else t))
          = Settings (Spec t)).
  { intros t. by repeat case_match. }
  rewrite Hfinal, Ht4, Hset. split; [done|].
  intros Hne. split; [|by apply Hread].
  unfold settings_of. apply String.eqb_neq in Hne. by rewrite Hne.
Qed.

Lemma built_test_settings_witness :
  Settings_Name (Settings (Spec test_settings))
  = SanitizeFileName (Platform := sim)
      (o_Settings (opts (world_of state_settings options_settings)))
  ∧ readable (P := sim) (sys (world_of state_settings options_settings))
      (resolvePath config0 (o_Settings (opts (world_of state_settings options_settings)))).
Proof.
  refine (proj2 (built_test_settings (P := sim) "tests/a.feature" config0
                   (world_of state_settings options_settings) _ test_settings _) _).
  - apply outcome_split. vm_compute. reflexivity.
  - discriminate.
Defined.

(** X24.  When the cluster refuses the Test for any reason other than that it
    exists already, [createAndRunTest] returns that error and no test: it
    makes no further call, so nothing is fetched, updated, watched or
    logged, and it prints nothing. *)
Theorem createAndRunTest_create_refused {P : Platform} rawName runConfig (w : World) test e :
  DumpFormat (opts w) = "" →
  (buildTest rawName runConfig w).1 = Done (inr test) →
  (client_Create test (sys w)).1.2 = Some e →
  IsAlreadyExists e = false →
  createAndRunTest rawName runConfig w
  = (Done (None, Some e), after_calls w (client_Create test (sys w)).2 [EvCreate test]).
Proof.
  intros Hd Hb Hcreate Hother.
  assert (buildTest rawName runConfig w = (Done (inr test), w)) as Hbuilt.
  { destruct (reads_buildTest rawName runConfig w) as [a Ha].
    rewrite Ha in Hb |- *. cbn in Hb. by injection Hb as ->. }
  destruct (client_Create test (sys w)) as [[t1 err] s1] eqn:Ecreate.
  cbn in Hcreate. subst err. cbn [snd].
  by rewrite (createAndRunTest_submit _ _ _ _ Hd Hbuilt),
    (submitTest_create_failed _ _ _ _ _ Ecreate Hother).
Qed.

Lemma createAndRunTest_create_refused_witness :
  createAndRunTest (P := faulty forbidden) "tests/a.feature" config0
    (faulty_world forbidden state0 options0)
  = (Done (None, Some {| Reason := "Forbidden"; Error := "tests is forbidden" |}),
     after_calls (faulty_world forbidden state0 options0)
       (client_Create (Platform := faulty forbidden) test_a state0).2 [EvCreate test_a]).
Proof.
  by apply (createAndRunTest_create_refused (P := faulty forbidden) "tests/a.feature" config0
              (faulty_world forbidden state0 options0) test_a).
Defined.

(** X25.  On the single-test path a temporary namespace that was created is
    removed exactly when [AutoRemove] is set and the invocation waits:
    also when [createTempNamespace] handed the namespace back together
    with an error, and never for an invocation that does not wait. *)
Theorem runTest_removes_namespace {P : Platform} source runConfig (w w1 : World)
    ns err runConfig1 r w' :
  Namespace_Temporary runConfig = true →
  createTempNamespace runConfig w = (Done (Some ns, err, runConfig1), w1) →
  runTest_configured source runConfig w = (Done r, w') →
  ∃ evs,
    trace w' = trace w1 ++ evs
    ∧ existsb is_delete evs = Namespace_AutoRemove runConfig1 && Wait (opts w1).
Proof. apply runTest_teardown. Qed.

Lemma runTest_removes_namespace_witness :
  ∃ evs,
    trace (runTest_configured "tests/a.feature" (with_temporary Sim.defaults true true)
             (world_of (state_temporary (Some (errors_New "no cluster-admin"))) options0)).2
    = trace (createTempNamespace (with_temporary Sim.defaults true true)
               (world_of (state_temporary (Some (errors_New "no cluster-admin")))
                  options0)).2
      ++ evs
    ∧ existsb is_delete evs
      = Namespace_AutoRemove
          (with_Namespace_Name (with_temporary Sim.defaults true true) "yaks-0")
        && Wait (opts (createTempNamespace (with_temporary Sim.defaults true true)
                         (world_of (state_temporary (Some (errors_New "no cluster-admin")))
                            options0)).2).
Proof.
  apply (runTest_removes_namespace (P := sim) "tests/a.feature"
           (with_temporary Sim.defaults true true)
           (world_of (state_temporary (Some (errors_New "no cluster-admin"))) options0)
           (createTempNamespace (with_temporary Sim.defaults true true)
              (world_of (state_temporary (Some (errors_New "no cluster-admin")))
                 options0)).2
           {| ns_Name := "yaks-0"; ns_Project := false |}
           (Some (errors_New "no cluster-admin"))
           (with_Namespace_Name (with_temporary Sim.defaults true true) "yaks-0") tt
           (runTest_configured "tests/a.feature" (with_temporary Sim.defaults true true)
              (world_of (state_temporary (Some (errors_New "no cluster-admin")))
                 options0)).2).
  - reflexivity.
  - apply outcome_split. vm_compute. reflexivity.
  - apply outcome_split. vm_compute. reflexivity.
Defined.

(** X26.  An inline command is run through a temporary script: [runSteps]
    creates the file, writes the header [#!/bin/bash], [set -e] and then
    the command, closes the file, makes it executable, runs it like a
    script of the step, and removes it.  The file is removed whether the
    command succeeds or fails.  A failure is returned as what [fmt.Errorf]
    makes of the text "Failed to run <step>: <cause>", which it is handed
    as its format; <step> is the name of the step, or [step-0] when it has
    none. *)
Theorem runSteps_inline_command {P : Platform} step namespace baseDir (w : World)
    file s1 s2 s3 s4 s5 d err s6 :
  skipStep (host (sys w)) step = Some false →
  step_Script step = "" →
  step_Run step ≠ "" →
  TempFile (sys w) = ((file, None), s1) →
  WriteString file scriptHeader s1 = (None, s2) →
  WriteString file (step_Run step) s2 = (None, s3) →
  file_Close file s3 = (None, s4) →
  Chmod file s4 = (None, s5) →
  ParseDuration (if String.eqb (step_Timeout step) "" then DefaultTimeout
                 else step_Timeout step) = (d, None) →
  let desc := step_name 0 step in
  let executor :=
    if String.eqb (GOOS (host s5)) "windows" then "powershell.exe" else "/bin/bash" in
  let script := resolve (host s5) file in
  command_Run executor script namespace baseDir d s5 = (err, s6) →
  runSteps [step] namespace baseDir w
  = (Done (match err with
           | Some e => Some (fmt_Errorf ("Failed to run " +:+ desc +:+ ": " +:+ Error e))
           | None => None
           end),
     {| sys := Remove file s6;
        stdout := stdout w ++ (("Running " +:+ desc +:+ ":") +:+ nl)
                  :: match err with
                     | Some e => [("Failed to run " +:+ desc +:+ ": " +:+ nl +:+ Error e)
                                  +:+ nl]
                     | None => []
                     end;
        stderr := stderr w;
        trace := trace w ++ [EvTempFile "yaks-script-*.sh";
                             EvWriteString file scriptHeader;
                             EvWriteString file (step_Run step);
                             EvClose file; EvChmod file;
                             EvExec executor script namespace baseDir d;
                             EvRemove file];
        opts := opts w; results := results w |}).
Proof.
  intros Hskip Hscript Hrun Htemp Hw1 Hw2 Hclose Hchmod Hd desc executor script Hcmd.
  unfold runSteps. rewrite (runSteps_from_step _ _ _ _ _ _ Hskip).
  destruct (named_step 0 step) as (Hname & Hscr & Hinl & Htime & Hdesc & _).
  unfold runSteps_script, runSteps_run, nonempty_string.
  rewrite Hname, Hscr, Hinl, Htime, Hscript. fold desc in Hdesc |- *.
  cbn [String.length Nat.eqb negb].
  assert (Nat.eqb (String.length (step_Run step)) 0 = false) as ->
    by (by destruct (step_Run step)).
  cbn [negb].
  rewrite (bind_Done _ _ _ _ _ (call_run _ _ _ _ _ Htemp)). cbn beta iota. cbn [or_return].
  unfold defer.
  set (w1 := after_calls w s1 [EvTempFile "yaks-script-*.sh"]).
  rewrite (bind_Done _ _ w1 None _ (call_run _ _ w1 _ _ Hw1)). cbn [or_return].
  set (w2 := after_calls w1 s2 [EvWriteString file scriptHeader]).
  rewrite (bind_Done _ _ w2 None _ (call_run _ _ w2 _ _ Hw2)). cbn [or_return].
  set (w3 := after_calls w2 s3 [EvWriteString file (step_Run step)]).
  rewrite (bind_Done _ _ w3 None _ (call_run _ _ w3 _ _ Hclose)). cbn [or_return].
  set (w4 := after_calls w3 s4 [EvClose file]).
  rewrite (bind_Done _ _ w4 None _ (call_run _ _ w4 _ _ Hchmod)). cbn [or_return].
  set (w5 := after_calls w4 s5 [EvChmod file]).
  rewrite Hdesc.
  rewrite (bind_Done _ _ w5 _ _ (runScript_run _ desc _ _ _ w5 _ _ _ Hd Hcmd)).
  destruct err as [e|]; unfold call_, add_trace, set_sys; cbn; by rewrite <- !app_assoc.
Qed.

Lemma runSteps_inline_command_witness :
  (runSteps [inline_step] "default" "tests" world0).1 = Done None.
Proof.
  by rewrite (runSteps_inline_command (P := sim) inline_step "default" "tests" world0
                "/tmp/yaks-script-0.sh" (Sim.tick state0) (Sim.tick state0) (Sim.tick state0)
                (Sim.tick state0) (Sim.tick state0) 10%Z None (Sim.tick state0)
                eq_refl eq_refl ltac:(discriminate)
                eq_refl eq_refl eq_refl eq_refl eq_refl eq_refl eq_refl).
Defined.

(** ** From the uploads to the Test *)

Lemma setupEnvSettings_dependencies o test runConfig :
  Dependencies o ≠ [] →
  (DependenciesEnv +:+ "=" +:+ strings.Join (Dependencies o) ",")
  ∈ Env (Spec (setupEnvSettings o test runConfig).1).
Proof.
  intros Hdeps. unfold setupEnvSettings. cbv zeta.
  rewrite !app_nil_l. env_normalise.
  match goal with |- context [nonempty ?l] =>
    replace (nonempty l) with true by (by rewrite <- !app_assoc) end.
  cbn [fst with_Env with_Spec Spec Env].
  assert (nonempty (Dependencies o) = true) as -> by (by destruct (Dependencies o)).
  set_solver.
Qed.

(** X27.  The libraries that [uploadArtifacts] has uploaded reach the test: a
    Test that [createAndRunTest] builds afterwards lists the dependencies
    of the command line followed by one dependency per uploaded library,
    joined by commas, in its [YAKS_DEPENDENCIES] entry. *)
Theorem uploads_reach_test {P : Platform} rawName runConfig (w w1 w2 : World) test :
  uploadArtifacts runConfig w = (Done None, w1) →
  buildTest rawName runConfig w1 = (Done (inr test), w2) →
  Dependencies (opts w1) ≠ [] →
  (DependenciesEnv +:+ "=" +:+ strings.Join (Dependencies (opts w1)) ",")
  ∈ Env (Spec test)
  ∧ ∃ deps,
      Dependencies (opts w1) = Dependencies (opts w) ++ deps
      ∧ length deps = length (Uploads (opts w)).
Proof.
  intros Hup Hb Hdeps. split.
  - destruct (buildTest_inr _ _ _ _ _ Hb) as (_ & _ & t0 & ->).
    by apply setupEnvSettings_dependencies.
  - revert Hup. unfold uploadArtifacts.
    rewrite (bind_Done get_opts _ w (opts w) w eq_refl). intros Hup.
    destruct (uploadArtifacts_from_run runConfig (Uploads (opts w)) w)
      as (err & deps & Hr & Hd & _ & _ & Hl & _).
    rewrite Hup in Hr, Hd. cbn in Hr, Hd. injection Hr as <-. by exists deps.
Qed.

Lemma uploads_reach_test_witness :
  "YAKS_DEPENDENCIES=org.acme:steps:1.0,lib.jar" ∈ Env (Spec test_uploads).
Proof.
  refine (proj1 (uploads_reach_test (P := sim) "tests/a.feature" config0
                   (world_of state0 options_uploads)
                   (uploadArtifacts config0 (world_of state0 options_uploads)).2
                   (buildTest "tests/a.feature" config0
                      (uploadArtifacts config0 (world_of state0 options_uploads)).2).2
                   test_uploads _ _ _)).
  - apply outcome_split. vm_compute. reflexivity.
  - apply outcome_split. vm_compute. reflexivity.
  - vm_compute. discriminate.
Defined.

(** ** The steps of a directory *)

(** X28.  In a directory run the steps frame the whole directory.  A directory
    that cannot be listed is recorded as an error and neither its pre nor
    its post steps run.  When a pre step fails, the error is recorded for
    the directory, none of its files is handed to [createAndRunTest], and
    the post steps run after that.  When the pre steps pass, the post
    steps run once, after the last entry of the directory. *)
Theorem runTestGroup_steps {P : Platform} source runConfig files :
  (∀ err (w : World),
      runTestGroup_listed source (ReadDirResult files (Some err)) runConfig w
      = handleTestError (Namespace_Name runConfig) source err w)
  ∧ (∀ err (w w1 : World),
      runSteps (Pre runConfig) (Namespace_Name runConfig) (BaseDir runConfig) w
      = (Done (Some err), w1) →
      runTestGroup_listed source (ReadDirResult files None) runConfig w
      = then_post runConfig (handleTestError (Namespace_Name runConfig) source err w1))
  ∧ (∀ (w w1 : World),
      runSteps (Pre runConfig) (Namespace_Name runConfig) (BaseDir runConfig) w
      = (Done None, w1) →
      runTestGroup_listed source (ReadDirResult files None) runConfig w
      = then_post runConfig
          (runTestGroup_loop
             (λ name sub, runTestGroup_setup name (runTestGroup_listed name sub))
             source runConfig files w1)).
Proof.
  split_and!.
  - done.
  - intros err w w1 Hpre. cbn [runTestGroup_listed]. unfold defer, then_post.
    rewrite (bind_Done _ _ _ _ _ Hpre).
    destruct (handleTestError _ _ _ _) as [rh w3]. cbn [fst snd].
    rewrite bind_unfold.
    by destruct (runSteps (Post runConfig) _ _ w3) as [[rp|reason] w4].
  - intros w w1 Hpre. cbn [runTestGroup_listed]. unfold defer, then_post.
    rewrite (bind_Done _ _ _ _ _ Hpre).
    destruct (runTestGroup_loop _ _ _ _ _) as [rl w3]. cbn [fst snd].
    rewrite bind_unfold.
    by destruct (runSteps (Post runConfig) _ _ w3) as [[rp|reason] w4].
Qed.

Lemma runTestGroup_steps_witness :
  runTestGroup_listed "tests" listing_tests config_hooks (world_hooks ["setup.sh"])
  = then_post config_hooks
      (handleTestError (Namespace_Name config_hooks) "tests"
         (errors_New "Failed to run setup: exit status 1")
         (runSteps (Pre config_hooks) (Namespace_Name config_hooks) (BaseDir config_hooks)
            (world_hooks ["setup.sh"])).2).
Proof.
  destruct (runTestGroup_steps (P := sim) "tests" config_hooks
              [("a.feature", None); ("b.feature", None)]) as (_ & Hfailed & _).
  apply Hfailed. apply outcome_split. vm_compute. reflexivity.
Defined.
